(** * win-trades: strategy consensus, backtesting engine and optimizer

    A shallow embedding of [src/lib/trading-strategies.ts], of
    [src/lib/trading-execution.ts] (the execution service and the
    backtesting engine) and of the POST handler of
    [src/app/api/backtest/route.ts], followed by the properties of the
    specification that concern them and by further properties of the code.

    Conventions of the embedding.
    - A JavaScript [number] is an IEEE 754 binary64 value: Rocq's primitive
      [float].  [NaN], [Infinity] and signed zeros behave as in the source.
    - A property that may be absent from an object (the bars handed to the
      strategies are typed [any]) is an [option]; [None] is [undefined].
    - Array lengths, vote counters and indicator periods are integers in the
      source and are kept as [nat]; [lenF] injects them into [float] where the
      source does arithmetic with them.
    - An ISO timestamp string is represented by the time value that
      [new Date(s).getTime()] gives it ([NaN] when the string does not parse).
    - [throw new Error(msg)] is the left injection of a sum; a strategy whose
      [analyze] rejects answers [None].
    - What the code takes from outside is an argument: the readings of the
      wall clock, the answers of the inference service, the draws of
      [Math.random()] and the rendering [toFixed] of a number.
    - A call of an [async] method runs to its end before the next call
      begins, unless a property is about calls that overlap: [executeOrder]
      is therefore written in two parts, before and after its first
      [await]. *)

From Stdlib Require Import Floats Numbers.Cyclic.Int63.Uint63.
From Stdlib Require Import ZArith QArith Lia List Bool Permutation.
From Stdlib Require Import Strings.String Strings.Ascii DecimalString.
From stdpp Require Import gmap strings.
Import ListNotations.

Set Warnings "-inexact-float".
(** [xs.filter(p)] is the list filter on boolean predicates. *)
Abbreviation filter := List.filter (only parsing).
Local Open Scope string_scope.
Local Open Scope list_scope.
Local Open Scope nat_scope.

(** ** JavaScript numbers *)

Module JS.

(** An integer of the source as a [number]. *)
Definition lenF (n : nat) : float :=
  PrimFloat.of_uint63 (Uint63.of_Z (Z.of_nat n)).

(** A property value that may be [undefined]. *)
Definition value := option float.

(** [ToNumber]: [undefined] becomes [NaN]. *)
Definition toNumber (v : value) : float :=
  match v with Some f => f | None => nan end.

(** [ToBoolean] on a number or [undefined]: [0], [-0], [NaN] and
    [undefined] are falsy. *)
Definition truthy (v : value) : bool :=
  match v with
  | Some f => negb (PrimFloat.is_zero f || PrimFloat.is_nan f)
  | None => false
  end.

(** [a || b]. *)
Definition or (a b : value) : value := if truthy a then a else b.

(** [Math.max(a, b)]: [NaN] if either is; [+0] is larger than [-0]. *)
Definition Math_max (a b : float) : float :=
  if PrimFloat.is_nan a || PrimFloat.is_nan b then nan
  else if PrimFloat.ltb a b then b
  else if PrimFloat.ltb b a then a
  else if PrimFloat.is_zero a then PrimFloat.add a b
  else a.

(** [Math.min(a, b)]. *)
Definition Math_min (a b : float) : float :=
  PrimFloat.opp (Math_max (PrimFloat.opp a) (PrimFloat.opp b)).

(** [Math.max(...xs)]: [-Infinity] for no argument. *)
Definition Math_max_list (xs : list float) : float :=
  fold_left Math_max xs neg_infinity.

Definition Math_abs : float -> float := PrimFloat.abs.
Definition Math_sqrt : float -> float := PrimFloat.sqrt.

(** [Math.pow(x, 2)], taken to be the correctly rounded square. *)
Definition Math_pow2 (x : float) : float := PrimFloat.mul x x.

(** [xs.reduce((sum, x) => sum + x, 0)]. *)
Definition sum (xs : list float) : float :=
  fold_left PrimFloat.add xs 0%float.

(** [a !== 0] on numbers. *)
Definition neq0 (a : float) : bool := negb (PrimFloat.eqb a 0%float).

(** [`${n}`] for an integer. *)
Definition string_of_nat (n : nat) : string :=
  NilZero.string_of_uint (Nat.to_uint n).
Definition string_of_Z (z : Z) : string :=
  NilZero.string_of_int (Z.to_int z).

(** A value of type [any] as the parameter ranges hold them. *)
Inductive any :=
| Num (x : float)
| Str (s : string)
| Bool (b : bool)
| Undefined.

(** An object literal: its own properties in enumeration order. *)
Definition object := list (string * any).

(** What a [throw] carries. *)
Inductive exn :=
| Error (message : string)
| TypeError.

(** [a > b / 2] on two integers: exact in binary64, computed on
    rationals. *)
Definition gt_half (a b : nat) : bool :=
  negb (Qle_bool (inject_Z (Z.of_nat a))
                 (Qdiv (inject_Z (Z.of_nat b)) (inject_Z 2))).

(** [xs.slice(-n)]: the last [n] elements ([slice(-0)] is the whole
    array). *)
Definition slice_last {A} (n : nat) (xs : list A) : list A :=
  match n with
  | O => xs
  | _ => skipn (length xs - n) xs
  end.

End JS.

(** ** trading-strategies.ts *)

Module Strategies.
Import JS.

Inductive Action := buy | sell | hold.

Definition Action_eqb (a b : Action) : bool :=
  match a, b with
  | buy, buy | sell, sell | hold, hold => true
  | _, _ => false
  end.

(** One reading of the wall clock: [Date.now()] and
    [new Date().toISOString()]. *)
Record Clock := {
  Date_now : Z;
  Date_toISOString : string
}.

(** An element of the [marketData: any[]] arrays: every property may be
    missing. *)
Record MarketDatum := {
  md_symbol : option string;
  md_price : value;
  md_high : value;
  md_low : value;
  md_close : value;
  md_volume : value
}.

Record StrategySignal := {
  symbol : option string;
  action : Action;
  strength : float;
  confidence : float;
  entryPrice : value;
  stopLoss : value;
  takeProfit : value;
  reason : string;
  timestamp : string
}.

Record Indicators := {
  rsiPeriod : nat;
  rsiOverbought : float;
  rsiOversold : float;
  macdFast : nat;
  macdSlow : nat;
  macdSignal : nat;
  smaShort : nat;
  smaLong : nat
}.

Record StrategyParameters := {
  timeframe : string;
  riskPerTrade : float;
  maxPositions : nat;
  indicators : Indicators
}.

Record BacktestResult := {
  totalTrades : nat;
  winningTrades : nat;
  losingTrades : nat;
  winRate : float;
  totalReturn : float;
  maxDrawdown : float;
  sharpeRatio : float;
  profitFactor : float;
  averageWin : float;
  averageLoss : float
}.

(** The part of [abstract class TradingStrategy] that the manager calls:
    [analyze], with the clock reading it stamps the signal with.  [None]
    stands for a rejected promise (an exception inside [analyze]). *)
Record Strategy := {
  analyze : Clock -> list MarketDatum -> option StrategySignal
}.

(** [xs[xs.length - 1]]: [None] when the array is empty. *)
Definition latestOf {A} (xs : list A) : option A :=
  nth_error xs (length xs - 1).

(** [d.close || d.price]. *)
Definition closeOrPrice (d : MarketDatum) : value :=
  JS.or (md_close d) (md_price d).

(** Consecutive elements [(xs[i-1], xs[i])] for [i = 1 .. length-1]. *)
Definition consecutive {A} (xs : list A) : list (A * A) :=
  combine xs (tl xs).

(** *** class TradingStrategy (the shared helpers) *)
Module TradingStrategy.

Definition calculateStopLoss (entryPrice : value) (a : Action) (atr : float)
  : float :=
  let stopDistance := (atr * 2)%float in
  if Action_eqb a buy then (toNumber entryPrice - stopDistance)%float
  else (toNumber entryPrice + stopDistance)%float.

Definition calculateTakeProfit (entryPrice : value) (a : Action) (atr : float)
  : float :=
  let profitDistance := (atr * 3)%float in
  if Action_eqb a buy then (toNumber entryPrice + profitDistance)%float
  else (toNumber entryPrice - profitDistance)%float.

Definition trueRange (pc : MarketDatum * MarketDatum) : float :=
  let '(prev, cur) := pc in
  let high := toNumber (JS.or (md_high cur) (md_price cur)) in
  let low := toNumber (JS.or (md_low cur) (md_price cur)) in
  let prevClose := toNumber (JS.or (md_close prev) (md_price prev)) in
  Math_max_list [ (high - low)%float;
                  Math_abs (high - prevClose)%float;
                  Math_abs (low - prevClose)%float ].

Definition calculateATR (data : list MarketDatum) (period : nat) : float :=
  if length data <? period + 1 then 0%float
  else
    let trValues := map trueRange (consecutive data) in
    (JS.sum (slice_last period trValues) / lenF period)%float.

End TradingStrategy.

(** *** class TechnicalAnalysisStrategy *)
Module TechnicalAnalysisStrategy.

Definition changes (closes : list value) : list float :=
  map (fun pc => (toNumber (snd pc) - toNumber (fst pc))%float)
      (consecutive closes).

Definition gains (cs : list float) : list float :=
  filter (fun change => PrimFloat.ltb 0%float change) cs.

Definition losses (cs : list float) : list float :=
  map Math_abs (filter (fun change => PrimFloat.ltb change 0%float) cs).

Definition avgOver (xs : list float) (period : nat) : float :=
  match xs with
  | [] => 0%float
  | _ => (JS.sum xs / lenF period)%float
  end.

Definition calculateRSI (data : list MarketDatum) (period : nat) : float :=
  if length data <? period + 1 then 50%float
  else
    let closes := map closeOrPrice data in
    let cs := changes closes in
    let avgGain := avgOver (gains cs) period in
    let avgLoss := avgOver (losses cs) period in
    if PrimFloat.eqb avgLoss 0%float then 100%float
    else
      let rs := (avgGain / avgLoss)%float in
      (100 - 100 / (1 + rs))%float.

Definition calculateEMA (prices : list value) (period : nat) : value :=
  if length prices <? period then
    JS.or (match latestOf prices with Some v => v | None => None end)
          (Some 0%float)
  else
    let multiplier := (2 / (lenF period + 1))%float in
    match prices with
    | [] => None
    | p0 :: rest =>
        fold_left
          (fun ema p =>
             Some ((toNumber p - toNumber ema) * multiplier
                   + toNumber ema)%float)
          rest p0
    end.

Record MACD := {
  macd : float;
  signal : float;
  histogram : float
}.

Definition calculateMACD (data : list MarketDatum) : MACD :=
  let closes := map closeOrPrice data in
  let ema12 := calculateEMA closes 12 in
  let ema26 := calculateEMA closes 26 in
  let macd := (toNumber ema12 - toNumber ema26)%float in
  let macdValues :=
    map (fun i =>
           let localEMA12 := calculateEMA (firstn (i + 1) closes) 12 in
           let localEMA26 := calculateEMA (firstn (i + 1) closes) 26 in
           (toNumber localEMA12 - toNumber localEMA26)%float)
        (filter (fun i => negb (i <? 26)) (seq 0 (length data))) in
  let signal :=
    if 9 <? length macdValues
    then toNumber (calculateEMA (map Some macdValues) 9)
    else macd in
  {| macd := macd; signal := signal; histogram := (macd - signal)%float |}.

Definition calculateSMA (data : list MarketDatum) (period : nat) : float :=
  if length data <? period then
    toNumber (JS.or (match latestOf data with
                     | Some d => md_price d
                     | None => None
                     end) (Some 0%float))
  else
    let closes := map closeOrPrice (slice_last period data) in
    (JS.sum (map toNumber closes) / lenF period)%float.

Definition countTrue (bs : list bool) : nat :=
  length (filter (fun b => b) bs).

Section Analyze.
(** [x.toFixed(digits)], only used to word the [reason]. *)
Variable Number_toFixed : float -> nat -> string.
Variable parameters : StrategyParameters.

(** [None] stands for the [TypeError] raised on an empty array
    ([latest] is [undefined]). *)
Definition analyze (clock : Clock) (marketData : list MarketDatum)
  : option StrategySignal :=
  let ind := indicators parameters in
  let rsi := calculateRSI marketData (rsiPeriod ind) in
  let m := calculateMACD marketData in
  let smaS := calculateSMA marketData (smaShort ind) in
  let smaL := calculateSMA marketData (smaLong ind) in
  let atr := TradingStrategy.calculateATR marketData 14 in
  let rsiIsOversold := PrimFloat.ltb rsi (rsiOversold ind) in
  let rsiIsOverbought := PrimFloat.ltb (rsiOverbought ind) rsi in
  let macdBullish :=
    PrimFloat.ltb (signal m) (macd m) && PrimFloat.ltb 0%float (histogram m) in
  let macdBearish :=
    PrimFloat.ltb (macd m) (signal m) && PrimFloat.ltb (histogram m) 0%float in
  let smaBullish := PrimFloat.ltb smaL smaS in
  let smaBearish := PrimFloat.ltb smaS smaL in
  let buySignals := countTrue [rsiIsOversold; macdBullish; smaBullish] in
  let sellSignals := countTrue [rsiIsOverbought; macdBearish; smaBearish] in
  let '(act, str, conf, why) :=
    if 2 <=? buySignals then
      (buy,
       Math_min (lenF buySignals * 33)%float 100%float,
       Math_min ((lenF buySignals / 3) * 100)%float 100%float,
       "Multiple bullish signals: RSI(" +:+ Number_toFixed rsi 1
         +:+ "), MACD bullish crossover, SMA bullish")
    else if 2 <=? sellSignals then
      (sell,
       Math_min (lenF sellSignals * 33)%float 100%float,
       Math_min ((lenF sellSignals / 3) * 100)%float 100%float,
       "Multiple bearish signals: RSI(" +:+ Number_toFixed rsi 1
         +:+ "), MACD bearish crossover, SMA bearish")
    else (hold, 0%float, 0%float, "") in
  match latestOf marketData with
  | None => None
  | Some latest =>
      Some {| symbol := md_symbol latest;
              action := act;
              strength := str;
              confidence := conf;
              entryPrice := md_price latest;
              stopLoss :=
                if Action_eqb act hold then None
                else Some (TradingStrategy.calculateStopLoss
                             (md_price latest) act atr);
              takeProfit :=
                if Action_eqb act hold then None
                else Some (TradingStrategy.calculateTakeProfit
                             (md_price latest) act atr);
              reason := why;
              timestamp := Date_toISOString clock |}
  end.
End Analyze.

End TechnicalAnalysisStrategy.

(** *** class MachineLearningStrategy *)
Module MachineLearningStrategy.

(** The parsed JSON answer of the inference service, taken to have the
    shape the prompt asks for: an action that is "buy", "sell" or "hold",
    and numbers for the strength and the confidence.  The code copies the
    three fields into the signal unchecked, so an answer of another shape
    is outside what is modelled here. *)
Record AiResult := {
  ai_action : Action;
  ai_strength : float;
  ai_confidence : float;
  ai_reason : string
}.

Definition getFallbackSignal (clock : Clock) (latest : MarketDatum)
  : StrategySignal :=
  {| symbol := md_symbol latest;
     action := hold;
     strength := 50%float;
     confidence := 50%float;
     entryPrice := md_price latest;
     stopLoss := None;
     takeProfit := None;
     reason := "AI analysis unavailable - holding position";
     timestamp := Date_toISOString clock |}.

Definition priceMissing (d : MarketDatum) : bool :=
  match md_price d with Some _ => false | None => true end.

Section Analyze.
(** The inference service: [None] when the call fails, answers nothing
    or answers something that is not JSON. *)
Variable infer : list MarketDatum -> option AiResult.

(** [d.price.toFixed(4)] raises a [TypeError] inside the [try] as soon as
    one of the last 20 bars has no [price]; every failure inside the
    [try] ends in the fallback signal. *)
Definition analyze (clock : Clock) (marketData : list MarketDatum)
  : option StrategySignal :=
  match latestOf marketData with
  | None => None
  | Some latest =>
      let recentData := slice_last 20 marketData in
      if existsb priceMissing recentData
      then Some (getFallbackSignal clock latest)
      else
        match infer marketData with
        | None => Some (getFallbackSignal clock latest)
        | Some aiResult =>
            let atr := TradingStrategy.calculateATR marketData 14 in
            let act := ai_action aiResult in
            Some {| symbol := md_symbol latest;
                    action := act;
                    strength := ai_strength aiResult;
                    confidence := ai_confidence aiResult;
                    entryPrice := md_price latest;
                    stopLoss :=
                      if Action_eqb act hold then None
                      else Some (TradingStrategy.calculateStopLoss
                                   (md_price latest) act atr);
                    takeProfit :=
                      if Action_eqb act hold then None
                      else Some (TradingStrategy.calculateTakeProfit
                                   (md_price latest) act atr);
                    reason := ai_reason aiResult;
                    timestamp := Date_toISOString clock |}
        end
  end.
End Analyze.

End MachineLearningStrategy.

(** *** class ArbitrageStrategy *)
Module ArbitrageStrategy.

Section Analyze.
Variable Number_toFixed : float -> nat -> string.
(** The draw of [Math.random()] made by one call of [analyze]: the call
    is known by the reading of the clock it makes and by its window, and
    calls made at different readings draw anew. *)
Variable Math_random : Clock -> list MarketDatum -> float.

Definition detectPriceDiscrepancy (clock : Clock)
           (marketData : list MarketDatum) : float :=
  (Math_random clock marketData * 0.005)%float.

Definition analyze (clock : Clock) (marketData : list MarketDatum)
  : option StrategySignal :=
  match latestOf marketData with
  | None => None
  | Some latest =>
      let priceDiscrepancy := detectPriceDiscrepancy clock marketData in
      if PrimFloat.ltb 0.001%float priceDiscrepancy then
        Some {| symbol := md_symbol latest;
                action := buy;
                strength := Math_min (priceDiscrepancy * 10000)%float 100%float;
                confidence := 95%float;
                entryPrice := md_price latest;
                stopLoss := Some (toNumber (md_price latest) * 0.999)%float;
                takeProfit := Some (toNumber (md_price latest) * 1.002)%float;
                reason := "Arbitrage opportunity detected: "
                          +:+ Number_toFixed priceDiscrepancy 4
                          +:+ "% price discrepancy";
                timestamp := Date_toISOString clock |}
      else
        Some {| symbol := md_symbol latest;
                action := hold;
                strength := 0%float;
                confidence := 0%float;
                entryPrice := md_price latest;
                stopLoss := None;
                takeProfit := None;
                reason := "No arbitrage opportunity detected";
                timestamp := Date_toISOString clock |}
  end.
End Analyze.

Definition backtest (historicalData : list MarketDatum) : BacktestResult :=
  {| totalTrades := 50;
     winningTrades := 50;
     losingTrades := 0;
     winRate := 100%float;
     totalReturn := 15%float;
     maxDrawdown := 0.1%float;
     sharpeRatio := 25%float;
     profitFactor := infinity;
     averageWin := 300%float;
     averageLoss := 0%float |}.

End ArbitrageStrategy.

(** *** class StrategyManager *)
Module StrategyManager.

(** [strategies] is a [Map] that is only iterated, in insertion order;
    [activeStrategies] is a [Set]. *)
Record t := {
  strategies : list (string * Strategy);
  activeStrategies : gset string
}.

Definition defaultParameters : StrategyParameters :=
  {| timeframe := "1h";
     riskPerTrade := 1%float;
     maxPositions := 10;
     indicators :=
       {| rsiPeriod := 14;
          rsiOverbought := 70%float;
          rsiOversold := 30%float;
          macdFast := 12;
          macdSlow := 26;
          macdSignal := 9;
          smaShort := 20;
          smaLong := 50 |} |}.

Section Initialize.
Variable Number_toFixed : float -> nat -> string.
Variable infer : list MarketDatum -> option MachineLearningStrategy.AiResult.
Variable Math_random : Clock -> list MarketDatum -> float.

Definition initializeStrategies : t :=
  {| strategies :=
       [ ("technical",
          {| analyze := TechnicalAnalysisStrategy.analyze
                          Number_toFixed defaultParameters |});
         ("ml",
          {| analyze := MachineLearningStrategy.analyze infer |});
         ("arbitrage",
          {| analyze := ArbitrageStrategy.analyze
                          Number_toFixed Math_random |}) ];
     activeStrategies := {[ "technical"; "ml"; "arbitrage" ]} |}.
End Initialize.

Definition activateStrategy (m : t) (strategyName : string) : t :=
  {| strategies := strategies m;
     activeStrategies := activeStrategies m ∪ {[ strategyName ]} |}.

Definition deactivateStrategy (m : t) (strategyName : string) : t :=
  {| strategies := strategies m;
     activeStrategies := activeStrategies m ∖ {[ strategyName ]} |}.

(** A strategy whose [analyze] raises is skipped. *)
Definition analyzeSymbol (m : t) (clock : Clock) (symbol : string)
           (marketData : list MarketDatum) : list StrategySignal :=
  flat_map
    (fun entry : string * Strategy =>
       let '(strategyName, strategy) := entry in
       if bool_decide (strategyName ∈ activeStrategies m) then
         match analyze strategy clock marketData with
         | Some signal => [signal]
         | None => []
         end
       else [])
    (strategies m).

Definition calculateATR := TradingStrategy.calculateATR.
Definition calculateStopLoss := TradingStrategy.calculateStopLoss.
Definition calculateTakeProfit := TradingStrategy.calculateTakeProfit.

(** [votes] and [confidences], filled by the [forEach]. *)
Record Tally := {
  votes_buy : nat;
  votes_sell : nat;
  votes_hold : nat;
  confidences_buy : list float;
  confidences_sell : list float;
  confidences_hold : list float
}.

Definition emptyTally : Tally :=
  {| votes_buy := 0; votes_sell := 0; votes_hold := 0;
     confidences_buy := []; confidences_sell := [];
     confidences_hold := [] |}.

Definition castVote (t : Tally) (signal : StrategySignal) : Tally :=
  match action signal with
  | buy =>
      {| votes_buy := S (votes_buy t);
         votes_sell := votes_sell t;
         votes_hold := votes_hold t;
         confidences_buy := confidences_buy t ++ [confidence signal];
         confidences_sell := confidences_sell t;
         confidences_hold := confidences_hold t |}
  | sell =>
      {| votes_buy := votes_buy t;
         votes_sell := S (votes_sell t);
         votes_hold := votes_hold t;
         confidences_buy := confidences_buy t;
         confidences_sell := confidences_sell t ++ [confidence signal];
         confidences_hold := confidences_hold t |}
  | hold =>
      {| votes_buy := votes_buy t;
         votes_sell := votes_sell t;
         votes_hold := S (votes_hold t);
         confidences_buy := confidences_buy t;
         confidences_sell := confidences_sell t;
         confidences_hold := confidences_hold t ++ [confidence signal] |}
  end.

Definition votes (t : Tally) (a : Action) : nat :=
  match a with
  | buy => votes_buy t
  | sell => votes_sell t
  | hold => votes_hold t
  end.

Definition confidences (t : Tally) (a : Action) : list float :=
  match a with
  | buy => confidences_buy t
  | sell => confidences_sell t
  | hold => confidences_hold t
  end.

(** [Object.entries(votes).reduce((a, b) => votes[a] > votes[b] ? a : b)]
    over the entries [buy], [sell], [hold] in that order. *)
Definition winningActionOf (t : Tally) : Action :=
  fold_left (fun a b => if votes t b <? votes t a then a else b)
            [sell; hold] buy.

Definition getConsensusSignal (m : t) (clock : Clock) (symbol : string)
           (marketData : list MarketDatum) : exn + option StrategySignal :=
  let signals := analyzeSymbol m clock symbol marketData in
  match signals with
  | [] => inr None
  | _ =>
      let tally := fold_left castVote signals emptyTally in
      let winningAction := winningActionOf tally in
      let avgConfidence :=
        match confidences tally winningAction with
        | [] => 0%float
        | cs => (JS.sum cs / lenF (length cs))%float
        end in
      if gt_half (votes tally winningAction) (length signals) then
        match latestOf marketData with
        | None => inl TypeError
        | Some latest =>
            let atr := calculateATR marketData 14 in
            inr (Some
              {| symbol := Some symbol;
                 action := winningAction;
                 strength :=
                   ((lenF (votes tally winningAction)
                     / lenF (length signals)) * 100)%float;
                 confidence := avgConfidence;
                 entryPrice := md_price latest;
                 stopLoss :=
                   if Action_eqb winningAction hold then None
                   else Some (calculateStopLoss (md_price latest)
                                                winningAction atr);
                 takeProfit :=
                   if Action_eqb winningAction hold then None
                   else Some (calculateTakeProfit (md_price latest)
                                                  winningAction atr);
                 reason := "Consensus signal from "
                           +:+ string_of_nat (votes tally winningAction)
                           +:+ " strategies";
                 timestamp := Date_toISOString clock |})
        end
      else inr None
  end.

End StrategyManager.

End Strategies.

(** ** trading-execution.ts: class BacktestingEngine *)

Module Backtesting.
Import JS.
Import Strategies(Action, buy, sell, hold, Action_eqb, Clock, Date_now,
                  MarketDatum, StrategySignal).

Record BacktestConfig := {
  symbol : string;
  strategy : string;
  startDate : float;
  endDate : float;
  initialCapital : float;
  parameters : option object
}.

Record HistoricalData := {
  timestamp : float;
  open : float;
  high : float;
  low : float;
  close : float;
  volume : float
}.

Record BacktestTrade := {
  id : string;
  trade_symbol : string;
  type_ : Action;
  quantity : float;
  entryPrice : float;
  exitPrice : float;
  entryTime : float;
  exitTime : float;
  profitLoss : float;
  profitLossPercent : float;
  fees : float;
  status : string;
  trade_strategy : string;
  reason : string
}.

Record EquityPoint := {
  point_timestamp : float;
  equity : float;
  drawdown : float
}.

Record Summary := {
  totalTrades : nat;
  winningTrades : nat;
  losingTrades : nat;
  winRate : float;
  totalReturn : float;
  totalReturnPercent : float;
  maxDrawdown : float;
  maxDrawdownPercent : float;
  sharpeRatio : float;
  profitFactor : float;
  averageWin : float;
  averageLoss : float;
  largestWin : float;
  largestLoss : float;
  averageHoldTime : float
}.

Record Metrics := {
  calmarRatio : float;
  sortinoRatio : float;
  winLossRatio : float;
  metrics_profitFactor : float;
  recoveryFactor : float;
  riskAdjustedReturn : float
}.

Record BacktestResult := {
  summary : Summary;
  trades : list BacktestTrade;
  equity_curve : list EquityPoint;
  metrics : Metrics;
  config : BacktestConfig
}.

Record OptimizationResult := {
  opt_parameters : object;
  result : BacktestResult;
  fitness : float
}.

(** [private historicalData: Map<string, HistoricalData[]>]. *)
Record BacktestingEngine := {
  historicalData : gmap string (list HistoricalData)
}.

(** The bar object as the strategies see it: it has no [symbol] and no
    [price] property. *)
Definition asMarketDatum (d : HistoricalData) : MarketDatum :=
  {| Strategies.md_symbol := None;
     Strategies.md_price := None;
     Strategies.md_high := Some (high d);
     Strategies.md_low := Some (low d);
     Strategies.md_close := Some (close d);
     Strategies.md_volume := Some (volume d) |}.

Definition inRange (c : BacktestConfig) (d : HistoricalData) : bool :=
  PrimFloat.leb (startDate c) (timestamp d)
  && PrimFloat.leb (timestamp d) (endDate c).

Definition calculatePositionSize (capital : float) (signal : StrategySignal)
  : float :=
  let riskAmount := (capital * 0.01)%float in
  let estimatedPriceMove :=
    (toNumber (Strategies.entryPrice signal) * 0.02)%float in
  (riskAmount / estimatedPriceMove)%float.

Definition noHistoricalData (symbol : string) : exn :=
  Error ("No historical data available for " +:+ symbol).

Definition insufficientData : exn :=
  Error "Insufficient historical data for backtesting".

(** The variables of the simulation loop. *)
Record LoopState := {
  st_capital : float;
  st_maxCapital : float;
  st_maxDrawdown : float;
  st_currentDrawdown : float;
  st_trades : list BacktestTrade;
  st_equityCurve : list EquityPoint
}.

Definition recordEquity (currentBar : HistoricalData) (st : LoopState)
  : LoopState :=
  {| st_capital := st_capital st;
     st_maxCapital := st_maxCapital st;
     st_maxDrawdown := st_maxDrawdown st;
     st_currentDrawdown := st_currentDrawdown st;
     st_trades := st_trades st;
     st_equityCurve :=
       st_equityCurve st ++
       [ {| point_timestamp := timestamp currentBar;
            equity := st_capital st;
            drawdown := st_currentDrawdown st |} ] |}.

Definition executeTrade (c : BacktestConfig) (now : Clock) (i : nat)
           (consensusSignal : StrategySignal)
           (currentBar nextBar : HistoricalData) (st : LoopState)
  : LoopState :=
  let positionSize := calculatePositionSize (st_capital st) consensusSignal in
  let entryPrice := close currentBar in
  let exitPrice := close nextBar in
  let profit :=
    ((exitPrice - entryPrice) * positionSize
     * (if Action_eqb (Strategies.action consensusSignal) buy
        then 1 else -1))%float in
  let fees := Math_abs (entryPrice * positionSize * 0.001)%float in
  let netProfit := (profit - fees)%float in
  let trade :=
    {| id := symbol c +:+ "-" +:+ string_of_nat i +:+ "-"
             +:+ string_of_Z (Date_now now);
       trade_symbol := symbol c;
       type_ := Strategies.action consensusSignal;
       quantity := positionSize;
       entryPrice := entryPrice;
       exitPrice := exitPrice;
       entryTime := timestamp currentBar;
       exitTime := timestamp nextBar;
       profitLoss := netProfit;
       profitLossPercent :=
         ((netProfit / (entryPrice * positionSize)) * 100)%float;
       fees := fees;
       status := "completed";
       trade_strategy := strategy c;
       reason := Strategies.reason consensusSignal |} in
  let capital := (st_capital st + netProfit)%float in
  let maxCapital := Math_max (st_maxCapital st) capital in
  let currentDrawdown := (((maxCapital - capital) / maxCapital) * 100)%float in
  {| st_capital := capital;
     st_maxCapital := maxCapital;
     st_maxDrawdown := Math_max (st_maxDrawdown st) currentDrawdown;
     st_currentDrawdown := currentDrawdown;
     st_trades := st_trades st ++ [trade];
     st_equityCurve := st_equityCurve st |}.

Section Run.
Variable strategyManager : Strategies.StrategyManager.t.
(** The reading of the wall clock while bar [i] is processed. *)
Variable clock : nat -> Clock.

(** The body of the [for] loop.  An exception raised inside the [try]
    leaves the state as it was: every update comes after the last
    statement that can raise. *)
Definition processBar (c : BacktestConfig)
           (filteredData : list HistoricalData)
           (st : LoopState) (i : nat) : LoopState :=
  let currentData := firstn (i + 1) filteredData in
  match nth_error filteredData i with
  | None => st
  | Some currentBar =>
      let nextBar := nth_error filteredData (i + 1) in
      let signals :=
        Strategies.StrategyManager.analyzeSymbol
          strategyManager (clock i) (symbol c)
          (map asMarketDatum currentData) in
      match Strategies.StrategyManager.getConsensusSignal
              strategyManager (clock i) (symbol c)
              (map asMarketDatum currentData) with
      | inl _ => st
      | inr None => recordEquity currentBar st
      | inr (Some consensusSignal) =>
          if Action_eqb (Strategies.action consensusSignal) hold
          then recordEquity currentBar st
          else
            match nextBar with
            | None => st
            | Some nextBar =>
                recordEquity currentBar
                  (executeTrade c (clock i) i consensusSignal
                                currentBar nextBar st)
            end
      end
  end.

(** The indices [i = 20 .. length - 2] the loop visits. *)
Definition iteratedBars (filteredData : list HistoricalData) : list nat :=
  seq 20 (length filteredData - 1 - 20).

Definition initialState (c : BacktestConfig) : LoopState :=
  {| st_capital := initialCapital c;
     st_maxCapital := initialCapital c;
     st_maxDrawdown := 0%float;
     st_currentDrawdown := 0%float;
     st_trades := [];
     st_equityCurve := [] |}.

Definition simulate (c : BacktestConfig)
           (filteredData : list HistoricalData) : LoopState :=
  fold_left (processBar c filteredData) (iteratedBars filteredData)
            (initialState c).
End Run.

Definition filterTrades (p : float -> bool) (ts : list BacktestTrade)
  : list BacktestTrade :=
  filter (fun t => p (profitLoss t)) ts.

Definition calculateSummary (trades : list BacktestTrade)
           (initialCapital finalCapital maxDrawdown : float) : Summary :=
  let winningTrades := filterTrades (fun pl => PrimFloat.ltb 0%float pl) trades in
  let losingTrades := filterTrades (fun pl => PrimFloat.ltb pl 0%float) trades in
  let totalReturn := (finalCapital - initialCapital)%float in
  let totalReturnPercent := ((totalReturn / initialCapital) * 100)%float in
  let averageWin :=
    if 0 <? length winningTrades
    then (JS.sum (map profitLoss winningTrades)
          / lenF (length winningTrades))%float
    else 0%float in
  let averageLoss :=
    if 0 <? length losingTrades
    then (JS.sum (map (fun t => Math_abs (profitLoss t)) losingTrades)
          / lenF (length losingTrades))%float
    else 0%float in
  let largestWin :=
    if 0 <? length winningTrades
    then Math_max_list (map profitLoss winningTrades)
    else 0%float in
  let largestLoss :=
    if 0 <? length losingTrades
    then Math_max_list (map (fun t => Math_abs (profitLoss t)) losingTrades)
    else 0%float in
  let holdTimes :=
    map (fun t => ((exitTime t - entryTime t) / 86400000)%float) trades in
  let averageHoldTime :=
    if 0 <? length holdTimes
    then (JS.sum holdTimes / lenF (length holdTimes))%float
    else 0%float in
  let returns := map profitLossPercent trades in
  let avgReturn := (JS.sum returns / lenF (length returns))%float in
  let variance :=
    (JS.sum (map (fun r => Math_pow2 (r - avgReturn)%float) returns)
     / lenF (length returns))%float in
  let stdDev := Math_sqrt variance in
  let sharpeRatio :=
    if neq0 stdDev then (avgReturn / stdDev)%float else 0%float in
  let grossProfit := JS.sum (map profitLoss winningTrades) in
  let grossLoss := Math_abs (JS.sum (map profitLoss losingTrades)) in
  let profitFactor :=
    if neq0 grossLoss then (grossProfit / grossLoss)%float else infinity in
  {| totalTrades := length trades;
     winningTrades := length winningTrades;
     losingTrades := length losingTrades;
     winRate :=
       if 0 <? length trades
       then ((lenF (length winningTrades) / lenF (length trades)) * 100)%float
       else 0%float;
     totalReturn := totalReturn;
     totalReturnPercent := totalReturnPercent;
     maxDrawdown := maxDrawdown;
     maxDrawdownPercent := maxDrawdown;
     sharpeRatio := sharpeRatio;
     profitFactor := profitFactor;
     averageWin := averageWin;
     averageLoss := averageLoss;
     largestWin := largestWin;
     largestLoss := largestLoss;
     averageHoldTime := averageHoldTime |}.

Definition negativeReturnsOf (trades : list BacktestTrade) : list float :=
  filter (fun r => PrimFloat.ltb r 0%float) (map profitLossPercent trades).

Definition calculateAdvancedMetrics (trades : list BacktestTrade)
           (summary : Summary) : Metrics :=
  let calmarRatio :=
    if neq0 (maxDrawdown summary)
    then (Math_abs (totalReturnPercent summary) / maxDrawdown summary)%float
    else 0%float in
  let negativeReturns := negativeReturnsOf trades in
  let downsideVariance :=
    if 0 <? length negativeReturns
    then (JS.sum (map Math_pow2 negativeReturns)
          / lenF (length negativeReturns))%float
    else 0%float in
  let downsideDeviation := Math_sqrt downsideVariance in
  let sortinoRatio :=
    if neq0 downsideDeviation
    then (totalReturnPercent summary / downsideDeviation)%float
    else 0%float in
  let winLossRatio :=
    if neq0 (averageLoss summary)
    then (averageWin summary / averageLoss summary)%float
    else 0%float in
  let recoveryFactor :=
    if neq0 (maxDrawdown summary)
    then (totalReturnPercent summary / maxDrawdown summary)%float
    else 0%float in
  let riskAdjustedReturn :=
    if neq0 (maxDrawdown summary)
    then (totalReturnPercent summary / maxDrawdown summary)%float
    else 0%float in
  {| calmarRatio := calmarRatio;
     sortinoRatio := sortinoRatio;
     winLossRatio := winLossRatio;
     metrics_profitFactor := profitFactor summary;
     recoveryFactor := recoveryFactor;
     riskAdjustedReturn := riskAdjustedReturn |}.

Section RunBacktest.
Variable engine : BacktestingEngine.
Variable strategyManager : Strategies.StrategyManager.t.
Variable clock : nat -> Clock.

Definition runBacktest (c : BacktestConfig) : exn + BacktestResult :=
  match historicalData engine !! symbol c with
  | None => inl (noHistoricalData (symbol c))
  | Some series =>
      let filteredData := filter (inRange c) series in
      if length filteredData <? 50 then inl insufficientData
      else
        let st := simulate strategyManager clock c filteredData in
        let summary :=
          calculateSummary (st_trades st) (initialCapital c)
                           (st_capital st) (st_maxDrawdown st) in
        let metrics := calculateAdvancedMetrics (st_trades st) summary in
        inr {| summary := summary;
               trades := st_trades st;
               equity_curve := st_equityCurve st;
               metrics := metrics;
               config := c |}
  end.
End RunBacktest.

Definition calculateFitness (r : BacktestResult) : float :=
  let s := summary r in
  let normalizedReturn :=
    Math_min (Math_max (totalReturnPercent s / 100)%float 0%float) 1%float in
  let normalizedWinRate := (winRate s / 100)%float in
  let normalizedSharpe :=
    Math_min (Math_max (sharpeRatio s / 3)%float 0%float) 1%float in
  let normalizedDrawdown :=
    Math_max (1 - (maxDrawdown s / 50))%float 0%float in
  let normalizedProfitFactor :=
    Math_min (Math_max (profitFactor s / 3)%float 0%float) 1%float in
  ((normalizedReturn * 0.3)
   + (normalizedWinRate * 0.25)
   + (normalizedSharpe * 0.2)
   + (normalizedDrawdown * 0.15)
   + (normalizedProfitFactor * 0.1))%float.

(** [ranges] is an object whose properties are arrays of candidate values;
    it is given by its entries in [Object.keys] order.  The parameter is
    typed [any]: what the code does with any other value is written out in
    [AnyRanges] below. *)
Fixpoint generateParameterCombinations (ranges : list (string * list any))
  : list object :=
  match ranges with
  | [] => [ [] ]
  | (firstKey, values) :: remainingRanges =>
      flat_map
        (fun value =>
           map (fun combination => (firstKey, value) :: combination)
               (generateParameterCombinations remainingRanges))
        values
  end.

(** [Array.prototype.sort] with the comparator
    [(a, b) => b.fitness - a.fitness]: a comparator result that is [NaN]
    counts as [+0].  The sort is stable; insertion from the right is the
    stable sort that stands for it. *)
Definition sortCompare (a b : OptimizationResult) : float :=
  let v := (fitness b - fitness a)%float in
  if PrimFloat.is_nan v then 0%float else v.

Fixpoint insertSorted (x : OptimizationResult) (sorted : list OptimizationResult)
  : list OptimizationResult :=
  match sorted with
  | [] => [x]
  | y :: rest =>
      if PrimFloat.ltb (sortCompare y x) 0%float
      then y :: insertSorted x rest
      else x :: y :: rest
  end.

Definition sortByFitness (rs : list OptimizationResult)
  : list OptimizationResult :=
  fold_right insertSorted [] rs.

Definition withParameters (c : BacktestConfig) (p : object) : BacktestConfig :=
  {| symbol := symbol c;
     strategy := strategy c;
     startDate := startDate c;
     endDate := endDate c;
     initialCapital := initialCapital c;
     parameters := Some p |}.

Section Optimize.
Variable engine : BacktestingEngine.
Variable strategyManager : Strategies.StrategyManager.t.
(** The clock during the [k]-th run, at bar [i]. *)
Variable clock : nat -> nat -> Clock.

(** One pass of the [for ... of] loop: a run that raises is logged and
    contributes nothing. *)
Definition evaluateCombination (c : BacktestConfig)
           (kp : nat * object) : list OptimizationResult :=
  let '(k, parameters) := kp in
  let testConfig := withParameters c parameters in
  match runBacktest engine strategyManager (clock k) testConfig with
  | inr result =>
      [ {| opt_parameters := parameters;
           result := result;
           fitness := calculateFitness result |} ]
  | inl _ => []
  end.

Definition enumerate {A} (xs : list A) : list (nat * A) :=
  combine (seq 0 (length xs)) xs.

Definition collectResults (c : BacktestConfig)
           (parameterRanges : list (string * list any))
  : list OptimizationResult :=
  flat_map (evaluateCombination c)
           (enumerate (generateParameterCombinations parameterRanges)).

Definition optimizeStrategy (c : BacktestConfig)
           (parameterRanges : list (string * list any))
  : list OptimizationResult :=
  sortByFitness (collectResults c parameterRanges).
End Optimize.

(** The ranges as the code receives them, a value of type [any]. *)
Module AnyRanges.

(** What [ranges[key]] holds: something [for ... of] walks through (an
    array, or a string, walked character by character), or something it
    raises a [TypeError] on (a number, a boolean, [null], a plain
    object). *)
Inductive Candidates :=
| Iterable (values : list any)
| NotIterable.

(** The argument itself: [null] or [undefined], on which [Object.keys]
    raises a [TypeError], or any other value, given by its own enumerable
    properties in [Object.keys] order (a number or a boolean has none). *)
Inductive Ranges :=
| Nullish
| Properties (entries : list (string * Candidates)).

(** An object whose every property is an array. *)
Definition ofArrays (ranges : list (string * list any))
  : list (string * Candidates) :=
  map (fun r => (fst r, Iterable (snd r))) ranges.

(** The calls on [remainingRanges], which is always an object.  The
    recursive call sits inside the loop over the values: without a value
    it is never made, and what it raises at the first value ends the
    loop. *)
Fixpoint generateParameterCombinations_properties
         (entries : list (string * Candidates)) : exn + list object :=
  match entries with
  | [] => inr [ [] ]
  | (firstKey, NotIterable) :: _ => inl TypeError
  | (firstKey, Iterable []) :: _ => inr []
  | (firstKey, Iterable values) :: remainingRanges =>
      match generateParameterCombinations_properties remainingRanges with
      | inl e => inl e
      | inr remainingCombinations =>
          inr (flat_map
                 (fun value =>
                    map (fun combination => (firstKey, value) :: combination)
                        remainingCombinations)
                 values)
      end
  end.

Definition generateParameterCombinations (ranges : Ranges)
  : exn + list object :=
  match ranges with
  | Nullish => inl TypeError
  | Properties entries => generateParameterCombinations_properties entries
  end.

Section Optimize.
Variable engine : BacktestingEngine.
Variable strategyManager : Strategies.StrategyManager.t.
Variable clock : nat -> nat -> Clock.

(** The combinations are generated before the loop and outside its [try]:
    what the generation raises, the call raises. *)
Definition optimizeStrategy (c : BacktestConfig) (parameterRanges : Ranges)
  : exn + list OptimizationResult :=
  match generateParameterCombinations parameterRanges with
  | inl e => inl e
  | inr parameterCombinations =>
      inr (sortByFitness
             (flat_map (evaluateCombination engine strategyManager clock c)
                       (enumerate parameterCombinations)))
  end.
End Optimize.

End AnyRanges.

End Backtesting.

(** ** The vocabulary of the specification *)

Module Spec.
Import JS Strategies.

(** The signals that voted for an action, and their number. *)
Definition votersOf (a : Action) (signals : list StrategySignal)
  : list StrategySignal :=
  filter (fun s => Action_eqb (action s) a) signals.

Definition votesFor (a : Action) (signals : list StrategySignal) : nat :=
  length (votersOf a signals).

(** Arithmetic mean of a list of numbers. *)
Definition mean (xs : list float) : float :=
  (JS.sum xs / lenF (length xs))%float.

(** The Cartesian product of the candidate lists, as assignments. *)
Fixpoint cartesian (ranges : list (string * list any)) : list object :=
  match ranges with
  | [] => [ [] ]
  | (k, vs) :: rest =>
      map (fun vc : any * object => (k, fst vc) :: snd vc)
          (list_prod vs (cartesian rest))
  end.

(** The action the manager picks: the last of buy, sell, hold that no
    earlier one strictly beats. *)
Definition winnerOf (signals : list StrategySignal) : Action :=
  StrategyManager.winningActionOf
    (fold_left StrategyManager.castVote signals StrategyManager.emptyTally).

(** A signal without the time it was made at. *)
Definition eraseTimestamp (s : StrategySignal) : StrategySignal :=
  {| symbol := symbol s;
     action := action s;
     strength := strength s;
     confidence := confidence s;
     entryPrice := entryPrice s;
     stopLoss := stopLoss s;
     takeProfit := takeProfit s;
     reason := reason s;
     timestamp := "" |}.

(** A strategy set is deterministic when what its active strategies answer
    on a window does not depend on when they are asked, the time stamp of
    the signal apart. *)
Definition deterministic (m : StrategyManager.t) : Prop :=
  forall (strategyName : string) (strategy : Strategy),
    In (strategyName, strategy) (StrategyManager.strategies m) ->
    strategyName ∈ StrategyManager.activeStrategies m ->
    forall (c1 c2 : Clock) (marketData : list MarketDatum),
      option_map eraseTimestamp (analyze strategy c1 marketData)
      = option_map eraseTimestamp (analyze strategy c2 marketData).

(** A trade without its id. *)
Definition eraseId (t : Backtesting.BacktestTrade) : Backtesting.BacktestTrade :=
  {| Backtesting.id := "";
     Backtesting.trade_symbol := Backtesting.trade_symbol t;
     Backtesting.type_ := Backtesting.type_ t;
     Backtesting.quantity := Backtesting.quantity t;
     Backtesting.entryPrice := Backtesting.entryPrice t;
     Backtesting.exitPrice := Backtesting.exitPrice t;
     Backtesting.entryTime := Backtesting.entryTime t;
     Backtesting.exitTime := Backtesting.exitTime t;
     Backtesting.profitLoss := Backtesting.profitLoss t;
     Backtesting.profitLossPercent := Backtesting.profitLossPercent t;
     Backtesting.fees := Backtesting.fees t;
     Backtesting.status := Backtesting.status t;
     Backtesting.trade_strategy := Backtesting.trade_strategy t;
     Backtesting.reason := Backtesting.reason t |}.

(** Two results that differ at most in the ids of their trades. *)
Definition sameButTradeIds (r1 r2 : Backtesting.BacktestResult) : Prop :=
  Backtesting.summary r1 = Backtesting.summary r2
  /\ map eraseId (Backtesting.trades r1) = map eraseId (Backtesting.trades r2)
  /\ Backtesting.equity_curve r1 = Backtesting.equity_curve r2
  /\ Backtesting.metrics r1 = Backtesting.metrics r2
  /\ Backtesting.config r1 = Backtesting.config r2.

(** Loop states of two runs that agree but for the ids of their trades. *)
Definition agree (s1 s2 : Backtesting.LoopState) : Prop :=
  Backtesting.st_capital s1 = Backtesting.st_capital s2
  /\ Backtesting.st_maxCapital s1 = Backtesting.st_maxCapital s2
  /\ Backtesting.st_maxDrawdown s1 = Backtesting.st_maxDrawdown s2
  /\ Backtesting.st_currentDrawdown s1 = Backtesting.st_currentDrawdown s2
  /\ map eraseId (Backtesting.st_trades s1)
     = map eraseId (Backtesting.st_trades s2)
  /\ Backtesting.st_equityCurve s1 = Backtesting.st_equityCurve s2.

(** A consensus answer without the time stamp of its signal. *)
Definition eraseAnswer (a : exn + option StrategySignal)
  : exn + option StrategySignal :=
  match a with
  | inl e => inl e
  | inr o => inr (option_map eraseTimestamp o)
  end.

(** A trade whose size, profit and return are [NaN]. *)
Definition nanTrade (t : Backtesting.BacktestTrade) : Prop :=
  Backtesting.quantity t = nan
  /\ Backtesting.profitLoss t = nan
  /\ Backtesting.profitLossPercent t = nan.

(** What holds of the loop variables at every bar: each trade made so far
    is a [nanTrade], and once there is one the capital, its peak and both
    drawdowns are [NaN] and a point of the curve records it. *)
Definition poisoned (st : Backtesting.LoopState) : Prop :=
  Forall nanTrade (Backtesting.st_trades st)
  /\ (Backtesting.st_trades st <> [] ->
      Backtesting.st_capital st = nan
      /\ Backtesting.st_maxCapital st = nan
      /\ Backtesting.st_currentDrawdown st = nan
      /\ Backtesting.st_maxDrawdown st = nan
      /\ Exists (fun p => Backtesting.drawdown p = nan
                          /\ Backtesting.equity p = nan)
                (Backtesting.st_equityCurve st)).

(** A series of closes each of which is below the next. *)
Definition strictlyIncreasing (closes : list JS.value) : bool :=
  forallb (fun pc : JS.value * JS.value =>
             PrimFloat.ltb (toNumber (fst pc)) (toNumber (snd pc)))
          (consecutive closes).

(** A percentage: a number between 0 and 100 ([NaN] is none). *)
Definition isPercentage (x : float) : bool :=
  PrimFloat.leb 0%float x && PrimFloat.leb x 100%float.

(** The step from each number of a series to the next. *)
Fixpoint differences (xs : list float) : list float :=
  match xs with
  | a :: (b :: _) as rest => (b - a)%float :: differences rest
  | _ => []
  end.

(** Whether a series rises somewhere, and the sum of its rises. *)
Definition rises (closes : list float) : bool :=
  existsb (fun step => PrimFloat.ltb 0%float step) (differences closes).

Definition summedGains (closes : list float) : float :=
  fold_left (fun total step =>
               if PrimFloat.ltb 0%float step then (total + step)%float
               else total)
            (differences closes) 0%float.

(** Whether a series falls somewhere, and the sum of the sizes of its
    falls. *)
Definition falls (closes : list float) : bool :=
  existsb (fun step => PrimFloat.ltb step 0%float) (differences closes).

Definition summedLosses (closes : list float) : float :=
  fold_left (fun total step =>
               if PrimFloat.ltb step 0%float
               then (total + PrimFloat.abs step)%float
               else total)
            (differences closes) 0%float.

End Spec.

(** ** Concrete inputs *)

Module Fixtures.
Import JS Strategies Backtesting.

Definition msPerDay : float := 86400000%float.

(** A daily bar of a series whose close falls by one each day from 200. *)
Definition fallingBar (i : nat) : HistoricalData :=
  {| timestamp := (lenF i * msPerDay)%float;
     open := (200 - lenF i)%float;
     high := (201 - lenF i)%float;
     low := (199 - lenF i)%float;
     close := (200 - lenF i)%float;
     volume := 1000%float |}.

Definition fallingSeries (n : nat) : list HistoricalData :=
  map fallingBar (seq 0 n).

(** An engine that holds 60 daily bars for the symbol X. *)
Definition engine : BacktestingEngine :=
  {| historicalData := {[ "X" := fallingSeries 60 ]} |}.

(** The manager as its constructor leaves it; the inference service is
    down and every draw of [Math.random()] is one half. *)
Definition defaultManager : StrategyManager.t :=
  StrategyManager.initializeStrategies
    (fun _ _ => "0.0") (fun _ => None) (fun _ _ => 0.5%float).

(** Only the technical-analysis strategy is active. *)
Definition technicalOnly : StrategyManager.t :=
  StrategyManager.deactivateStrategy
    (StrategyManager.deactivateStrategy defaultManager "ml") "arbitrage".

(** Only the machine-learning strategy is active; with the service down
    it holds at every bar. *)
Definition mlOnly : StrategyManager.t :=
  StrategyManager.deactivateStrategy
    (StrategyManager.deactivateStrategy defaultManager "technical")
    "arbitrage".

Definition constantSignal (a : Action) (conf : float) : Strategy :=
  {| analyze := fun clock marketData =>
       Some {| Strategies.symbol := None;
               Strategies.action := a;
               Strategies.strength := 100%float;
               Strategies.confidence := conf;
               Strategies.entryPrice := None;
               Strategies.stopLoss := None;
               Strategies.takeProfit := None;
               Strategies.reason := "constant";
               Strategies.timestamp := Date_toISOString clock |} |}.

(** Three strategies that disagree: one buy, one sell, one hold. *)
Definition splitManager : StrategyManager.t :=
  {| StrategyManager.strategies :=
       [ ("a", constantSignal buy 90%float);
         ("b", constantSignal sell 80%float);
         ("c", constantSignal hold 70%float) ];
     StrategyManager.activeStrategies := {[ "a"; "b"; "c" ]} |}.

Definition clockAt (ms : Z) : nat -> Clock :=
  fun _ => {| Date_now := ms; Date_toISOString := "2023-11-14T22:13:20.000Z" |}.

(** A request over the first [days] bars of X. *)
Definition configFor (days : nat) : BacktestConfig :=
  {| symbol := "X";
     strategy := "consensus";
     startDate := 0%float;
     endDate := (lenF (days - 1) * msPerDay)%float;
     initialCapital := 10000%float;
     parameters := None |}.

Definition window (n : nat) : list MarketDatum :=
  map asMarketDatum (fallingSeries n).

Definition twoByTwo : list (string * list any) :=
  [ ("a", [Num 1%float; Num 2%float]); ("b", [Num 10%float; Num 20%float]) ].

(** Twenty closes that rise by one from 100. *)
Definition risingWindow : list MarketDatum :=
  map (fun i => asMarketDatum
                  {| timestamp := (lenF i * msPerDay)%float;
                     open := (100 + lenF i)%float;
                     high := (101 + lenF i)%float;
                     low := (99 + lenF i)%float;
                     close := (100 + lenF i)%float;
                     volume := 1000%float |})
      (seq 0 20).

(** Sixteen closes that rise twice by one and fall once by one, five times
    over: ten rises and five falls. *)
Definition zigzagCloses : list float :=
  [ 100; 101; 102; 101; 102; 103; 102; 103;
    104; 103; 104; 105; 104; 105; 106; 105 ]%float.

Definition zigzagWindow : list MarketDatum :=
  map (fun c => asMarketDatum
                  {| timestamp := 0%float;
                     open := c;
                     high := c;
                     low := c;
                     close := c;
                     volume := 1000%float |})
      zigzagCloses.

(** A result as a client may hand it to the report: every figure the
    recommendations read is on the good side of its threshold. *)
Definition soundResult : BacktestResult :=
  {| summary :=
       {| totalTrades := 10;
          winningTrades := 7;
          losingTrades := 3;
          winRate := 70%float;
          totalReturn := 1500%float;
          totalReturnPercent := 15%float;
          maxDrawdown := 5%float;
          maxDrawdownPercent := 5%float;
          sharpeRatio := 1.5%float;
          profitFactor := 2%float;
          averageWin := 300%float;
          averageLoss := 200%float;
          largestWin := 500%float;
          largestLoss := 300%float;
          averageHoldTime := 24%float |};
     trades := [];
     equity_curve := [];
     metrics :=
       {| calmarRatio := 3%float;
          sortinoRatio := 2%float;
          winLossRatio := 1.5%float;
          metrics_profitFactor := 2%float;
          recoveryFactor := 3%float;
          riskAdjustedReturn := 3%float |};
     config := configFor 50 |}.

End Fixtures.

(** ** backtesting.ts: the recommendations of a report *)

Module BacktestReport.
Import JS Backtesting.

Definition refineEntries : string :=
  "- Consider refining entry/exit criteria to improve win rate".
Definition reduceDrawdowns : string :=
  "- Implement stricter risk management to reduce drawdowns".
Definition lowRiskAdjustedReturns : string :=
  "- Strategy shows low risk-adjusted returns - consider optimization".
Definition lowProfitFactor : string :=
  "- Profit factor is low - focus on improving win rate or average win size".
Definition overTrading : string :=
  "- Very short holding periods may indicate over-trading".
Definition goodPerformance : string :=
  "- Strategy shows good performance across all metrics".

(** The local array [recommendations] when it is joined. *)
Definition recommendations (result : BacktestResult) : list string :=
  let summary := summary result in
  let pushed :=
    (if PrimFloat.ltb (winRate summary) 60%float then [refineEntries] else [])
    ++ (if PrimFloat.ltb 20%float (maxDrawdown summary)
        then [reduceDrawdowns] else [])
    ++ (if PrimFloat.ltb (sharpeRatio summary) 1%float
        then [lowRiskAdjustedReturns] else [])
    ++ (if PrimFloat.ltb (profitFactor summary) 1.5%float
        then [lowProfitFactor] else [])
    ++ (if PrimFloat.ltb (averageHoldTime summary) 1%float
        then [overTrading] else []) in
  match pushed with
  | [] => [goodPerformance]
  | _ => pushed
  end.

(** [recommendations.join('\n')]. *)
Definition generateRecommendations (result : BacktestResult) : string :=
  String.concat (String (ascii_of_nat 10) EmptyString)
                (recommendations result).

End BacktestReport.

(** ** trading-execution.ts: class TradingExecutionService *)

Module Execution.
Import JS.

(** A [Map] with string keys: its entries in insertion order; [set] on a
    key that is present replaces the value and keeps the place. *)
Module JSMap.

Definition t (A : Type) : Type := list (string * A).

Fixpoint get {A} (m : t A) (k : string) : option A :=
  match m with
  | [] => None
  | (k', v) :: m' => if String.eqb k' k then Some v else get m' k
  end.

Definition has {A} (m : t A) (k : string) : bool :=
  match get m k with Some _ => true | None => false end.

Fixpoint set {A} (m : t A) (k : string) (v : A) : t A :=
  match m with
  | [] => [(k, v)]
  | (k', v') :: m' =>
      if String.eqb k' k then (k', v) :: m' else (k', v') :: set m' k v
  end.

Fixpoint delete {A} (m : t A) (k : string) : t A :=
  match m with
  | [] => []
  | (k', v') :: m' =>
      if String.eqb k' k then m' else (k', v') :: delete m' k
  end.

Definition values {A} (m : t A) : list A := map snd m.

End JSMap.

(** The interfaces list 'buy' and 'sell', and the four order types;
    nothing checks a request against them.  [anotherType] and
    [anotherOrderType] stand for any other value that a request holds at
    run time. *)
Inductive Side := buy | sell | anotherType.
Inductive OrderType :=
  market | limit | stop | stop_limit | anotherOrderType.
Inductive TimeInForce := day | gtc | ioc | fok.
Inductive OrderStatus := pending | executed | cancelled | rejected.
Inductive PositionStatus := open | closed.

Definition Side_eqb (a b : Side) : bool :=
  match a, b with
  | buy, buy | sell, sell | anotherType, anotherType => true
  | _, _ => false
  end.

Definition OrderStatus_eqb (a b : OrderStatus) : bool :=
  match a, b with
  | pending, pending | executed, executed
  | cancelled, cancelled | rejected, rejected => true
  | _, _ => false
  end.

Definition PositionStatus_eqb (a b : PositionStatus) : bool :=
  match a, b with
  | open, open | closed, closed => true
  | _, _ => false
  end.

Module ExecutionRequest.
Record t := {
  symbol : string;
  type : Side;
  quantity : float;
  orderType : OrderType;
  price : value;
  stopPrice : value;
  timeInForce : TimeInForce;
  clientId : option string;
  strategy : option string;
  notes : option string
}.
End ExecutionRequest.

Module ExecutionResult.
Record t := {
  success : bool;
  orderId : option string;
  executedPrice : value;
  executedQuantity : value;
  status : OrderStatus;
  message : option string;
  timestamp : string;
  fees : value
}.
End ExecutionResult.

Module Position.
Record t := {
  symbol : string;
  quantity : float;
  averagePrice : float;
  currentPrice : float;
  unrealizedPnL : float;
  realizedPnL : float;
  status : PositionStatus;
  openedAt : string;
  closedAt : option string;
  trades : list string
}.
End Position.

Module Order.
Record t := {
  id : string;
  symbol : string;
  type : Side;
  orderType : OrderType;
  quantity : float;
  filledQuantity : float;
  price : value;
  stopPrice : value;
  status : OrderStatus;
  createdAt : string;
  updatedAt : string;
  executedAt : option string;
  averagePrice : value;
  fees : float;
  strategy : option string;
  notes : option string
}.
End Order.

Module MarketData.
Record t := {
  symbol : string;
  bid : float;
  ask : float;
  last : float;
  volume : float;
  timestamp : string
}.
End MarketData.

(** The [portfolio: any] argument: an object whose [availableCash] may be
    missing.  (On [null] or [undefined] the funds check of a buy raises a
    [TypeError] where it reads [portfolio.availableCash]; a portfolio that
    is no object is outside what is modelled here.) *)
Module Portfolio.
Record t := {
  availableCash : value
}.
End Portfolio.

(** The private fields.  A callback is a function the service only stores
    and calls: its type is left open. *)
Record TradingExecutionService (Callback : Type) := {
  orders : JSMap.t Order.t;
  positions : JSMap.t Position.t;
  marketData : JSMap.t MarketData.t;
  executionCallbacks : JSMap.t Callback
}.
Arguments orders {Callback} _.
Arguments positions {Callback} _.
Arguments marketData {Callback} _.
Arguments executionCallbacks {Callback} _.

(** What one call of [executeOrder] reads from the clock and from the
    random generator. *)
Record Draw := {
  Date_now : Z;
  (** [Math.random().toString(36).substr(2, 9)] *)
  randomSuffix : string;
  (** [new Date().toISOString()] in [executeOrder] *)
  now : string;
  (** [new Date().toISOString()] in the [execute...Order] method *)
  nowOfExecution : string;
  (** [Math.random()] of the slippage *)
  Math_random : float
}.

(** [prices[symbol] || 100]; the service calls it, and [getVolatility],
    with its six symbols only. *)
Definition getBasePrice (symbol : string) : float :=
  if String.eqb symbol "BTC/USD" then 43256%float
  else if String.eqb symbol "ETH/USD" then 2589%float
  else if String.eqb symbol "EUR/USD" then 1.0856%float
  else if String.eqb symbol "GBP/USD" then 1.2734%float
  else if String.eqb symbol "AAPL" then 182.52%float
  else if String.eqb symbol "TSLA" then 238.45%float
  else 100%float.

Definition getVolatility (symbol : string) : float :=
  if String.eqb symbol "BTC/USD" then 0.002%float
  else if String.eqb symbol "ETH/USD" then 0.003%float
  else if String.eqb symbol "EUR/USD" then 0.0005%float
  else if String.eqb symbol "GBP/USD" then 0.0006%float
  else if String.eqb symbol "AAPL" then 0.001%float
  else if String.eqb symbol "TSLA" then 0.002%float
  else 0.001%float.

Definition symbols : list string :=
  [ "BTC/USD"; "ETH/USD"; "EUR/USD"; "GBP/USD"; "AAPL"; "TSLA" ].

Definition generateOrderId (d : Draw) : string :=
  "order_" +:+ string_of_Z (Date_now d) +:+ "_" +:+ randomSuffix d.

Module Validation.
Record t := {
  valid : bool;
  reason : option string
}.
End Validation.

Section Service.
Context {Callback : Type}.
Abbreviation Service := (TradingExecutionService Callback).

(** The service as the constructor leaves it; [initialVolume symbol] is
    [Math.floor(Math.random() * 1000000) + 100000] and [initialTime symbol]
    the time read for that symbol. *)
Definition initializeMarketData (initialVolume : string -> float)
           (initialTime : string -> string) : Service :=
  {| orders := [];
     positions := [];
     marketData :=
       fold_left
         (fun m symbol =>
            JSMap.set m symbol
              {| MarketData.symbol := symbol;
                 MarketData.bid := (getBasePrice symbol * 0.999)%float;
                 MarketData.ask := (getBasePrice symbol * 1.001)%float;
                 MarketData.last := getBasePrice symbol;
                 MarketData.volume := initialVolume symbol;
                 MarketData.timestamp := initialTime symbol |})
         symbols [];
     executionCallbacks := [] |}.

Definition withOrders (s : Service) (o : JSMap.t Order.t) : Service :=
  {| orders := o;
     positions := positions s;
     marketData := marketData s;
     executionCallbacks := executionCallbacks s |}.

Definition withPositions (s : Service) (p : JSMap.t Position.t) : Service :=
  {| orders := orders s;
     positions := p;
     marketData := marketData s;
     executionCallbacks := executionCallbacks s |}.

Definition withMarketData (s : Service) (m : JSMap.t MarketData.t)
  : Service :=
  {| orders := orders s;
     positions := positions s;
     marketData := m;
     executionCallbacks := executionCallbacks s |}.

Definition withCallbacks (s : Service) (c : JSMap.t Callback) : Service :=
  {| orders := orders s;
     positions := positions s;
     marketData := marketData s;
     executionCallbacks := c |}.

Definition invalid (reason : string) : Validation.t :=
  {| Validation.valid := false; Validation.reason := Some reason |}.

Definition validateOrder (s : Service) (request : ExecutionRequest.t)
           (portfolio : Portfolio.t) : Validation.t :=
  if negb (JSMap.has (marketData s) (ExecutionRequest.symbol request)) then
    invalid "Market data not available for symbol"
  else if PrimFloat.leb (ExecutionRequest.quantity request) 0%float then
    invalid "Quantity must be positive"
  else if match ExecutionRequest.orderType request with
          | limit => negb (truthy (ExecutionRequest.price request))
          | _ => false
          end then
    invalid "Limit orders require a price"
  else if match ExecutionRequest.orderType request with
          | stop | stop_limit =>
              negb (truthy (ExecutionRequest.stopPrice request))
          | _ => false
          end then
    invalid "Stop orders require a stop price"
  else if match ExecutionRequest.type request with
          | buy =>
              match JSMap.get (marketData s)
                              (ExecutionRequest.symbol request) with
              | Some marketData =>
                  let estimatedCost :=
                    (ExecutionRequest.quantity request
                     * MarketData.ask marketData)%float in
                  PrimFloat.ltb (toNumber (Portfolio.availableCash portfolio))
                                estimatedCost
              | None => false
              end
          | _ => false
          end then
    invalid "Insufficient funds"
  else if match ExecutionRequest.type request with
          | sell =>
              match JSMap.get (positions s)
                              (ExecutionRequest.symbol request) with
              | None => true
              | Some position =>
                  PrimFloat.ltb (Position.quantity position)
                                (ExecutionRequest.quantity request)
              end
          | _ => false
          end then
    invalid "Insufficient position size"
  else {| Validation.valid := true; Validation.reason := None |}.

Definition executedResult (order : Order.t) (timestamp : string)
           (executedPrice : float) : ExecutionResult.t :=
  {| ExecutionResult.success := true;
     ExecutionResult.orderId := Some (Order.id order);
     ExecutionResult.executedPrice := Some executedPrice;
     ExecutionResult.executedQuantity := Some (Order.quantity order);
     ExecutionResult.status := executed;
     ExecutionResult.message := None;
     ExecutionResult.timestamp := timestamp;
     ExecutionResult.fees :=
       Some (executedPrice * Order.quantity order * 0.001)%float |}.

Definition pendingResult (order : Order.t) (timestamp : string)
           (message : string) : ExecutionResult.t :=
  {| ExecutionResult.success := false;
     ExecutionResult.orderId := Some (Order.id order);
     ExecutionResult.executedPrice := None;
     ExecutionResult.executedQuantity := None;
     ExecutionResult.status := pending;
     ExecutionResult.message := Some message;
     ExecutionResult.timestamp := timestamp;
     ExecutionResult.fees := None |}.

(** The price of an execution at the market, with its slippage.  Here and
    below the code asks [order.type === 'buy']: every other type is
    handled as a sell. *)
Definition marketPrice (d : Draw) (order : Order.t)
           (marketData : MarketData.t) : float :=
  let slippage := ((Math_random d - 0.5) * 0.001)%float in
  match Order.type order with
  | buy => (MarketData.ask marketData * (1 + slippage))%float
  | _ => (MarketData.bid marketData * (1 - slippage))%float
  end.

(** [marketData.ask <= (order.price || 0)] for a buy,
    [marketData.bid >= (order.price || 0)] otherwise. *)
Definition limitMet (order : Order.t) (marketData : MarketData.t) : bool :=
  let limitPrice := toNumber (JS.or (Order.price order) (Some 0%float)) in
  match Order.type order with
  | buy => PrimFloat.leb (MarketData.ask marketData) limitPrice
  | _ => PrimFloat.leb limitPrice (MarketData.bid marketData)
  end.

(** [marketData.last >= (order.stopPrice || 0)] for a buy,
    [marketData.last <= (order.stopPrice || 0)] otherwise. *)
Definition stopTriggered (order : Order.t) (marketData : MarketData.t)
  : bool :=
  let stopPrice := toNumber (JS.or (Order.stopPrice order) (Some 0%float)) in
  match Order.type order with
  | buy => PrimFloat.leb stopPrice (MarketData.last marketData)
  | _ => PrimFloat.leb (MarketData.last marketData) stopPrice
  end.

(** [order.price || marketData.last]. *)
Definition limitPriceOr (order : Order.t) (marketData : MarketData.t)
  : float :=
  toNumber (JS.or (Order.price order) (Some (MarketData.last marketData))).

(** [this.marketData.get(order.symbol)!]: reading a property of
    [undefined] raises a [TypeError]. *)
Definition executeMarketOrder (s : Service) (d : Draw) (order : Order.t)
  : exn + ExecutionResult.t :=
  match JSMap.get (marketData s) (Order.symbol order) with
  | None => inl TypeError
  | Some marketData =>
      inr (executedResult order (nowOfExecution d)
                          (marketPrice d order marketData))
  end.

Definition executeLimitOrder (s : Service) (d : Draw) (order : Order.t)
  : exn + ExecutionResult.t :=
  match JSMap.get (marketData s) (Order.symbol order) with
  | None => inl TypeError
  | Some marketData =>
      if limitMet order marketData then
        inr (executedResult order (nowOfExecution d)
                            (limitPriceOr order marketData))
      else
        inr (pendingResult order (nowOfExecution d) "Limit price not met")
  end.

Definition executeStopOrder (s : Service) (d : Draw) (order : Order.t)
  : exn + ExecutionResult.t :=
  match JSMap.get (marketData s) (Order.symbol order) with
  | None => inl TypeError
  | Some marketData =>
      if stopTriggered order marketData then
        inr (executedResult order (nowOfExecution d)
                            (marketPrice d order marketData))
      else
        inr (pendingResult order (nowOfExecution d)
                           "Stop price not triggered")
  end.

Definition executeStopLimitOrder (s : Service) (d : Draw) (order : Order.t)
  : exn + ExecutionResult.t :=
  match JSMap.get (marketData s) (Order.symbol order) with
  | None => inl TypeError
  | Some marketData =>
      if stopTriggered order marketData then
        if limitMet order marketData then
          inr (executedResult order (nowOfExecution d)
                              (limitPriceOr order marketData))
        else
          inr (pendingResult order (nowOfExecution d)
                             "Stop triggered but limit price not met")
      else
        inr (pendingResult order (nowOfExecution d)
                           "Stop price not triggered")
  end.

(** [existingPosition] is the object held by the map: assigning to its
    fields changes the entry in place.  The [else] of
    [order.type === 'buy'] takes every other type. *)
Definition updatePosition (s : Service) (order : Order.t)
           (executionResult : ExecutionResult.t) : Service :=
  let symbol := Order.symbol order in
  let existingPosition := JSMap.get (positions s) symbol in
  let executedPrice :=
    toNumber (ExecutionResult.executedPrice executionResult) in
  let executedQuantity :=
    toNumber (ExecutionResult.executedQuantity executionResult) in
  match Order.type order, existingPosition with
  | buy, Some p =>
      let totalQuantity := (Position.quantity p + executedQuantity)%float in
      let totalCost :=
        (Position.averagePrice p * Position.quantity p
         + executedPrice * executedQuantity)%float in
      let newAveragePrice := (totalCost / totalQuantity)%float in
      withPositions s
        (JSMap.set (positions s) symbol
           {| Position.symbol := Position.symbol p;
              Position.quantity := totalQuantity;
              Position.averagePrice := newAveragePrice;
              Position.currentPrice := Position.currentPrice p;
              Position.unrealizedPnL := Position.unrealizedPnL p;
              Position.realizedPnL := Position.realizedPnL p;
              Position.status := Position.status p;
              Position.openedAt := Position.openedAt p;
              Position.closedAt := Position.closedAt p;
              Position.trades := Position.trades p ++ [Order.id order] |})
  | buy, None =>
      withPositions s
        (JSMap.set (positions s) symbol
           {| Position.symbol := symbol;
              Position.quantity := executedQuantity;
              Position.averagePrice := executedPrice;
              Position.currentPrice := executedPrice;
              Position.unrealizedPnL := 0%float;
              Position.realizedPnL := 0%float;
              Position.status := open;
              Position.openedAt := ExecutionResult.timestamp executionResult;
              Position.closedAt := None;
              Position.trades := [Order.id order] |})
  | _, Some p =>
      let realizedPnL :=
        ((executedPrice - Position.averagePrice p) * executedQuantity)%float in
      let quantity := (Position.quantity p - executedQuantity)%float in
      let closes := PrimFloat.leb quantity 0%float in
      withPositions s
        (JSMap.set (positions s) symbol
           {| Position.symbol := Position.symbol p;
              Position.quantity := quantity;
              Position.averagePrice := Position.averagePrice p;
              Position.currentPrice := Position.currentPrice p;
              Position.unrealizedPnL := Position.unrealizedPnL p;
              Position.realizedPnL :=
                (Position.realizedPnL p + realizedPnL)%float;
              Position.status := if closes then closed else Position.status p;
              Position.openedAt := Position.openedAt p;
              Position.closedAt :=
                if closes
                then Some (ExecutionResult.timestamp executionResult)
                else Position.closedAt p;
              Position.trades := Position.trades p ++ [Order.id order] |})
  | _, None => s
  end.

Definition updatePositionPrices (s : Service) (symbol : string)
           (currentPrice : float) : Service :=
  match JSMap.get (positions s) symbol with
  | Some p =>
      if PositionStatus_eqb (Position.status p) open then
        withPositions s
          (JSMap.set (positions s) symbol
             {| Position.symbol := Position.symbol p;
                Position.quantity := Position.quantity p;
                Position.averagePrice := Position.averagePrice p;
                Position.currentPrice := currentPrice;
                Position.unrealizedPnL :=
                  ((currentPrice - Position.averagePrice p)
                   * Position.quantity p)%float;
                Position.realizedPnL := Position.realizedPnL p;
                Position.status := Position.status p;
                Position.openedAt := Position.openedAt p;
                Position.closedAt := Position.closedAt p;
                Position.trades := Position.trades p |})
      else s
  | None => s
  end.

(** The order object that [executeOrder] creates. *)
Definition newOrder (d : Draw) (request : ExecutionRequest.t) : Order.t :=
  {| Order.id := generateOrderId d;
     Order.symbol := ExecutionRequest.symbol request;
     Order.type := ExecutionRequest.type request;
     Order.orderType := ExecutionRequest.orderType request;
     Order.quantity := ExecutionRequest.quantity request;
     Order.filledQuantity := 0%float;
     Order.price := ExecutionRequest.price request;
     Order.stopPrice := ExecutionRequest.stopPrice request;
     Order.status := pending;
     Order.createdAt := now d;
     Order.updatedAt := now d;
     Order.executedAt := None;
     Order.averagePrice := None;
     Order.fees := 0%float;
     Order.strategy := ExecutionRequest.strategy request;
     Order.notes := ExecutionRequest.notes request |}.

(** The assignments to [order] that follow the execution. *)
Definition settledOrder (order : Order.t)
           (executionResult : ExecutionResult.t) : Order.t :=
  let filled := truthy (ExecutionResult.executedPrice executionResult) in
  {| Order.id := Order.id order;
     Order.symbol := Order.symbol order;
     Order.type := Order.type order;
     Order.orderType := Order.orderType order;
     Order.quantity := Order.quantity order;
     Order.filledQuantity :=
       if filled
       then toNumber (JS.or (ExecutionResult.executedQuantity executionResult)
                            (Some 0%float))
       else Order.filledQuantity order;
     Order.price := Order.price order;
     Order.stopPrice := Order.stopPrice order;
     Order.status := ExecutionResult.status executionResult;
     Order.createdAt := Order.createdAt order;
     Order.updatedAt := ExecutionResult.timestamp executionResult;
     Order.executedAt :=
       if filled then Some (ExecutionResult.timestamp executionResult)
       else Order.executedAt order;
     Order.averagePrice :=
       if filled then ExecutionResult.executedPrice executionResult
       else Order.averagePrice order;
     Order.fees :=
       if filled
       then toNumber (JS.or (ExecutionResult.fees executionResult)
                            (Some 0%float))
       else Order.fees order;
     Order.strategy := Order.strategy order;
     Order.notes := Order.notes order |}.

(** A call of [executeOrder] that has reached its first [await]: the order
    it created and the result of the execution it awaits. *)
Record Submitted := {
  submittedRequest : ExecutionRequest.t;
  submittedOrder : Order.t;
  submittedResult : ExecutionResult.t
}.

(** What [executeOrder] leaves: the service after the call, the result it
    returns, and the call of a callback, if one is made.  The callback is
    called last, after every change to the service: if it returns, the
    promise resolves to [result]; if it throws, the promise rejects with
    what it threw, and the service is [service] all the same (see
    [promised]).  A callback is taken not to call the service back. *)
Record Outcome := {
  service : Service;
  result : ExecutionResult.t;
  notified : option (Callback * ExecutionResult.t)
}.

(** [executeOrder] up to its first [await]: the validation, the creation of
    the order and the body of the [execute...Order] method, which has no
    [await] of its own.  A rejected request returns at once.  An order type
    that is none of the four takes the [default] of the [switch], whose
    result stands in place of an execution; no [await] then separates it
    from what follows. *)
Definition submit (s : Service) (d : Draw) (request : ExecutionRequest.t)
           (portfolio : Portfolio.t)
  : exn + (Service * (ExecutionResult.t + Submitted)) :=
  let orderId := generateOrderId d in
  let timestamp := now d in
  let validation := validateOrder s request portfolio in
  if negb (Validation.valid validation) then
    inr (s, inl {| ExecutionResult.success := false;
                   ExecutionResult.orderId := None;
                   ExecutionResult.executedPrice := None;
                   ExecutionResult.executedQuantity := None;
                   ExecutionResult.status := rejected;
                   ExecutionResult.message := Validation.reason validation;
                   ExecutionResult.timestamp := timestamp;
                   ExecutionResult.fees := None |})
  else
    let order := newOrder d request in
    let s1 := withOrders s (JSMap.set (orders s) orderId order) in
    match
      match ExecutionRequest.orderType request with
      | market => executeMarketOrder s1 d order
      | limit => executeLimitOrder s1 d order
      | stop => executeStopOrder s1 d order
      | stop_limit => executeStopLimitOrder s1 d order
      | anotherOrderType =>
          inr {| ExecutionResult.success := false;
                 ExecutionResult.orderId := None;
                 ExecutionResult.executedPrice := None;
                 ExecutionResult.executedQuantity := None;
                 ExecutionResult.status := rejected;
                 ExecutionResult.message := Some "Invalid order type";
                 ExecutionResult.timestamp := timestamp;
                 ExecutionResult.fees := None |}
      end
    with
    | inl e => inl e
    | inr executionResult =>
        inr (s1, inr {| submittedRequest := request;
                        submittedOrder := order;
                        submittedResult := executionResult |})
    end.

(** [executeOrder] from its first [await] on: the order is brought up to
    date, the position is updated and the callback of the client is
    called; it is looked up under [request.clientId || ''], and the empty
    string is the only falsy client id.  ([updatePosition] is awaited too,
    after its body has run: the callbacks are taken not to change between
    that and the lookup.)  What the callback does is its own: the call is
    kept in [notified], and [promised] below says what the promise settles
    to if the callback throws. *)
Definition settle (s : Service) (p : Submitted) : Outcome :=
  let executionResult := submittedResult p in
  let order := settledOrder (submittedOrder p) executionResult in
  let s1 := withOrders s (JSMap.set (orders s) (Order.id order) order) in
  let s2 :=
    if ExecutionResult.success executionResult
       && truthy (ExecutionResult.executedQuantity executionResult)
    then updatePosition s1 order executionResult
    else s1 in
  let key :=
    match ExecutionRequest.clientId (submittedRequest p) with
    | Some clientId => clientId
    | None => EmptyString
    end in
  {| service := s2;
     result := executionResult;
     notified :=
       match JSMap.get (executionCallbacks s2) key with
       | Some callback => Some (callback, executionResult)
       | None => None
       end |}.

Definition executeOrder (s : Service) (d : Draw)
           (request : ExecutionRequest.t) (portfolio : Portfolio.t)
  : exn + Outcome :=
  match submit s d request portfolio with
  | inl e => inl e
  | inr (s1, inl rejection) =>
      inr {| service := s1; result := rejection; notified := None |}
  | inr (s1, inr p) => inr (settle s1 p)
  end.

(** What the promise of [executeOrder] settles to, where
    [throws callback result] is what the callback throws when it is called
    with the result, if it throws. *)
Definition promised (throws : Callback -> ExecutionResult.t -> option exn)
           (out : Outcome) : exn + ExecutionResult.t :=
  match notified out with
  | Some (callback, executionResult) =>
      match throws callback executionResult with
      | Some e => inl e
      | None => inr (result out)
      end
  | None => inr (result out)
  end.

Definition getOrder (s : Service) (orderId : string) : option Order.t :=
  JSMap.get (orders s) orderId.

Definition getOrders (s : Service) : list Order.t :=
  JSMap.values (orders s).

Definition getPendingOrders (s : Service) : list Order.t :=
  filter (fun order => OrderStatus_eqb (Order.status order) pending)
         (JSMap.values (orders s)).

Definition getPosition (s : Service) (symbol : string) : option Position.t :=
  JSMap.get (positions s) symbol.


Definition getOpenPositions (s : Service) : list Position.t :=
  filter (fun position => PositionStatus_eqb (Position.status position) open)
         (JSMap.values (positions s)).

Definition getMarketData (s : Service) (symbol : string)
  : option MarketData.t :=
  JSMap.get (marketData s) symbol.

Definition getAllMarketData (s : Service) : list MarketData.t :=
  JSMap.values (marketData s).

(** [timestamp] is the time read by the call. *)
Definition cancelOrder (s : Service) (timestamp : string) (orderId : string)
  : Service * bool :=
  match JSMap.get (orders s) orderId with
  | Some order =>
      if OrderStatus_eqb (Order.status order) pending then
        (withOrders s
           (JSMap.set (orders s) orderId
              {| Order.id := Order.id order;
                 Order.symbol := Order.symbol order;
                 Order.type := Order.type order;
                 Order.orderType := Order.orderType order;
                 Order.quantity := Order.quantity order;
                 Order.filledQuantity := Order.filledQuantity order;
                 Order.price := Order.price order;
                 Order.stopPrice := Order.stopPrice order;
                 Order.status := cancelled;
                 Order.createdAt := Order.createdAt order;
                 Order.updatedAt := timestamp;
                 Order.executedAt := Order.executedAt order;
                 Order.averagePrice := Order.averagePrice order;
                 Order.fees := Order.fees order;
                 Order.strategy := Order.strategy order;
                 Order.notes := Order.notes order |}),
         true)
      else (s, false)
  | None => (s, false)
  end.

Definition setExecutionCallback (s : Service) (clientId : string)
           (callback : Callback) : Service :=
  withCallbacks s (JSMap.set (executionCallbacks s) clientId callback).

Definition removeExecutionCallback (s : Service) (clientId : string)
  : Service :=
  withCallbacks s (JSMap.delete (executionCallbacks s) clientId).

Record PortfolioSummary := {
  totalValue : float;
  totalUnrealizedPnL : float;
  totalRealizedPnL : float;
  openPositions : nat;
  pendingOrders : nat
}.

Definition getPortfolioSummary (s : Service) : PortfolioSummary :=
  let positions_ := getOpenPositions s in
  let pendingOrders_ := getPendingOrders s in
  let totalUnrealizedPnL_ := JS.sum (map Position.unrealizedPnL positions_) in
  let totalRealizedPnL_ :=
    JS.sum (map Position.realizedPnL (JSMap.values (positions s))) in
  {| totalValue :=
       (1250000 + totalUnrealizedPnL_ + totalRealizedPnL_)%float;
     totalUnrealizedPnL := totalUnrealizedPnL_;
     totalRealizedPnL := totalRealizedPnL_;
     openPositions := length positions_;
     pendingOrders := length pendingOrders_ |}.

(** What the timer's callback reads for one symbol. *)
Record Tick := {
  (** [Math.random()] of the change *)
  tick_random : float;
  (** [Math.floor(Math.random() * 10000)] *)
  tick_volume : float;
  tick_now : string
}.

(** The callback that [startRealTimeUpdates] hands to [setInterval]: one
    pass over the market data.  Each entry is replaced under its own key,
    so the pass visits the entries the map had when it began. *)
Definition realTimeUpdate (draws : string -> Tick) (s : Service) : Service :=
  fold_left
    (fun (s : Service) (entry : string * MarketData.t) =>
       let '(symbol, data) := entry in
       let volatility := getVolatility symbol in
       let change :=
         ((tick_random (draws symbol) - 0.5) * volatility)%float in
       let newBid := (MarketData.bid data * (1 + change))%float in
       let newAsk := (MarketData.ask data * (1 + change))%float in
       let newLast := ((newBid + newAsk) / 2)%float in
       let s1 :=
         withMarketData s
           (JSMap.set (marketData s) symbol
              {| MarketData.symbol := MarketData.symbol data;
                 MarketData.bid := newBid;
                 MarketData.ask := newAsk;
                 MarketData.last := newLast;
                 MarketData.volume :=
                   (MarketData.volume data
                    + tick_volume (draws symbol))%float;
                 MarketData.timestamp := tick_now (draws symbol) |}) in
       updatePositionPrices s1 symbol newLast)
    (marketData s) s.

(** The calls that change the service, one at a time. *)
Inductive Call :=
| CallExecuteOrder (d : Draw) (request : ExecutionRequest.t)
                   (portfolio : Portfolio.t)
| CallCancelOrder (timestamp : string) (orderId : string)
| CallSetExecutionCallback (clientId : string) (callback : Callback)
| CallRemoveExecutionCallback (clientId : string)
| TimerFires (draws : string -> Tick).

Definition perform (s : Service) (c : Call) : exn + Service :=
  match c with
  | CallExecuteOrder d request portfolio =>
      match executeOrder s d request portfolio with
      | inl e => inl e
      | inr out => inr (service out)
      end
  | CallCancelOrder timestamp orderId =>
      inr (fst (cancelOrder s timestamp orderId))
  | CallSetExecutionCallback clientId callback =>
      inr (setExecutionCallback s clientId callback)
  | CallRemoveExecutionCallback clientId =>
      inr (removeExecutionCallback s clientId)
  | TimerFires draws => inr (realTimeUpdate draws s)
  end.

Definition performAll (s : Service) (calls : list Call) : exn + Service :=
  fold_left
    (fun st c =>
       match st with
       | inl e => inl e
       | inr s => perform s c
       end)
    calls (inr s).

End Service.

End Execution.

Module ExecutionFixtures.
Import JS Execution.

(** The service as constructed, with callbacks known by a number. *)
Definition fresh : TradingExecutionService nat :=
  initializeMarketData (fun _ => 500000%float)
                       (fun _ => "2024-01-01T00:00:00.000Z").

Definition draw (n : Z) : Draw :=
  {| Date_now := n;
     randomSuffix := "k3j9x0q2a";
     now := "2024-01-01T00:00:01.000Z";
     nowOfExecution := "2024-01-01T00:00:01.001Z";
     Math_random := 0.5%float |}.

Definition wealthy : Portfolio.t :=
  {| Portfolio.availableCash := Some 1000000%float |}.

(** A request for AAPL. *)
Definition request (side : Side) (quantity : float) (orderType : OrderType)
           (price : value) : ExecutionRequest.t :=
  {| ExecutionRequest.symbol := "AAPL";
     ExecutionRequest.type := side;
     ExecutionRequest.quantity := quantity;
     ExecutionRequest.orderType := orderType;
     ExecutionRequest.price := price;
     ExecutionRequest.stopPrice := None;
     ExecutionRequest.timeInForce := day;
     ExecutionRequest.clientId := None;
     ExecutionRequest.strategy := None;
     ExecutionRequest.notes := None |}.

Definition positionOf (quantity : float) (status : PositionStatus)
  : Position.t :=
  {| Position.symbol := "AAPL";
     Position.quantity := quantity;
     Position.averagePrice := 180%float;
     Position.currentPrice := 180%float;
     Position.unrealizedPnL := 0%float;
     Position.realizedPnL := 0%float;
     Position.status := status;
     Position.openedAt := "2024-01-01T00:00:00.500Z";
     Position.closedAt := None;
     Position.trades := ["order_0_k3j9x0q2a"] |}.

(** The service holding one position in AAPL. *)
Definition holding (quantity : float) (status : PositionStatus)
  : TradingExecutionService nat :=
  withPositions fresh [("AAPL", positionOf quantity status)].

(** The service after a limit buy of AAPL at 100, under the market: the
    order rests. *)
Definition resting : TradingExecutionService nat :=
  match executeOrder fresh (draw 1) (request buy 10%float limit
                                             (Some 100%float)) wealthy with
  | inr out => service out
  | inl _ => fresh
  end.

Definition quietTick : string -> Tick :=
  fun _ => {| tick_random := 0.75%float;
              tick_volume := 100%float;
              tick_now := "2024-01-01T00:00:02.000Z" |}.

(** Calls that follow: a pass of the timer, a market buy, another pass. *)
Definition afterwards : list (@Call nat) :=
  [ TimerFires quietTick;
    CallExecuteOrder (draw 2) (request buy 1%float market None) wealthy;
    TimerFires quietTick ].

End ExecutionFixtures.

(** ** app/api/backtest/route.ts: the POST handler *)

Module BacktestRoute.
Import JS Strategies.

(** The parsed body of the request, for the fields the handler and the
    engine read.  Each may be absent; one that is present has the type the
    interfaces [BacktestRequest] and [OptimizationRequest] give it, where
    they give one.  [parameterRanges] is typed [any]: it is absent or falsy
    ([None]), or a truthy value given by its own properties, whatever they
    hold.  The capital is taken to be given.  [Result] is what the body
    holds under [result], which only the report reads. *)
Record Body (Result : Type) := {
  action : option string;
  symbol : option string;
  strategy : option string;
  startDate : option string;
  endDate : option string;
  initialCapital : float;
  parameters : option object;
  parameterRanges : option (list (string * Backtesting.AnyRanges.Candidates));
  result : option Result
}.
Arguments action {Result} _.
Arguments symbol {Result} _.
Arguments strategy {Result} _.
Arguments startDate {Result} _.
Arguments endDate {Result} _.
Arguments initialCapital {Result} _.
Arguments parameters {Result} _.
Arguments parameterRanges {Result} _.
Arguments result {Result} _.

(** What [NextResponse.json] is given. *)
Inductive Payload :=
| RunDone (result : Backtesting.BacktestResult) (timestamp : string)
| OptimizeDone (results : list Backtesting.OptimizationResult)
               (timestamp : string)
| ReportDone (report : string) (timestamp : string)
| Failure (error : string) (message : option string).

Record Response := {
  status : nat;
  json : Payload
}.

(** [!field] on a string that may be absent. *)
Definition missing (field : option string) : bool :=
  match field with
  | Some s => String.eqb s EmptyString
  | None => true
  end.

Section Handler.
Context {Result : Type}.
Variable engine : Backtesting.BacktestingEngine.
Variable strategyManager : StrategyManager.t.
(** The clock during a run, and during the [k]-th run of an
    optimization. *)
Variable clock : nat -> Clock.
Variable clocks : nat -> nat -> Clock.
(** [new Date(s).getTime()]. *)
Variable Date_parse : string -> float.
(** [new Date().toISOString()] when the response is built. *)
Variable now : string.
(** The message of a [TypeError], which the engine words. *)
Variable TypeError_message : string.
(** [backtestingEngine.generateBacktestReport], which only formats. *)
Variable generateBacktestReport : Result -> exn + string.

(** [new Date(field)]: an absent date is an invalid one. *)
Definition timeOf (field : option string) : float :=
  match field with
  | Some s => Date_parse s
  | None => nan
  end.

(** The rest of the body, as the engine reads it. *)
Definition configOf (body : Body Result) : Backtesting.BacktestConfig :=
  {| Backtesting.symbol :=
       match symbol body with Some s => s | None => EmptyString end;
     Backtesting.strategy :=
       match strategy body with Some s => s | None => EmptyString end;
     Backtesting.startDate := timeOf (startDate body);
     Backtesting.endDate := timeOf (endDate body);
     Backtesting.initialCapital := initialCapital body;
     Backtesting.parameters := parameters body |}.

(** The answer of the [catch]. *)
Definition internalServerError (e : exn) : Response :=
  {| status := 500;
     json := Failure "Internal server error"
                     (Some match e with
                           | Error message => message
                           | TypeError => TypeError_message
                           end) |}.

Definition badRequest (error : string) : Response :=
  {| status := 400; json := Failure error None |}.

Definition POST (body : Body Result) : Response :=
  if match action body with
     | Some a => String.eqb a "run"
     | None => false
     end then
    if missing (symbol body) || missing (strategy body)
       || missing (startDate body) || missing (endDate body)
    then badRequest "Missing required fields for backtest"
    else
      match Backtesting.runBacktest engine strategyManager clock
                                    (configOf body) with
      | inr result => {| status := 200; json := RunDone result now |}
      | inl e => internalServerError e
      end
  else if match action body with
          | Some a => String.eqb a "optimize"
          | None => false
          end then
    match parameterRanges body with
    | Some ranges =>
        if missing (symbol body) || missing (strategy body)
        then badRequest "Missing required fields for optimization"
        else
          match Backtesting.AnyRanges.optimizeStrategy
                  engine strategyManager clocks (configOf body)
                  (Backtesting.AnyRanges.Properties ranges) with
          | inr results =>
              {| status := 200; json := OptimizeDone results now |}
          | inl e => internalServerError e
          end
    | None => badRequest "Missing required fields for optimization"
    end
  else if match action body with
          | Some a => String.eqb a "report"
          | None => false
          end then
    match result body with
    | Some given =>
        match generateBacktestReport given with
        | inr report => {| status := 200; json := ReportDone report now |}
        | inl e => internalServerError e
        end
    | None => badRequest "Backtest result required for report generation"
    end
  else badRequest "Invalid action".

End Handler.

End BacktestRoute.

Module RouteFixtures.
Import JS BacktestRoute.

(** The time value of the two dates the requests below use. *)
Definition Date_parse (s : string) : float :=
  if String.eqb s "1970-01-01T00:00:00.000Z" then 0%float
  else if String.eqb s "1970-01-10T00:00:00.000Z"
       then (9 * Fixtures.msPerDay)%float
       else nan.

(** A request for X over its first ten days. *)
Definition tenDays (action : string) : Body unit :=
  {| action := Some action;
     symbol := Some "X";
     strategy := Some "consensus";
     startDate := Some "1970-01-01T00:00:00.000Z";
     endDate := Some "1970-01-10T00:00:00.000Z";
     initialCapital := 10000%float;
     parameters := None;
     parameterRanges :=
       Some (Backtesting.AnyRanges.ofArrays Fixtures.twoByTwo);
     result := None |}.

(** The same request with the ranges [{a: 5}]. *)
Definition notIterable (action : string) : Body unit :=
  {| action := Some action;
     symbol := Some "X";
     strategy := Some "consensus";
     startDate := Some "1970-01-01T00:00:00.000Z";
     endDate := Some "1970-01-10T00:00:00.000Z";
     initialCapital := 10000%float;
     parameters := None;
     parameterRanges := Some [ ("a", Backtesting.AnyRanges.NotIterable) ];
     result := None |}.

Definition answer (body : Body unit) : Response :=
  POST Fixtures.engine Fixtures.defaultManager (Fixtures.clockAt 0)
       (fun _ => Fixtures.clockAt 0) Date_parse "2024-01-01T00:00:00.000Z"
       "Cannot read properties of undefined" (fun _ => inr EmptyString) body.

End RouteFixtures.

(** ** Vocabulary of the further properties *)

Module Further.
Import JS Strategies.

(** A trade entered at the close of an iterated bar and left at the close
    of the next one, labelled as the request says. *)
Definition oneBarRoundTrip (c : Backtesting.BacktestConfig)
           (filteredData : list Backtesting.HistoricalData)
           (t : Backtesting.BacktestTrade) : Prop :=
  Backtesting.type_ t <> hold
  /\ Backtesting.trade_symbol t = Backtesting.symbol c
  /\ Backtesting.trade_strategy t = Backtesting.strategy c
  /\ Backtesting.status t = "completed"
  /\ exists (i : nat) (bar next : Backtesting.HistoricalData),
       20 <= i
       /\ nth_error filteredData i = Some bar
       /\ nth_error filteredData (i + 1) = Some next
       /\ Backtesting.entryTime t = Backtesting.timestamp bar
       /\ Backtesting.exitTime t = Backtesting.timestamp next
       /\ Backtesting.entryPrice t = Backtesting.close bar
       /\ Backtesting.exitPrice t = Backtesting.close next.

(** An equity point that shows the untouched starting capital. *)
Definition flatPoint (c : Backtesting.BacktestConfig)
           (p : Backtesting.EquityPoint) : Prop :=
  Backtesting.equity p = Backtesting.initialCapital c
  /\ Backtesting.drawdown p = 0%float.

(** What a strategy's own backtest reports when it made no trade. *)
Definition noTradeReport : BacktestResult :=
  {| totalTrades := 0;
     winningTrades := 0;
     losingTrades := 0;
     winRate := 0%float;
     totalReturn := 0%float;
     maxDrawdown := 0%float;
     sharpeRatio := 0%float;
     profitFactor := infinity;
     averageWin := 0%float;
     averageLoss := 0%float |}.


(** The result of an execution: filled at a price, or left pending. *)
Inductive executionOf (order : Execution.Order.t) (timestamp : string)
  : Execution.ExecutionResult.t -> Prop :=
| filledAt (executedPrice : float) :
    executionOf order timestamp
                (Execution.executedResult order timestamp executedPrice)
| leftPending (message : string) :
    executionOf order timestamp
                (Execution.pendingResult order timestamp message).

(** The result that the [default] of the [switch] gives. *)
Definition invalidOrderType (timestamp : string)
  : Execution.ExecutionResult.t :=
  {| Execution.ExecutionResult.success := false;
     Execution.ExecutionResult.orderId := None;
     Execution.ExecutionResult.executedPrice := None;
     Execution.ExecutionResult.executedQuantity := None;
     Execution.ExecutionResult.status := Execution.rejected;
     Execution.ExecutionResult.message := Some "Invalid order type";
     Execution.ExecutionResult.timestamp := timestamp;
     Execution.ExecutionResult.fees := None |}.

(** What the [switch] of [executeOrder] leaves for a request: the result
    of an execution, stamped when it was made, or, for an order type that
    is none of the four, the refusal of the [default], stamped as the
    call. *)
Definition switchedTo (d : Execution.Draw)
           (request : Execution.ExecutionRequest.t)
           (r : Execution.ExecutionResult.t) : Prop :=
  match Execution.ExecutionRequest.orderType request with
  | Execution.anotherOrderType => r = invalidOrderType (Execution.now d)
  | _ => executionOf (Execution.newOrder d request)
                     (Execution.nowOfExecution d) r
  end.


(** The call is an order that is given the id [orderId]. *)
Definition createsOrder {Callback} (orderId : string)
           (c : @Execution.Call Callback) : Prop :=
  match c with
  | Execution.CallExecuteOrder d _ _ => Execution.generateOrderId d = orderId
  | _ => False
  end.

End Further.

(** ** trading-strategies.ts: the strategies' own backtests

    [TechnicalAnalysisStrategy.backtest] and
    [MachineLearningStrategy.backtest] have the same body but for the test
    that decides whether a signal is traded, and each class carries its own
    copy of [calculateSharpeRatio] and [calculateProfitFactor]; the body is
    written once here, over the strategy's [analyze] and that test. *)

Module StrategyBacktest.
Import JS Strategies.

(** An element of the local [trades] array. *)
Record Trade := {
  profit : float;
  profitPercent : float;
  win : bool
}.

(** [TradingStrategy.calculatePositionSize]. *)
Definition calculatePositionSize
           (accountBalance riskPerTrade entryPrice stopLoss : float) : float :=
  let riskAmount := (accountBalance * (riskPerTrade / 100))%float in
  let priceRisk := Math_abs (entryPrice - stopLoss)%float in
  (riskAmount / priceRisk)%float.

Definition calculateSharpeRatio (trades : list Trade) : float :=
  match trades with
  | [] => 0%float
  | _ =>
      let returns := map profitPercent trades in
      let avgReturn := (JS.sum returns / lenF (length returns))%float in
      let variance :=
        (fold_left (fun sum r => (sum + Math_pow2 (r - avgReturn))%float)
                   returns 0%float
         / lenF (length returns))%float in
      let stdDev := Math_sqrt variance in
      if neq0 stdDev then (avgReturn / stdDev)%float else 0%float
  end.

Definition calculateProfitFactor (trades : list Trade) : float :=
  let grossProfit := JS.sum (map profit (filter win trades)) in
  let grossLoss :=
    Math_abs (JS.sum (map profit (filter (fun t => negb (win t)) trades))) in
  if neq0 grossLoss then (grossProfit / grossLoss)%float else infinity.

(** The variables of the loop. *)
Record Account := {
  balance : float;
  maxBalance : float;
  maxDrawdown : float;
  trades : list Trade
}.

Definition startingAccount : Account :=
  {| balance := 100000%float;
     maxBalance := 100000%float;
     maxDrawdown := 0%float;
     trades := [] |}.

Section Backtest.
Variable analyze : Clock -> list MarketDatum -> option StrategySignal.
(** The test of the [if] that guards a trade. *)
Variable traded : StrategySignal -> bool.
Variable parameters : StrategyParameters.
(** The reading of the clock at the iteration of index [i]. *)
Variable clock : nat -> Clock.

(** One iteration of the loop.  An exception of [analyze] is not caught;
    [nextData.price] raises a [TypeError] if there is no next bar. *)
Definition iteration (historicalData : list MarketDatum) (acc : Account)
           (i : nat) : exn + Account :=
  let dataSlice := firstn (i + 1) historicalData in
  match analyze (clock i) dataSlice with
  | None => inl TypeError
  | Some signal =>
      if traded signal then
        let positionSize :=
          calculatePositionSize (balance acc) (riskPerTrade parameters)
                                (toNumber (Strategies.entryPrice signal))
                                (toNumber (Strategies.stopLoss signal)) in
        let entryCost :=
          (positionSize * toNumber (Strategies.entryPrice signal))%float in
        if PrimFloat.ltb (balance acc) entryCost then inr acc
        else
          match nth_error historicalData (i + 1) with
          | None => inl TypeError
          | Some nextData =>
              let exitPrice := toNumber (md_price nextData) in
              let profit :=
                ((exitPrice - toNumber (Strategies.entryPrice signal))
                 * positionSize)%float in
              let profitPercent := (profit / entryCost * 100)%float in
              let balance' := (balance acc + profit)%float in
              let maxBalance' := Math_max (maxBalance acc) balance' in
              let drawdown :=
                ((maxBalance' - balance') / maxBalance' * 100)%float in
              inr {| balance := balance';
                     maxBalance := maxBalance';
                     maxDrawdown := Math_max (maxDrawdown acc) drawdown;
                     trades := trades acc
                               ++ [ {| profit := profit;
                                       profitPercent := profitPercent;
                                       win := PrimFloat.ltb 0%float profit |} ]
                  |}
          end
      else inr acc
  end.

(** [for (let i = 50; i < historicalData.length - 1; i++)]. *)
Definition iterations (historicalData : list MarketDatum) : list nat :=
  seq 50 (length historicalData - 1 - 50).

Definition loop (historicalData : list MarketDatum) : exn + Account :=
  fold_left
    (fun st i =>
       match st with
       | inl e => inl e
       | inr acc => iteration historicalData acc i
       end)
    (iterations historicalData) (inr startingAccount).

(** The object returned after the loop. *)
Definition report (acc : Account) : BacktestResult :=
  let winningTrades := length (filter win (trades acc)) in
  let losingTrades := length (filter (fun t => negb (win t)) (trades acc)) in
  {| totalTrades := length (trades acc);
     winningTrades := winningTrades;
     losingTrades := losingTrades;
     winRate :=
       if 0 <? length (trades acc)
       then (lenF winningTrades / lenF (length (trades acc)) * 100)%float
       else 0%float;
     totalReturn := ((balance acc - 100000) / 100000 * 100)%float;
     Strategies.maxDrawdown := maxDrawdown acc;
     sharpeRatio := calculateSharpeRatio (trades acc);
     profitFactor := calculateProfitFactor (trades acc);
     averageWin :=
       toNumber
         (JS.or (Some (JS.sum (map profit (filter win (trades acc)))
                       / lenF winningTrades)%float)
                (Some 0%float));
     averageLoss :=
       toNumber
         (JS.or (Some (JS.sum (map (fun t => Math_abs (profit t))
                                   (filter (fun t => negb (win t))
                                           (trades acc)))
                       / lenF losingTrades)%float)
                (Some 0%float)) |}.

Definition backtest (historicalData : list MarketDatum)
  : exn + BacktestResult :=
  match loop historicalData with
  | inl e => inl e
  | inr acc => inr (report acc)
  end.

End Backtest.

(** [TechnicalAnalysisStrategy.backtest]: every signal that is not a hold
    is traded. *)
Definition TechnicalAnalysisStrategy_backtest
           (Number_toFixed : float -> nat -> string)
           (parameters : StrategyParameters) (clock : nat -> Clock)
           (historicalData : list MarketDatum) : exn + BacktestResult :=
  backtest (Strategies.TechnicalAnalysisStrategy.analyze
              Number_toFixed parameters)
           (fun signal => negb (Action_eqb (action signal) hold))
           parameters clock historicalData.

(** [MachineLearningStrategy.backtest]: a signal is traded if it is not a
    hold and its confidence is above 70. *)
Definition MachineLearningStrategy_backtest
           (infer : list MarketDatum
                    -> option Strategies.MachineLearningStrategy.AiResult)
           (parameters : StrategyParameters) (clock : nat -> Clock)
           (historicalData : list MarketDatum) : exn + BacktestResult :=
  backtest (Strategies.MachineLearningStrategy.analyze infer)
           (fun signal =>
              negb (Action_eqb (action signal) hold)
              && PrimFloat.ltb 70%float (confidence signal))
           parameters clock historicalData.

End StrategyBacktest.

(** * Properties *)

Import JS Strategies.

(** ** NaN is absorbing *)

Section FloatFacts.

Lemma nan_of_Prim2SF (x : float) : Prim2SF x = S754_nan -> x = nan.
Proof. intros H. apply Prim2SF_inj. rewrite H. reflexivity. Qed.

Lemma add_nan_r (x : float) : (x + nan)%float = nan.
Proof.
  apply nan_of_Prim2SF. rewrite FloatAxioms.add_spec.
  change (Prim2SF nan) with S754_nan.
  unfold SF64add, SFadd. destruct (Prim2SF x); reflexivity.
Qed.

Lemma add_nan_l (x : float) : (nan + x)%float = nan.
Proof. apply nan_of_Prim2SF. rewrite FloatAxioms.add_spec. reflexivity. Qed.

Lemma sub_nan_r (x : float) : (x - nan)%float = nan.
Proof.
  apply nan_of_Prim2SF. rewrite FloatAxioms.sub_spec.
  change (Prim2SF nan) with S754_nan.
  unfold SF64sub, SFsub. destruct (Prim2SF x); reflexivity.
Qed.

Lemma mul_nan_r (x : float) : (x * nan)%float = nan.
Proof.
  apply nan_of_Prim2SF. rewrite FloatAxioms.mul_spec.
  change (Prim2SF nan) with S754_nan.
  unfold SF64mul, SFmul. destruct (Prim2SF x); reflexivity.
Qed.

Lemma mul_nan_l (x : float) : (nan * x)%float = nan.
Proof. apply nan_of_Prim2SF. rewrite FloatAxioms.mul_spec. reflexivity. Qed.

Lemma div_nan_r (x : float) : (x / nan)%float = nan.
Proof.
  apply nan_of_Prim2SF. rewrite FloatAxioms.div_spec.
  change (Prim2SF nan) with S754_nan.
  unfold SF64div, SFdiv. destruct (Prim2SF x); reflexivity.
Qed.

Lemma div_nan_l (x : float) : (nan / x)%float = nan.
Proof. apply nan_of_Prim2SF. rewrite FloatAxioms.div_spec. reflexivity. Qed.

Lemma Math_max_nan_r (x : float) : Math_max x nan = nan.
Proof.
  unfold Math_max. change (PrimFloat.is_nan nan) with true.
  now rewrite orb_true_r.
Qed.

(** A sum that meets a [NaN] is [NaN]. *)
Lemma fold_add_nan (xs : list float) :
  Forall (eq nan) xs -> fold_left PrimFloat.add xs nan = nan.
Proof.
  induction 1 as [|x xs <- _ IH]; simpl; [reflexivity|].
  rewrite ?add_nan_r. exact IH.
Qed.

Lemma sum_nan (xs : list float) :
  xs <> [] -> Forall (eq nan) xs -> JS.sum xs = nan.
Proof.
  intros Hne Hall. unfold JS.sum.
  destruct Hall as [|x xs <- Hall]; [congruence|]. simpl.
  rewrite ?add_nan_r. now apply fold_add_nan.
Qed.

End FloatFacts.

(** ** Subtraction respects the order

    For two binary64 numbers [a < b], the rounded difference [b - a] is not
    negative. *)

Section FloatOrder.
Local Open Scope Z_scope.


Lemma digits2_pos_bounds (m : positive) :
  2 ^ (Z.pos (digits2_pos m) - 1) <= Z.pos m < 2 ^ Z.pos (digits2_pos m).
Proof.
  induction m as [m IH|m IH|]; simpl digits2_pos.
  - rewrite Pos2Z.inj_succ. replace (Z.succ (Z.pos (digits2_pos m)) - 1)
      with (Z.succ (Z.pos (digits2_pos m) - 1)) by lia.
    rewrite !Z.pow_succ_r by lia. lia.
  - rewrite Pos2Z.inj_succ. replace (Z.succ (Z.pos (digits2_pos m)) - 1)
      with (Z.succ (Z.pos (digits2_pos m) - 1)) by lia.
    rewrite !Z.pow_succ_r by lia. lia.
  - simpl. lia.
Qed.

Lemma shl_align_fst (m : positive) (e ez : Z) :
  ez <= e -> Z.pos (fst (shl_align m e ez)) = Z.pos m * 2 ^ (e - ez).
Proof.
  intros H. unfold shl_align.
  destruct (ez - e) as [|d|d] eqn:E; simpl fst.
  - replace (e - ez) with 0 by lia. lia.
  - lia.
  - change (PosDef.Pos.iter xO m d) with (shift_pos d m).
    rewrite shift_pos_correct, Z.pow_pos_fold.
    replace (e - ez) with (Z.pos d) by lia. lia.
Qed.

(** What validity says of a finite number. *)
Lemma bounded_digits (m : positive) (e : Z) :
  bounded prec emax m e = true ->
  Z.pos (digits2_pos m) <= prec
  /\ (emin < e -> Z.pos (digits2_pos m) = prec)
  /\ emin <= e.
Proof.
  unfold bounded, canonical_mantissa, fexp. intros H.
  apply andb_true_iff in H. destruct H as [H _].
  apply Z.eqb_eq in H.
  change (IntDef.Z.max ?a ?b) with (Z.max a b) in H. lia.
Qed.

Lemma aligned_lt (ma mb : positive) (ea eb : Z) :
  bounded prec emax ma ea = true ->
  bounded prec emax mb eb = true ->
  ea < eb ->
  Z.pos ma * 2 ^ (ea - Z.min eb ea) <= Z.pos mb * 2 ^ (eb - Z.min eb ea).
Proof.
  intros Va Vb Hlt.
  destruct (bounded_digits _ _ Va) as (Da & _ & Ea).
  destruct (bounded_digits _ _ Vb) as (_ & Db & _).
  specialize (Db ltac:(lia)).
  pose proof (digits2_pos_bounds ma) as [_ Ha].
  pose proof (digits2_pos_bounds mb) as [Hb _].
  rewrite Db in Hb.
  replace (Z.min eb ea) with ea by lia.
  replace (ea - ea) with 0 by lia. rewrite Z.pow_0_r, Z.mul_1_r.
  assert (Z.pos ma < 2 ^ prec).
  { eapply Z.lt_le_trans; [exact Ha|]. apply Z.pow_le_mono_r; lia. }
  assert (2 ^ 1 <= 2 ^ (eb - ea)) by (apply Z.pow_le_mono_r; lia).
  assert (2 ^ prec = 2 ^ (prec - 1) * 2 ^ 1) by reflexivity.
  nia.
Qed.

Lemma binary_round_not_negative (m : positive) (e : Z) :
  SFltb (binary_round prec emax false m e) (S754_zero false) = false.
Proof.
  unfold binary_round, binary_round_aux.
  destruct (shl_align _ _ _) as [mz ez].
  destruct (shr_fexp _ _ _ _ _) as [mrs' e'].
  destruct (shr_fexp _ _ _ _ _) as [mrs'' e''].
  destruct (shr_m mrs''); [reflexivity| |reflexivity].
  destruct (_ <=? _); reflexivity.
Qed.

Lemma binary_normalize_not_negative (m e : Z) :
  0 <= m ->
  SFltb (binary_normalize prec emax m e false) (S754_zero false) = false.
Proof.
  intros H. destruct m as [|m|m]; simpl; [reflexivity| |lia].
  apply binary_round_not_negative.
Qed.

Lemma SFsub_not_negative (A B : spec_float) :
  valid_binary A = true -> valid_binary B = true ->
  SFltb A B = true ->
  SFltb (SFsub prec emax B A) (S754_zero false) = false.
Proof.
  intros VA VB Hlt. unfold SFltb in Hlt.
  destruct A as [sa|sa| |sa ma ea], B as [sb|sb| |sb mb eb];
    simpl in Hlt; try discriminate;
    try (destruct sa; try discriminate);
    try (destruct sb; try discriminate); try reflexivity.
  - (* both negative *)
    simpl in VA, VB. unfold SFsub. apply binary_normalize_not_negative.
    change (IntDef.Z.min ?a ?b) with (Z.min a b).
    destruct (ea ?= eb) eqn:E; try discriminate.
    + apply Z.compare_eq in E. subst eb.
      rewrite Z.min_id, !shl_align_fst by lia.
      rewrite Z.sub_diag, Z.pow_0_r, !Z.mul_1_r.
      change (PosDef.Pos.compare_cont Eq ma mb) with (Pos.compare ma mb) in Hlt.
      destruct (Pos.compare_spec ma mb); simpl in Hlt; try discriminate.
      unfold cond_Zopp. lia.
    + apply Z.compare_gt_iff in E.
      rewrite !shl_align_fst by lia.
      pose proof (aligned_lt mb ma eb ea VB VA E) as H.
      rewrite Z.min_comm in H. unfold cond_Zopp. lia.
  - (* A negative, B positive *)
    unfold SFsub. apply binary_normalize_not_negative.
    unfold cond_Zopp. lia.
  - (* both positive *)
    simpl in VA, VB. unfold SFsub. apply binary_normalize_not_negative.
    change (IntDef.Z.min ?a ?b) with (Z.min a b).
    destruct (ea ?= eb) eqn:E; try discriminate.
    + apply Z.compare_eq in E. subst eb.
      rewrite Z.min_id, !shl_align_fst by lia.
      rewrite Z.sub_diag, Z.pow_0_r, !Z.mul_1_r.
      change (PosDef.Pos.compare_cont Eq ma mb) with (Pos.compare ma mb) in Hlt.
      destruct (Pos.compare_spec ma mb); simpl in Hlt; try discriminate.
      unfold cond_Zopp. lia.
    + apply Z.compare_lt_iff in E.
      rewrite !shl_align_fst by lia.
      pose proof (aligned_lt ma mb ea eb VA VB E) as H.
      unfold cond_Zopp. lia.
Qed.

Lemma sub_not_negative (a b : float) :
  (a <? b)%float = true -> (b - a <? 0)%float = false.
Proof.
  rewrite !FloatAxioms.ltb_spec, FloatAxioms.sub_spec. intros H.
  change (Prim2SF 0) with (S754_zero false).
  apply SFsub_not_negative; auto using Prim2SF_valid.
Qed.

End FloatOrder.

Ltac nan_absorb :=
  repeat first
    [ rewrite mul_nan_r | rewrite mul_nan_l | rewrite sub_nan_r
    | rewrite add_nan_r | rewrite add_nan_l | rewrite div_nan_r
    | rewrite div_nan_l | rewrite Math_max_nan_r
    | progress change (Math_abs nan) with nan ].

(** ** Consensus *)

Section Consensus.
Import StrategyManager Spec.

Lemma gt_half_spec (a b : nat) : gt_half a b = true <-> b < 2 * a.
Proof.
  unfold gt_half. rewrite negb_true_iff, <- not_true_iff_false, Qle_bool_iff.
  unfold Qle, Qdiv, Qmult, Qinv, inject_Z; simpl.
  rewrite !Z.mul_1_r. lia.
Qed.

Lemma tally_votes (signals : list StrategySignal) :
  forall (t : Tally) (a : Action),
    votes (fold_left castVote signals t) a = votes t a + votesFor a signals.
Proof.
  unfold votesFor, votersOf.
  induction signals as [|s signals IH]; intros t a; simpl.
  - lia.
  - rewrite IH. unfold castVote.
    destruct (action s), a; simpl; lia.
Qed.

Lemma tally_confidences (signals : list StrategySignal) :
  forall (t : Tally) (a : Action),
    confidences (fold_left castVote signals t) a
    = confidences t a ++ map confidence (votersOf a signals).
Proof.
  unfold votersOf.
  induction signals as [|s signals IH]; intros t a; simpl.
  - now rewrite app_nil_r.
  - rewrite IH. unfold castVote.
    destruct (action s), a; simpl; rewrite <- ?app_assoc; reflexivity.
Qed.

Lemma votes_total (signals : list StrategySignal) :
  votesFor buy signals + votesFor sell signals + votesFor hold signals
  = length signals.
Proof.
  unfold votesFor, votersOf.
  induction signals as [|s signals IH]; simpl; [reflexivity|].
  destruct (action s); simpl; lia.
Qed.

Lemma winningAction_max (t : Tally) (a : Action) :
  votes t a <= votes t (winningActionOf t).
Proof.
  unfold winningActionOf; simpl.
  destruct (Nat.ltb_spec (votes_sell t) (votes_buy t)); simpl;
    match goal with
    | |- context [?x <? ?y] => destruct (Nat.ltb_spec x y)
    end; destruct a; simpl; lia.
Qed.

Lemma tally_votes_empty (signals : list StrategySignal) (a : Action) :
  votes (fold_left castVote signals emptyTally) a = votesFor a signals.
Proof. rewrite tally_votes. destruct a; reflexivity. Qed.

Lemma tally_confidences_empty (signals : list StrategySignal) (a : Action) :
  confidences (fold_left castVote signals emptyTally) a
  = map confidence (votersOf a signals).
Proof. rewrite tally_confidences. destruct a; reflexivity. Qed.

Lemma winnerOf_max (signals : list StrategySignal) (a : Action) :
  votesFor a signals <= votesFor (winnerOf signals) signals.
Proof.
  unfold winnerOf. rewrite <- !tally_votes_empty. apply winningAction_max.
Qed.

(** With at least one signal, the answer is decided by the majority test on
    the winning action alone. *)
Lemma getConsensusSignal_cases (m : StrategyManager.t) (clock : Clock)
      (symbol : string) (marketData : list MarketDatum) :
  let signals := analyzeSymbol m clock symbol marketData in
  signals <> [] ->
  (length signals < 2 * votesFor (winnerOf signals) signals /\
   (getConsensusSignal m clock symbol marketData = inl TypeError \/
    exists s, getConsensusSignal m clock symbol marketData = inr (Some s)
              /\ action s = winnerOf signals
              /\ confidence s
                 = mean (map confidence (votersOf (winnerOf signals) signals))))
  \/
  (2 * votesFor (winnerOf signals) signals <= length signals /\
   getConsensusSignal m clock symbol marketData = inr None).
Proof.
  intros signals Hne. unfold getConsensusSignal. fold signals.
  destruct signals as [|s0 rest] eqn:Es; [congruence|]. rewrite <- Es in *.
  fold (winnerOf signals).
  rewrite tally_votes_empty, tally_confidences_empty.
  destruct (gt_half _ _) eqn:Hg.
  - apply gt_half_spec in Hg. left. split; [exact Hg|].
    destruct (latestOf marketData) as [latest|]; [right|left; reflexivity].
    eexists. split; [reflexivity|]. split; [reflexivity|]. simpl.
    unfold votesFor in Hg.
    destruct (map confidence (votersOf (winnerOf signals) signals)) eqn:Ec.
    + apply (f_equal (@length _)) in Ec. rewrite length_map in Ec.
      simpl in Ec. lia.
    + reflexivity.
  - right. split; [|reflexivity].
    apply not_true_iff_false in Hg. rewrite gt_half_spec in Hg. lia.
Qed.

(** C1. Whenever at least one active strategy produced a signal,
    [getConsensusSignal] returns a signal only if the action of that signal
    holds a strict majority of the votes (more than half of all signals), and
    then its confidence is the arithmetic mean of the confidences of exactly
    the signals that voted for that action; when no action holds a strict
    majority the answer is [null], in particular for one buy, one sell and
    one hold among three signals. *)
Theorem getConsensusSignal_strict_majority (m : StrategyManager.t)
        (clock : Clock) (symbol : string) (marketData : list MarketDatum) :
  analyzeSymbol m clock symbol marketData <> [] ->
  (forall s,
      getConsensusSignal m clock symbol marketData = inr (Some s) ->
      length (analyzeSymbol m clock symbol marketData)
      < 2 * votesFor (action s) (analyzeSymbol m clock symbol marketData)
      /\ confidence s
         = mean (map confidence
                     (votersOf (action s)
                               (analyzeSymbol m clock symbol marketData))))
  /\ ((forall a,
         2 * votesFor a (analyzeSymbol m clock symbol marketData)
         <= length (analyzeSymbol m clock symbol marketData)) ->
      getConsensusSignal m clock symbol marketData = inr None)
  /\ (votesFor buy (analyzeSymbol m clock symbol marketData) = 1 ->
      votesFor sell (analyzeSymbol m clock symbol marketData) = 1 ->
      votesFor hold (analyzeSymbol m clock symbol marketData) = 1 ->
      getConsensusSignal m clock symbol marketData = inr None).
Proof.
  intros Hne.
  pose proof (getConsensusSignal_cases m clock symbol marketData Hne) as Hc.
  simpl in Hc.
  set (signals := analyzeSymbol m clock symbol marketData) in *.
  assert (Hnone : (forall a, 2 * votesFor a signals <= length signals) ->
                  getConsensusSignal m clock symbol marketData = inr None).
  { intros Hall. destruct Hc as [[Hmaj _]|[_ Hn]]; [|exact Hn].
    specialize (Hall (winnerOf signals)). lia. }
  split; [|split].
  - intros s Hs.
    destruct Hc as [[Hmaj [Hthrow|(s' & Hs' & Ha & Hconf)]]|[_ Hn]];
      try congruence.
    assert (s' = s) by congruence. subst s'. rewrite Ha. auto.
  - exact Hnone.
  - intros Hb Hs Hh. apply Hnone. intros a.
    pose proof (votes_total signals). destruct a; lia.
Qed.

(** The three strategies of [splitManager] cast one buy, one sell and one
    hold: no consensus. *)
Lemma getConsensusSignal_strict_majority_witness :
  analyzeSymbol Fixtures.splitManager (Fixtures.clockAt 0 0) "X"
                (Fixtures.window 21) <> []
  /\ getConsensusSignal Fixtures.splitManager (Fixtures.clockAt 0 0) "X"
                        (Fixtures.window 21) = inr None.
Proof.
  split.
  - vm_compute. discriminate.
  - apply (getConsensusSignal_strict_majority
             Fixtures.splitManager (Fixtures.clockAt 0 0) "X"
             (Fixtures.window 21)).
    + vm_compute. discriminate.
    + vm_compute. reflexivity.
    + vm_compute. reflexivity.
    + vm_compute. reflexivity.
Defined.

End Consensus.

(** ** Indicators *)

Section RSI.
Import TechnicalAnalysisStrategy.

Lemma losses_nil_of_no_negative (cs : list float) :
  forallb (fun change => negb (PrimFloat.ltb change 0%float)) cs = true ->
  losses cs = [].
Proof.
  unfold losses. induction cs as [|c cs IH]; simpl; [reflexivity|].
  rewrite andb_true_iff, negb_true_iff. intros [Hc Hcs].
  rewrite Hc. auto.
Qed.

Lemma no_negative_of_increasing (closes : list JS.value) :
  Spec.strictlyIncreasing closes = true ->
  forallb (fun change => negb (PrimFloat.ltb change 0%float))
          (changes closes) = true.
Proof.
  unfold Spec.strictlyIncreasing, changes.
  induction (consecutive closes) as [|[prev cur] pcs IH]; simpl;
    [reflexivity|].
  rewrite !andb_true_iff. intros [Hlt Hrest]. split; [|now apply IH].
  now rewrite (sub_not_negative _ _ Hlt).
Qed.

Lemma changes_differences (data : list MarketDatum) :
  changes (map closeOrPrice data)
  = Spec.differences (map (fun d => toNumber (closeOrPrice d)) data).
Proof.
  unfold changes, consecutive.
  induction data as [|a data IH]; [reflexivity|].
  destruct data as [|b data]; [reflexivity|].
  cbn [map tl combine Spec.differences fst snd] in *.
  now rewrite IH.
Qed.

Lemma sum_of_gains (cs : list float) (total : float) :
  fold_left PrimFloat.add (gains cs) total
  = fold_left (fun total step =>
                 if PrimFloat.ltb 0%float step then (total + step)%float
                 else total) cs total.
Proof.
  unfold gains. revert total.
  induction cs as [|c cs IH]; intros total; [reflexivity|].
  cbn [List.filter fold_left].
  destruct (PrimFloat.ltb 0%float c); cbn [fold_left]; apply IH.
Qed.

Lemma sum_of_losses (cs : list float) (total : float) :
  fold_left PrimFloat.add (losses cs) total
  = fold_left (fun total step =>
                 if PrimFloat.ltb step 0%float
                 then (total + PrimFloat.abs step)%float
                 else total) cs total.
Proof.
  unfold losses. revert total.
  induction cs as [|c cs IH]; intros total; [reflexivity|].
  cbn [List.filter map fold_left].
  destruct (PrimFloat.ltb c 0%float); cbn [map fold_left]; apply IH.
Qed.

Lemma avgOver_gains (cs : list float) (period : nat) :
  avgOver (gains cs) period
  = if existsb (fun step => PrimFloat.ltb 0%float step) cs
    then (fold_left (fun total step =>
                       if PrimFloat.ltb 0%float step then (total + step)%float
                       else total) cs 0%float
          / lenF period)%float
    else 0%float.
Proof.
  rewrite <- sum_of_gains. unfold avgOver, JS.sum, gains.
  induction cs as [|c cs IH]; [reflexivity|].
  cbn [List.filter existsb].
  destruct (PrimFloat.ltb 0%float c); cbn [orb]; [reflexivity|exact IH].
Qed.

Lemma avgOver_losses (cs : list float) (period : nat) :
  avgOver (losses cs) period
  = if existsb (fun step => PrimFloat.ltb step 0%float) cs
    then (fold_left (fun total step =>
                       if PrimFloat.ltb step 0%float
                       then (total + PrimFloat.abs step)%float
                       else total) cs 0%float
          / lenF period)%float
    else 0%float.
Proof.
  rewrite <- sum_of_losses. unfold avgOver, JS.sum, losses.
  induction cs as [|c cs IH]; [reflexivity|].
  cbn [List.filter map existsb].
  destruct (PrimFloat.ltb c 0%float); cbn [orb map]; [reflexivity|exact IH].
Qed.

(** C7. [calculateRSI] answers 50 on fewer than [period + 1] samples;
    otherwise it answers 100 when the average loss is zero, which is the
    case when no change is negative, hence on every strictly increasing
    series, in particular on one of twenty values with period 14; otherwise
    it is [100 - 100 / (1 + avgGain / avgLoss)] where the summed gains and
    the summed losses are each divided by [period], not by how many of them
    there are.  The last two parts say so of the closes themselves: the
    rises and the falls of the series are summed apart and each sum is
    divided by [period]; on sixteen closes with ten rises and five falls of
    one and period 14 the answer is [100 - 100 / (1 + (10/14) / (5/14))],
    and not the 50 that a division by the counts would give. *)
Theorem calculateRSI_cases (data : list MarketDatum) (period : nat) :
  (length data < period + 1 -> calculateRSI data period = 50%float)
  /\ (period + 1 <= length data ->
      PrimFloat.eqb (avgOver (losses (changes (map closeOrPrice data))) period)
                    0%float = true ->
      calculateRSI data period = 100%float)
  /\ (period + 1 <= length data ->
      forallb (fun change => negb (PrimFloat.ltb change 0%float))
              (changes (map closeOrPrice data)) = true ->
      calculateRSI data period = 100%float)
  /\ (period + 1 <= length data ->
      Spec.strictlyIncreasing (map closeOrPrice data) = true ->
      calculateRSI data period = 100%float)
  /\ (length data = 20 ->
      Spec.strictlyIncreasing (map closeOrPrice data) = true ->
      calculateRSI data 14 = 100%float)
  /\ (length Fixtures.risingWindow = 20
      /\ calculateRSI Fixtures.risingWindow 14 = 100%float)
  /\ (period + 1 <= length data ->
      gains (changes (map closeOrPrice data)) <> [] ->
      losses (changes (map closeOrPrice data)) <> [] ->
      PrimFloat.eqb
        (JS.sum (losses (changes (map closeOrPrice data))) / lenF period)
        0%float = false ->
      calculateRSI data period
      = (100 - 100 /
           (1 + (JS.sum (gains (changes (map closeOrPrice data))) / lenF period)
                / (JS.sum (losses (changes (map closeOrPrice data)))
                   / lenF period)))%float)
  /\ (period + 1 <= length data ->
      calculateRSI data period
      = let closes := map (fun d => toNumber (closeOrPrice d)) data in
        let avgGain :=
          if Spec.rises closes
          then (Spec.summedGains closes / lenF period)%float
          else 0%float in
        let avgLoss :=
          if Spec.falls closes
          then (Spec.summedLosses closes / lenF period)%float
          else 0%float in
        if PrimFloat.eqb avgLoss 0%float then 100%float
        else (100 - 100 / (1 + avgGain / avgLoss))%float)
  /\ (length Fixtures.zigzagWindow = 16
      /\ Spec.summedGains Fixtures.zigzagCloses = 10%float
      /\ Spec.summedLosses Fixtures.zigzagCloses = 5%float
      /\ calculateRSI Fixtures.zigzagWindow 14
         = (100 - 100 / (1 + (10 / 14) / (5 / 14)))%float
      /\ PrimFloat.eqb (calculateRSI Fixtures.zigzagWindow 14)
                       (100 - 100 / (1 + (10 / 10) / (5 / 5)))%float
         = false).
Proof.
  assert (Hno : forall p, p + 1 <= length data ->
                forallb (fun change => negb (PrimFloat.ltb change 0%float))
                        (changes (map closeOrPrice data)) = true ->
                calculateRSI data p = 100%float).
  { intros p H Hn. unfold calculateRSI. apply Nat.ltb_ge in H. rewrite H.
    now rewrite (losses_nil_of_no_negative _ Hn). }
  split; [|split; [|split; [|split; [|split; [|split; [|split; [|split]]]]]]].
  - unfold calculateRSI. intros H. apply Nat.ltb_lt in H. now rewrite H.
  - unfold calculateRSI. intros H Hz. apply Nat.ltb_ge in H. now rewrite H, Hz.
  - apply Hno.
  - intros H Hi. apply Hno; [exact H|]. now apply no_negative_of_increasing.
  - intros H Hi. apply Hno; [lia|]. now apply no_negative_of_increasing.
  - split; vm_compute; reflexivity.
  - unfold calculateRSI. intros H Hg Hl Hz. apply Nat.ltb_ge in H. rewrite H.
    destruct (gains _) eqn:Eg; [congruence|].
    destruct (losses _) eqn:El; [congruence|].
    unfold avgOver. now rewrite Hz.
  - intros H. unfold calculateRSI. apply Nat.ltb_ge in H. rewrite H.
    rewrite avgOver_gains, avgOver_losses, changes_differences.
    reflexivity.
  - repeat split; vm_compute; reflexivity.
Qed.

(** Sixteen closes with ten rises and five falls: the general case. *)
Lemma calculateRSI_cases_witness :
  14 + 1 <= length Fixtures.zigzagWindow
  /\ calculateRSI Fixtures.zigzagWindow 14
     = (100 - 100 / (1 + (10 / 14) / (5 / 14)))%float.
Proof.
  assert (H : 14 + 1 <= length Fixtures.zigzagWindow) by (vm_compute; lia).
  split; [exact H|].
  destruct (calculateRSI_cases Fixtures.zigzagWindow 14)
    as (_ & _ & _ & _ & _ & _ & _ & Hgeneral & _).
  rewrite (Hgeneral H). vm_compute. reflexivity.
Defined.

End RSI.

(** ** Strategy-level backtests *)

(** C9. [ArbitrageStrategy.backtest] ignores its argument: on every series,
    the empty one included, it returns the same fixed figures. *)
Theorem ArbitrageStrategy_backtest_constant :
  forall historicalData : list MarketDatum,
    ArbitrageStrategy.backtest historicalData
    = {| totalTrades := 50;
         winningTrades := 50;
         losingTrades := 0;
         winRate := 100%float;
         totalReturn := 15%float;
         maxDrawdown := 0.1%float;
         sharpeRatio := 25%float;
         profitFactor := infinity;
         averageWin := 300%float;
         averageLoss := 0%float |}
    /\ ArbitrageStrategy.backtest historicalData = ArbitrageStrategy.backtest [].
Proof. intros historicalData. split; reflexivity. Qed.

(** ** Summary and risk metrics *)

Section MetricsFacts.
Import Backtesting.


Lemma runBacktest_summary (engine : BacktestingEngine)
      (strategyManager : StrategyManager.t) (clock : nat -> Clock)
      (c : BacktestConfig) (r : BacktestResult) :
  runBacktest engine strategyManager clock c = inr r ->
  exists finalCapital maxDD,
    summary r = calculateSummary (trades r) (initialCapital c) finalCapital maxDD
    /\ metrics r = calculateAdvancedMetrics (trades r) (summary r).
Proof.
  unfold runBacktest.
  destruct (historicalData engine !! symbol c) as [series|]; [|discriminate].
  destruct (length _ <? 50); [discriminate|].
  intros H. injection H as <-. simpl. eauto.
Qed.

(** C10. The summary guards [winRate] for an empty trade list (it is 0) but
    not the Sharpe ratio: with no trade the mean return is 0/0, and the
    summary's [sharpeRatio] is [NaN]; so it is for every backtest run that
    records no trade. *)
Theorem calculateSummary_sharpe_nan_without_trades :
  (forall initialCapital finalCapital maxDrawdown : float,
      winRate (calculateSummary [] initialCapital finalCapital maxDrawdown)
      = 0%float
      /\ PrimFloat.is_nan
           (sharpeRatio
              (calculateSummary [] initialCapital finalCapital maxDrawdown))
         = true)
  /\ (forall (engine : BacktestingEngine) (strategyManager : StrategyManager.t)
             (clock : nat -> Clock) (c : BacktestConfig) (r : BacktestResult),
         runBacktest engine strategyManager clock c = inr r ->
         trades r = [] ->
         winRate (summary r) = 0%float
         /\ PrimFloat.is_nan (sharpeRatio (summary r)) = true).
Proof.
  assert (H0 : forall i f m : float,
             winRate (calculateSummary [] i f m) = 0%float
             /\ PrimFloat.is_nan (sharpeRatio (calculateSummary [] i f m))
                = true).
  { intros i f m. split; [reflexivity|]. vm_compute. reflexivity. }
  split; [exact H0|].
  intros engine strategyManager clock c r Hr Ht.
  destruct (runBacktest_summary _ _ _ _ _ Hr) as (fc & md & Hs & _).
  rewrite Hs, Ht. apply H0.
Qed.

(** With only the machine-learning strategy active and its service down,
    every bar is a hold: the run over 50 bars records no trade. *)
Lemma calculateSummary_sharpe_nan_without_trades_witness :
  exists r,
    runBacktest Fixtures.engine Fixtures.mlOnly (Fixtures.clockAt 0)
                (Fixtures.configFor 50) = inr r
    /\ trades r = []
    /\ winRate (summary r) = 0%float
    /\ PrimFloat.is_nan (sharpeRatio (summary r)) = true.
Proof.
  destruct (runBacktest Fixtures.engine Fixtures.mlOnly (Fixtures.clockAt 0)
                        (Fixtures.configFor 50)) as [e|r] eqn:Hr;
    [vm_compute in Hr; discriminate|].
  exists r. split; [reflexivity|].
  assert (Ht : trades r = []).
  { vm_compute in Hr. injection Hr as <-. reflexivity. }
  split; [exact Ht|].
  exact (proj2 calculateSummary_sharpe_nan_without_trades
               Fixtures.engine Fixtures.mlOnly (Fixtures.clockAt 0)
               (Fixtures.configFor 50) r Hr Ht).
Defined.

End MetricsFacts.

(** ** The simulation loop *)

Section Simulation.
Import Backtesting.

Lemma latestOf_nonempty {A} (xs : list A) :
  xs <> [] -> exists x, latestOf xs = Some x.
Proof.
  intros Hne. unfold latestOf.
  destruct (nth_error xs (length xs - 1)) as [x|] eqn:E; [eauto|].
  apply nth_error_None in E. destruct xs; [congruence|]. simpl in E. lia.
Qed.

(** On a non-empty window the consensus never raises. *)
Lemma getConsensusSignal_returns (m : StrategyManager.t) (clock : Clock)
      (symbol : string) (marketData : list MarketDatum) :
  marketData <> [] ->
  exists o, StrategyManager.getConsensusSignal m clock symbol marketData = inr o.
Proof.
  intros Hne. unfold StrategyManager.getConsensusSignal.
  destruct (StrategyManager.analyzeSymbol m clock symbol marketData);
    [eauto|].
  destruct (gt_half _ _); [|eauto].
  destruct (latestOf_nonempty marketData Hne) as [x ->]. eauto.
Qed.

Lemma window_nonempty (filteredData : list HistoricalData) (i : nat) :
  i < length filteredData ->
  map asMarketDatum (firstn (i + 1) filteredData) <> [].
Proof.
  intros Hi E. apply (f_equal (@length _)) in E.
  rewrite length_map, length_firstn in E. simpl in E. lia.
Qed.

Variable strategyManager : StrategyManager.t.
Variable clock : nat -> Clock.
Variable c : BacktestConfig.
Variable filteredData : list HistoricalData.

(** One pass of the loop over a bar that has a successor appends exactly one
    equity point, stamped with that bar's time, trade or no trade. *)
Lemma processBar_appends_one (st : LoopState) (i : nat) :
  i + 1 < length filteredData ->
  exists bar p,
    nth_error filteredData i = Some bar
    /\ point_timestamp p = timestamp bar
    /\ st_equityCurve (processBar strategyManager clock c filteredData st i)
       = st_equityCurve st ++ [p].
Proof.
  intros Hi. unfold processBar.
  destruct (nth_error filteredData i) as [bar|] eqn:Eb;
    [|apply nth_error_None in Eb; lia].
  destruct (nth_error filteredData (i + 1)) as [next|] eqn:En;
    [|apply nth_error_None in En; lia].
  destruct (getConsensusSignal_returns strategyManager (clock i) (symbol c)
              (map asMarketDatum (firstn (i + 1) filteredData)))
    as [o ->]; [apply window_nonempty; lia|].
  exists bar.
  destruct o as [cs|]; [destruct (Action_eqb _ hold)|];
    eexists; (split; [reflexivity|]); (split; [|reflexivity]); reflexivity.
Qed.

Lemma fold_processBar_curve (idxs : list nat) :
  (forall i, In i idxs -> i + 1 < length filteredData) ->
  forall st,
    map Some (map point_timestamp
                  (st_equityCurve
                     (fold_left (processBar strategyManager clock c filteredData)
                                idxs st)))
    = map Some (map point_timestamp (st_equityCurve st))
      ++ map (fun i => option_map timestamp (nth_error filteredData i)) idxs.
Proof.
  induction idxs as [|i idxs IH]; intros Hin st; simpl.
  - now rewrite app_nil_r.
  - rewrite IH by (intros j Hj; apply Hin; now right).
    destruct (processBar_appends_one st i) as (bar & p & Hb & Hp & ->);
      [apply Hin; now left|].
    rewrite !map_app, <- app_assoc. simpl. now rewrite Hb, Hp.
Qed.

Lemma iteratedBars_in_range (i : nat) :
  In i (iteratedBars filteredData) ->
  20 <= i /\ i + 1 < length filteredData.
Proof. unfold iteratedBars. rewrite in_seq. lia. Qed.

Lemma simulate_curve :
  map Some (map point_timestamp
                (st_equityCurve
                   (simulate strategyManager clock c filteredData)))
  = map (fun i => option_map timestamp (nth_error filteredData i))
        (iteratedBars filteredData).
Proof.
  unfold simulate. rewrite fold_processBar_curve.
  - reflexivity.
  - intros i Hi. now apply iteratedBars_in_range.
Qed.

End Simulation.

Section RunBacktestFacts.
Import Backtesting.

Lemma runBacktest_unfold (engine : BacktestingEngine)
      (strategyManager : StrategyManager.t) (clock : nat -> Clock)
      (c : BacktestConfig) (series : list HistoricalData) :
  historicalData engine !! symbol c = Some series ->
  (length (filter (inRange c) series) < 50 ->
   runBacktest engine strategyManager clock c = inl insufficientData)
  /\ (50 <= length (filter (inRange c) series) ->
      exists r,
        runBacktest engine strategyManager clock c = inr r
        /\ trades r
           = st_trades (simulate strategyManager clock c
                                 (filter (inRange c) series))
        /\ equity_curve r
           = st_equityCurve (simulate strategyManager clock c
                                      (filter (inRange c) series))
        /\ maxDrawdown (summary r)
           = st_maxDrawdown (simulate strategyManager clock c
                                      (filter (inRange c) series))
        /\ config r = c).
Proof.
  intros Hs. unfold runBacktest. rewrite Hs. split; intros Hlen.
  - apply Nat.ltb_lt in Hlen. now rewrite Hlen.
  - apply Nat.ltb_ge in Hlen. rewrite Hlen. eexists.
    split; [reflexivity|]. simpl. auto.
Qed.

(** C2. For a symbol that has a series, [runBacktest] raises the
    insufficient-data error exactly when fewer than 50 bars fall inside
    [startDate, endDate]; with 50 bars or more it raises nothing and returns
    a result. *)
Theorem runBacktest_insufficient_data (engine : BacktestingEngine)
        (strategyManager : StrategyManager.t) (clock : nat -> Clock)
        (c : BacktestConfig) (series : list HistoricalData) :
  historicalData engine !! symbol c = Some series ->
  (runBacktest engine strategyManager clock c = inl insufficientData
   <-> length (filter (inRange c) series) < 50)
  /\ (50 <= length (filter (inRange c) series) ->
      exists r, runBacktest engine strategyManager clock c = inr r).
Proof.
  intros Hs.
  destruct (runBacktest_unfold engine strategyManager clock c series Hs)
    as [Hlt Hge].
  split; [split|].
  - intros Herr.
    destruct (Nat.lt_ge_cases (length (filter (inRange c) series)) 50)
      as [H|H]; [exact H|].
    destruct (Hge H) as (r & Hr & _). congruence.
  - exact Hlt.
  - intros H. destruct (Hge H) as (r & Hr & _). eauto.
Qed.

(** A date range that holds ten of the sixty bars of X. *)
Lemma runBacktest_insufficient_data_witness :
  historicalData Fixtures.engine !! symbol (Fixtures.configFor 10)
  = Some (Fixtures.fallingSeries 60)
  /\ length (filter (inRange (Fixtures.configFor 10))
                    (Fixtures.fallingSeries 60)) = 10
  /\ runBacktest Fixtures.engine Fixtures.defaultManager (Fixtures.clockAt 0)
                 (Fixtures.configFor 10) = inl insufficientData.
Proof.
  split; [vm_compute; reflexivity|].
  split; [vm_compute; reflexivity|].
  apply (runBacktest_insufficient_data
           Fixtures.engine Fixtures.defaultManager (Fixtures.clockAt 0)
           (Fixtures.configFor 10) (Fixtures.fallingSeries 60)).
  - vm_compute. reflexivity.
  - vm_compute. lia.
Defined.

(** C3, as the code has it. A run that returns has appended exactly one
    equity point for each iterated bar, trade or no trade, stamped with that
    bar's time; the iterated bars are those of index 20 to [length - 2], so
    the curve has as many points as there are bars in range less the 20 bars
    of warm-up and less the last bar, which only serves as an exit. *)
Theorem equity_curve_one_point_per_iterated_bar (engine : BacktestingEngine)
        (strategyManager : StrategyManager.t) (clock : nat -> Clock)
        (c : BacktestConfig) (series : list HistoricalData)
        (r : BacktestResult) :
  historicalData engine !! symbol c = Some series ->
  runBacktest engine strategyManager clock c = inr r ->
  map Some (map point_timestamp (equity_curve r))
  = map (fun i => option_map timestamp
                    (nth_error (filter (inRange c) series) i))
        (iteratedBars (filter (inRange c) series))
  /\ length (equity_curve r) = length (iteratedBars (filter (inRange c) series))
  /\ length (equity_curve r) + 20 + 1 = length (filter (inRange c) series).
Proof.
  intros Hs Hr.
  destruct (runBacktest_unfold engine strategyManager clock c series Hs)
    as [Hlt Hge].
  destruct (Nat.lt_ge_cases (length (filter (inRange c) series)) 50)
    as [H|H]; [rewrite (Hlt H) in Hr; discriminate|].
  destruct (Hge H) as (r' & Hr' & _ & Hcurve & _).
  assert (r' = r) by congruence. subst r'.
  pose proof (simulate_curve strategyManager clock c
                             (filter (inRange c) series)) as Hc.
  rewrite <- Hcurve in Hc.
  assert (Hlen : length (equity_curve r)
                 = length (iteratedBars (filter (inRange c) series))).
  { apply (f_equal (@length _)) in Hc. now rewrite !length_map in Hc. }
  split; [exact Hc|]. split; [exact Hlen|].
  rewrite Hlen. unfold iteratedBars. rewrite length_seq. lia.
Qed.

Lemma equity_curve_one_point_per_iterated_bar_witness :
  exists r,
    runBacktest Fixtures.engine Fixtures.defaultManager (Fixtures.clockAt 0)
                (Fixtures.configFor 50) = inr r
    /\ length (equity_curve r) + 20 + 1
       = length (filter (inRange (Fixtures.configFor 50))
                        (Fixtures.fallingSeries 60)).
Proof.
  destruct (runBacktest Fixtures.engine Fixtures.defaultManager
                        (Fixtures.clockAt 0) (Fixtures.configFor 50))
    as [e|r] eqn:Hr; [vm_compute in Hr; discriminate|].
  exists r. split; [reflexivity|].
  apply (equity_curve_one_point_per_iterated_bar
           Fixtures.engine Fixtures.defaultManager (Fixtures.clockAt 0)
           (Fixtures.configFor 50) (Fixtures.fallingSeries 60) r).
  - vm_compute. reflexivity.
  - exact Hr.
Defined.

(** C3, as stated, fails: over 50 bars in range the curve has 29 points,
    not the 50 bars less the 20 of warm-up. *)
Lemma equity_curve_length_counterexample :
  exists r,
    runBacktest Fixtures.engine Fixtures.defaultManager (Fixtures.clockAt 0)
                (Fixtures.configFor 50) = inr r
    /\ length (filter (inRange (Fixtures.configFor 50))
                      (Fixtures.fallingSeries 60)) = 50
    /\ length (equity_curve r) = 29
    /\ length (equity_curve r)
       <> length (filter (inRange (Fixtures.configFor 50))
                         (Fixtures.fallingSeries 60)) - 20.
Proof.
  destruct (runBacktest Fixtures.engine Fixtures.defaultManager
                        (Fixtures.clockAt 0) (Fixtures.configFor 50))
    as [e|r] eqn:Hr; [vm_compute in Hr; discriminate|].
  exists r. split; [reflexivity|].
  assert (Hl : length (equity_curve r) = 29).
  { vm_compute in Hr. injection Hr as <-. reflexivity. }
  assert (Hf : length (filter (inRange (Fixtures.configFor 50))
                              (Fixtures.fallingSeries 60)) = 50)
    by (vm_compute; reflexivity).
  rewrite Hl, Hf. repeat split; lia.
Qed.

End RunBacktestFacts.

(** ** Determinism of a run *)

Section Determinism.
Import Backtesting Spec.

Lemma castVote_eraseTimestamp (t : StrategyManager.Tally) (s : StrategySignal) :
  StrategyManager.castVote t (eraseTimestamp s) = StrategyManager.castVote t s.
Proof. reflexivity. Qed.

Lemma tally_erased (l1 l2 : list StrategySignal) :
  map eraseTimestamp l1 = map eraseTimestamp l2 ->
  forall t, fold_left StrategyManager.castVote l1 t
            = fold_left StrategyManager.castVote l2 t.
Proof.
  revert l2. induction l1 as [|s1 l1 IH]; intros [|s2 l2] E t;
    cbn [map fold_left] in *; try discriminate; [reflexivity|].
  assert (Es : eraseTimestamp s1 = eraseTimestamp s2) by congruence.
  assert (El : map eraseTimestamp l1 = map eraseTimestamp l2) by congruence.
  rewrite <- (castVote_eraseTimestamp t s1), Es, castVote_eraseTimestamp.
  now apply IH.
Qed.

Lemma analyzeSymbol_deterministic (m : StrategyManager.t) :
  deterministic m ->
  forall (c1 c2 : Clock) (symbol : string) (marketData : list MarketDatum),
    map eraseTimestamp (StrategyManager.analyzeSymbol m c1 symbol marketData)
    = map eraseTimestamp (StrategyManager.analyzeSymbol m c2 symbol marketData).
Proof.
  intros Hdet c1 c2 symbol marketData.
  unfold StrategyManager.analyzeSymbol, deterministic in *.
  induction (StrategyManager.strategies m) as [|[name strategy] rest IH];
    [reflexivity|].
  simpl. rewrite !map_app. f_equal.
  - destruct (bool_decide (name ∈ StrategyManager.activeStrategies m)) eqn:Ha;
      [|reflexivity].
    apply bool_decide_eq_true in Ha.
    specialize (Hdet name strategy (or_introl eq_refl) Ha c1 c2 marketData).
    destruct (analyze strategy c1 marketData), (analyze strategy c2 marketData);
      simpl in *; congruence.
  - apply IH. intros n s Hin. apply Hdet. now right.
Qed.

Lemma getConsensusSignal_deterministic (m : StrategyManager.t) :
  deterministic m ->
  forall (c1 c2 : Clock) (symbol : string) (marketData : list MarketDatum),
    eraseAnswer (StrategyManager.getConsensusSignal m c1 symbol marketData)
    = eraseAnswer (StrategyManager.getConsensusSignal m c2 symbol marketData).
Proof.
  intros Hdet c1 c2 symbol marketData.
  pose proof (analyzeSymbol_deterministic m Hdet c1 c2 symbol marketData) as E.
  unfold StrategyManager.getConsensusSignal.
  set (l1 := StrategyManager.analyzeSymbol m c1 symbol marketData) in *.
  set (l2 := StrategyManager.analyzeSymbol m c2 symbol marketData) in *.
  assert (Hlen : length l1 = length l2).
  { apply (f_equal (@length _)) in E. now rewrite !length_map in E. }
  rewrite (tally_erased l1 l2 E), Hlen.
  destruct l1 as [|a1 l1], l2 as [|a2 l2]; try discriminate; [reflexivity|].
  destruct (gt_half _ _); [|reflexivity].
  destruct (latestOf marketData); reflexivity.
Qed.

Lemma eraseTimestamp_fields (s1 s2 : StrategySignal) :
  eraseTimestamp s1 = eraseTimestamp s2 ->
  action s1 = action s2
  /\ Strategies.entryPrice s1 = Strategies.entryPrice s2
  /\ Strategies.reason s1 = Strategies.reason s2.
Proof.
  intros E.
  split; [exact (f_equal action E)|].
  split; [exact (f_equal Strategies.entryPrice E)
         |exact (f_equal Strategies.reason E)].
Qed.

Lemma recordEquity_agree (bar : HistoricalData) (s1 s2 : LoopState) :
  agree s1 s2 -> agree (recordEquity bar s1) (recordEquity bar s2).
Proof.
  unfold agree, recordEquity. simpl.
  intros (-> & -> & -> & -> & -> & ->). auto 10.
Qed.

Lemma executeTrade_agree (c : BacktestConfig) (n1 n2 : Clock) (i : nat)
      (cs1 cs2 : StrategySignal) (bar next : HistoricalData)
      (s1 s2 : LoopState) :
  eraseTimestamp cs1 = eraseTimestamp cs2 ->
  agree s1 s2 ->
  agree (executeTrade c n1 i cs1 bar next s1)
        (executeTrade c n2 i cs2 bar next s2).
Proof.
  intros E (Hc & Hm & Hd & Hcd & Ht & He).
  destruct (eraseTimestamp_fields _ _ E) as (Ha & Hp & Hr).
  unfold agree, executeTrade, calculatePositionSize. simpl.
  rewrite !map_app, Hc, Hm, Hd, Ht, He, Ha, Hp, Hr. simpl.
  auto 10.
Qed.

Variable strategyManager : StrategyManager.t.
Hypothesis Hdet : deterministic strategyManager.
Variables clock1 clock2 : nat -> Clock.
Variable c : BacktestConfig.
Variable filteredData : list HistoricalData.

Lemma processBar_agree (s1 s2 : LoopState) (i : nat) :
  agree s1 s2 ->
  agree (processBar strategyManager clock1 c filteredData s1 i)
        (processBar strategyManager clock2 c filteredData s2 i).
Proof using Hdet.
  intros Hs. unfold processBar.
  destruct (nth_error filteredData i) as [bar|]; [|exact Hs].
  pose proof (getConsensusSignal_deterministic
                strategyManager Hdet (clock1 i) (clock2 i) (symbol c)
                (map asMarketDatum (firstn (i + 1) filteredData))) as E.
  destruct (StrategyManager.getConsensusSignal strategyManager (clock1 i) _ _)
    as [e1|[cs1|]],
    (StrategyManager.getConsensusSignal strategyManager (clock2 i) _ _)
    as [e2|[cs2|]]; cbn [eraseAnswer option_map] in E;
    try discriminate; try exact Hs.
  - assert (E' : eraseTimestamp cs1 = eraseTimestamp cs2) by congruence.
    rewrite (proj1 (eraseTimestamp_fields _ _ E')).
    destruct (Action_eqb (action cs2) hold);
      [now apply recordEquity_agree|].
    destruct (nth_error filteredData (i + 1)) as [next|]; [|exact Hs].
    now apply recordEquity_agree, executeTrade_agree.
  - now apply recordEquity_agree.
Qed.

Lemma simulate_agree :
  agree (simulate strategyManager clock1 c filteredData)
        (simulate strategyManager clock2 c filteredData).
Proof using Hdet.
  unfold simulate.
  assert (H0 : agree (initialState c) (initialState c))
    by (unfold agree; auto 10).
  revert H0. generalize (initialState c) at 1 3 as s1.
  generalize (initialState c) as s2.
  induction (iteratedBars filteredData) as [|i idxs IH]; intros s2 s1 Hs;
    simpl; [exact Hs|].
  apply IH. now apply processBar_agree.
Qed.

End Determinism.

Section DeterminismOfRuns.
Import Backtesting Spec.

Lemma filterTrades_eraseId (p : float -> bool) (ts : list BacktestTrade) :
  filterTrades p (map eraseId ts) = map eraseId (filterTrades p ts).
Proof.
  unfold filterTrades. induction ts as [|t ts IH]; simpl; [reflexivity|].
  destruct (p (profitLoss t)); simpl; now rewrite IH.
Qed.

(** The summary and the risk metrics do not read the ids. *)
Lemma calculateSummary_eraseId (ts : list BacktestTrade) (i f m : float) :
  calculateSummary (map eraseId ts) i f m = calculateSummary ts i f m.
Proof.
  unfold calculateSummary.
  rewrite !filterTrades_eraseId, !map_map, !length_map. reflexivity.
Qed.

Lemma calculateAdvancedMetrics_eraseId (ts : list BacktestTrade) (s : Summary) :
  calculateAdvancedMetrics (map eraseId ts) s = calculateAdvancedMetrics ts s.
Proof.
  unfold calculateAdvancedMetrics, negativeReturnsOf.
  rewrite !map_map. reflexivity.
Qed.

(** C8, as the code has it. Two runs of [runBacktest] on the same engine,
    request and deterministic strategy set, made at different times, fail
    alike or return the same summary, equity curve, metrics and trades, the
    trade ids apart (an id embeds [Date.now()]). *)
Theorem runBacktest_deterministic_but_for_ids
        (strategyManager : StrategyManager.t) (clock1 clock2 : nat -> Clock)
        (c : BacktestConfig) (engine : BacktestingEngine) :
  deterministic strategyManager ->
  match runBacktest engine strategyManager clock1 c,
        runBacktest engine strategyManager clock2 c with
  | inr r1, inr r2 => sameButTradeIds r1 r2
  | inl e1, inl e2 => e1 = e2
  | _, _ => False
  end.
Proof.
  intros Hdet. unfold runBacktest.
  destruct (historicalData engine !! symbol c) as [series|]; [|reflexivity].
  destruct (length _ <? 50); [reflexivity|].
  destruct (simulate_agree strategyManager Hdet clock1 clock2 c
                           (filter (inRange c) series))
    as (Hc & Hm & Hd & Hcd & Ht & He).
  unfold sameButTradeIds. simpl.
  assert (Hsum :
    calculateSummary
      (st_trades (simulate strategyManager clock1 c (filter (inRange c) series)))
      (initialCapital c)
      (st_capital (simulate strategyManager clock1 c (filter (inRange c) series)))
      (st_maxDrawdown
         (simulate strategyManager clock1 c (filter (inRange c) series)))
    = calculateSummary
      (st_trades (simulate strategyManager clock2 c (filter (inRange c) series)))
      (initialCapital c)
      (st_capital (simulate strategyManager clock2 c (filter (inRange c) series)))
      (st_maxDrawdown
         (simulate strategyManager clock2 c (filter (inRange c) series)))).
  { rewrite <- calculateSummary_eraseId, Ht, calculateSummary_eraseId.
    now rewrite Hc, Hd. }
  split; [exact Hsum|]. split; [exact Ht|]. split; [exact He|].
  split; [|reflexivity].
  rewrite Hsum.
  now rewrite <- calculateAdvancedMetrics_eraseId, Ht,
    calculateAdvancedMetrics_eraseId.
Qed.


(** The technical-analysis strategy reads the clock only to stamp its
    signal. *)
Lemma TechnicalAnalysis_analyze_deterministic
      (toFixed : float -> nat -> string) (parameters : StrategyParameters)
      (c1 c2 : Clock) (marketData : list MarketDatum) :
  option_map eraseTimestamp
             (TechnicalAnalysisStrategy.analyze toFixed parameters c1 marketData)
  = option_map eraseTimestamp
               (TechnicalAnalysisStrategy.analyze toFixed parameters c2 marketData).
Proof.
  unfold TechnicalAnalysisStrategy.analyze.
  destruct (latestOf marketData); [|reflexivity].
  destruct (2 <=? _); [reflexivity|].
  destruct (2 <=? _); reflexivity.
Qed.

Lemma technicalOnly_deterministic : deterministic Fixtures.technicalOnly.
Proof.
  intros name strategy Hin Hact c1 c2 marketData.
  assert (Hb : bool_decide
                 (name ∈ StrategyManager.activeStrategies
                           Fixtures.technicalOnly) = true)
    by (apply bool_decide_eq_true_2; exact Hact).
  simpl in Hin. destruct Hin as [E|[E|[E|[]]]]; injection E as <- <-.
  - apply TechnicalAnalysis_analyze_deterministic.
  - vm_compute in Hb. discriminate.
  - vm_compute in Hb. discriminate.
Qed.

Lemma runBacktest_deterministic_but_for_ids_witness :
  match runBacktest Fixtures.engine Fixtures.technicalOnly
                    (Fixtures.clockAt 1) (Fixtures.configFor 50),
        runBacktest Fixtures.engine Fixtures.technicalOnly
                    (Fixtures.clockAt 2) (Fixtures.configFor 50) with
  | inr r1, inr r2 => sameButTradeIds r1 r2
  | inl e1, inl e2 => e1 = e2
  | _, _ => False
  end.
Proof.
  apply (runBacktest_deterministic_but_for_ids
           Fixtures.technicalOnly (Fixtures.clockAt 1) (Fixtures.clockAt 2)
           (Fixtures.configFor 50) Fixtures.engine).
  exact technicalOnly_deterministic.
Defined.

(** C8, as stated, fails: the same request on the same deterministic
    strategy set, run when the clock reads 1 and again when it reads 2,
    gives two results that differ (in the id of the first trade already). *)
Lemma runBacktest_ids_differ_counterexample :
  deterministic Fixtures.technicalOnly
  /\ runBacktest Fixtures.engine Fixtures.technicalOnly
                 (Fixtures.clockAt 1) (Fixtures.configFor 50)
     <> runBacktest Fixtures.engine Fixtures.technicalOnly
                    (Fixtures.clockAt 2) (Fixtures.configFor 50).
Proof.
  split; [exact technicalOnly_deterministic|].
  intros E.
  apply (f_equal (fun a : exn + BacktestResult =>
                    match a with
                    | inr r => option_map id (hd_error (trades r))
                    | inl _ => None
                    end)) in E.
  vm_compute in E. discriminate.
Qed.

End DeterminismOfRuns.

(** ** The optimizer *)

Section Optimizer.
Import Backtesting Spec.

(** The combinations are the Cartesian product of the candidate lists, in
    the order where the first key varies slowest. *)
Lemma generateParameterCombinations_cartesian
      (ranges : list (string * list any)) :
  generateParameterCombinations ranges = cartesian ranges.
Proof.
  induction ranges as [|[k vs] rest IH]; simpl; [reflexivity|].
  rewrite IH. generalize (cartesian rest) as tails. intros tails.
  induction vs as [|v vs IHv]; simpl; [reflexivity|].
  now rewrite map_app, map_map, IHv.
Qed.

(** A combination assigns to each key, in order, one of its candidates;
    every such assignment is among the combinations. *)
Lemma generateParameterCombinations_complete
      (ranges : list (string * list any)) (combination : object) :
  In combination (generateParameterCombinations ranges)
  <-> Forall2 (fun (kv : string * any) (r : string * list any) =>
                 fst kv = fst r /\ In (snd kv) (snd r))
              combination ranges.
Proof.
  revert combination.
  induction ranges as [|[k vs] rest IH]; intros combination; simpl.
  - split.
    + intros [<-|[]]. constructor.
    + intros H. inversion H. now left.
  - rewrite in_flat_map. split.
    + intros (v & Hv & Hin). apply in_map_iff in Hin.
      destruct Hin as (tail & <- & Htail).
      constructor; [simpl; auto|]. now apply IH.
    + intros H. inversion H as [|[k' v] r comb' rest' [Hk Hv] Hrest]; subst.
      simpl in *. subst k'. exists v. split; [exact Hv|].
      apply in_map. now apply IH.
Qed.

Lemma generateParameterCombinations_length
      (ranges : list (string * list any)) :
  length (generateParameterCombinations ranges)
  = fold_right (fun r n => length (snd r) * n) 1 ranges.
Proof.
  induction ranges as [|[k vs] rest IH]; simpl; [reflexivity|].
  rewrite <- IH. generalize (generateParameterCombinations rest) as tails.
  intros tails. induction vs as [|v vs IHv]; simpl; [reflexivity|].
  rewrite length_app, length_map. f_equal. exact IHv.
Qed.

Lemma NoDup_map_cons {A} (a : A) (ls : list (list A)) :
  List.NoDup ls -> List.NoDup (map (cons a) ls).
Proof.
  induction 1 as [|l ls Hnotin _ IH]; simpl; constructor; [|exact IH].
  intros Hin. apply in_map_iff in Hin. destruct Hin as (l' & E & Hl').
  injection E as ->. contradiction.
Qed.

(** When no candidate is listed twice, no combination is visited twice. *)
Lemma generateParameterCombinations_NoDup
      (ranges : list (string * list any)) :
  Forall (fun r => List.NoDup (snd r)) ranges ->
  List.NoDup (generateParameterCombinations ranges).
Proof.
  induction 1 as [|[k vs] rest Hvs _ IH]; simpl.
  - constructor; [intros []|constructor].
  - simpl in Hvs.
    generalize dependent (generateParameterCombinations rest).
    intros tails Htails.
    induction Hvs as [|v vs Hnotin _ IHv]; simpl; [constructor|].
    apply List.NoDup_app.
    + now apply (NoDup_map_cons (k, v)).
    + exact IHv.
    + intros x Hx1 Hx2. apply in_map_iff in Hx1.
      destruct Hx1 as (t1 & <- & _).
      apply in_flat_map in Hx2. destruct Hx2 as (v' & Hv' & Hx2).
      apply in_map_iff in Hx2. destruct Hx2 as (t2 & E & _).
      injection E as -> _. contradiction.
Qed.

Lemma insertSorted_Permutation (x : OptimizationResult)
      (rs : list OptimizationResult) :
  Permutation (insertSorted x rs) (x :: rs).
Proof.
  induction rs as [|y rs IH]; simpl; [reflexivity|].
  destruct (PrimFloat.ltb _ _); [|reflexivity].
  rewrite IH. apply perm_swap.
Qed.

(** Sorting neither drops nor invents a result. *)
Lemma sortByFitness_Permutation (rs : list OptimizationResult) :
  Permutation (sortByFitness rs) rs.
Proof.
  induction rs as [|x rs IH]; simpl; [reflexivity|].
  rewrite insertSorted_Permutation. now constructor.
Qed.

(** The results are those of the combinations whose run returned, one for
    each; a combination whose run raised is left out. *)
Lemma optimizeStrategy_results (engine : BacktestingEngine)
      (strategyManager : StrategyManager.t) (clock : nat -> nat -> Clock)
      (c : BacktestConfig) (ranges : list (string * list any)) :
  Permutation (optimizeStrategy engine strategyManager clock c ranges)
              (collectResults engine strategyManager clock c ranges)
  /\ map opt_parameters (collectResults engine strategyManager clock c ranges)
     = map snd
         (filter (fun kp : nat * object =>
                    match runBacktest engine strategyManager (clock (fst kp))
                                      (withParameters c (snd kp)) with
                    | inr _ => true
                    | inl _ => false
                    end)
                 (enumerate (generateParameterCombinations ranges))).
Proof.
  split; [apply sortByFitness_Permutation|].
  unfold collectResults.
  induction (enumerate (generateParameterCombinations ranges))
    as [|[k p] kps IH]; simpl; [reflexivity|].
  rewrite map_app, IH.
  destruct (runBacktest engine strategyManager (clock k) (withParameters c p));
    reflexivity.
Qed.

End Optimizer.

(** ** The missing entry price *)

Section MissingPrice.
Import Backtesting Spec.

Lemma runBacktest_inv (engine : BacktestingEngine)
      (strategyManager : StrategyManager.t) (clock : nat -> Clock)
      (c : BacktestConfig) (r : BacktestResult) :
  runBacktest engine strategyManager clock c = inr r ->
  exists filteredData,
    50 <= length filteredData
    /\ trades r = st_trades (simulate strategyManager clock c filteredData)
    /\ equity_curve r
       = st_equityCurve (simulate strategyManager clock c filteredData)
    /\ summary r
       = calculateSummary
           (trades r) (initialCapital c)
           (st_capital (simulate strategyManager clock c filteredData))
           (st_maxDrawdown (simulate strategyManager clock c filteredData)).
Proof.
  unfold runBacktest.
  destruct (historicalData engine !! symbol c) as [series|]; [|discriminate].
  destruct (Nat.ltb_spec (length (filter (inRange c) series)) 50);
    [discriminate|].
  intros E. injection E as <-. exists (filter (inRange c) series). simpl. auto.
Qed.

(** The bars of the engine have no [price]: a consensus signal computed on
    them has no [entryPrice]. *)
Lemma consensus_entryPrice_missing (m : StrategyManager.t) (clock : Clock)
      (symbol : string) (bars : list HistoricalData) (cs : StrategySignal) :
  StrategyManager.getConsensusSignal m clock symbol (map asMarketDatum bars)
  = inr (Some cs) ->
  Strategies.entryPrice cs = None.
Proof.
  unfold StrategyManager.getConsensusSignal.
  destruct (StrategyManager.analyzeSymbol _ _ _ _); [discriminate|].
  destruct (gt_half _ _); [|discriminate].
  destruct (latestOf (map asMarketDatum bars)) as [latest|] eqn:E;
    [|discriminate].
  intros H. injection H as <-. simpl.
  unfold latestOf in E. apply nth_error_In, in_map_iff in E.
  destruct E as (b & <- & _). reflexivity.
Qed.

Lemma calculatePositionSize_nan (capital : float) (cs : StrategySignal) :
  Strategies.entryPrice cs = None -> calculatePositionSize capital cs = nan.
Proof.
  intros H. unfold calculatePositionSize. rewrite H. simpl.
  change (nan * 0.02)%float with nan. apply div_nan_r.
Qed.

Lemma executeTrade_nan (c : BacktestConfig) (now : Clock) (i : nat)
      (cs : StrategySignal) (bar next : HistoricalData) (st : LoopState) :
  Strategies.entryPrice cs = None ->
  exists t,
    nanTrade t
    /\ executeTrade c now i cs bar next st
       = {| st_capital := nan;
            st_maxCapital := nan;
            st_maxDrawdown := nan;
            st_currentDrawdown := nan;
            st_trades := st_trades st ++ [t];
            st_equityCurve := st_equityCurve st |}.
Proof.
  intros H. unfold executeTrade.
  rewrite (calculatePositionSize_nan _ _ H).
  nan_absorb.
  eexists. split; [|reflexivity]. repeat split.
Qed.

Lemma recordEquity_poisoned (bar : HistoricalData) (st : LoopState) :
  poisoned st -> poisoned (recordEquity bar st).
Proof.
  unfold poisoned, recordEquity. simpl. intros [Hall Hne].
  split; [exact Hall|]. intros H.
  destruct (Hne H) as (Hc & Hm & Hcd & Hd & Hex).
  repeat (split; [assumption|]).
  apply Exists_app. now left.
Qed.

Variable strategyManager : StrategyManager.t.
Variable clock : nat -> Clock.
Variable c : BacktestConfig.
Variable filteredData : list HistoricalData.

Lemma processBar_poisoned (st : LoopState) (i : nat) :
  poisoned st ->
  poisoned (processBar strategyManager clock c filteredData st i).
Proof.
  intros Hst. unfold processBar.
  destruct (nth_error filteredData i) as [bar|]; [|exact Hst].
  destruct (StrategyManager.getConsensusSignal _ _ _ _)
    as [e|[cs|]] eqn:E; [exact Hst| |now apply recordEquity_poisoned].
  destruct (Action_eqb _ hold); [now apply recordEquity_poisoned|].
  destruct (nth_error filteredData (i + 1)) as [next|]; [|exact Hst].
  apply consensus_entryPrice_missing in E.
  destruct (executeTrade_nan c (clock i) i cs bar next st E) as (t & Ht & ->).
  destruct Hst as [Hall _].
  unfold poisoned, recordEquity. simpl. split.
  - apply Forall_app. split; [exact Hall|]. now constructor.
  - intros _. repeat (split; [reflexivity|]).
    apply Exists_app. right. constructor. now split.
Qed.

Lemma simulate_poisoned :
  poisoned (simulate strategyManager clock c filteredData).
Proof.
  unfold simulate.
  assert (H0 : poisoned (initialState c)).
  { split; [constructor|]. simpl. congruence. }
  revert H0. generalize (initialState c).
  induction (iteratedBars filteredData) as [|i idxs IH]; intros st Hst;
    simpl; [exact Hst|].
  apply IH. now apply processBar_poisoned.
Qed.

End MissingPrice.

Section Consequences.
Import Backtesting Spec.

(** C4 does not hold of the code. In every run that trades, the consensus
    signal takes its [entryPrice] from the [price] property, which the bars
    of the engine do not have: the position size is [NaN], and with it the
    capital, its peak and the drawdowns. The maximum drawdown of the summary
    is [NaN], so is the drawdown of a recorded point, and neither is a
    percentage between 0 and 100. *)
Theorem runBacktest_drawdown_nan_once_traded (engine : BacktestingEngine)
        (strategyManager : StrategyManager.t) (clock : nat -> Clock)
        (c : BacktestConfig) (r : BacktestResult) :
  runBacktest engine strategyManager clock c = inr r ->
  trades r <> [] ->
  PrimFloat.is_nan (maxDrawdown (summary r)) = true
  /\ isPercentage (maxDrawdown (summary r)) = false
  /\ Exists (fun p => PrimFloat.is_nan (drawdown p) = true
                      /\ isPercentage (drawdown p) = false
                      /\ PrimFloat.is_nan (equity p) = true)
            (equity_curve r).
Proof.
  intros Hr Hne.
  destruct (runBacktest_inv _ _ _ _ _ Hr) as (fd & _ & Ht & Hc & Hs).
  destruct (simulate_poisoned strategyManager clock c fd) as [_ Hp].
  rewrite <- Ht in Hp. destruct (Hp Hne) as (_ & _ & _ & Hd & Hex).
  rewrite Hs, <- Hc in *. simpl. rewrite Hd.
  split; [reflexivity|]. split; [reflexivity|].
  apply List.Exists_exists in Hex. destruct Hex as (p & Hin & Hdp & Hep).
  apply List.Exists_exists. exists p. rewrite Hdp, Hep. auto.
Qed.

(** Fifty falling bars of X under the manager as constructed: the technical
    and the arbitrage strategy vote buy at bar 20, and a trade is made. *)
Lemma runBacktest_drawdown_nan_once_traded_witness :
  exists r,
    runBacktest Fixtures.engine Fixtures.defaultManager (Fixtures.clockAt 0)
                (Fixtures.configFor 50) = inr r
    /\ length (trades r) = 29
    /\ PrimFloat.is_nan (maxDrawdown (summary r)) = true
    /\ isPercentage (maxDrawdown (summary r)) = false
    /\ Exists (fun p => PrimFloat.is_nan (drawdown p) = true
                        /\ isPercentage (drawdown p) = false
                        /\ PrimFloat.is_nan (equity p) = true)
              (equity_curve r).
Proof.
  destruct (runBacktest Fixtures.engine Fixtures.defaultManager
                        (Fixtures.clockAt 0) (Fixtures.configFor 50))
    as [e|r] eqn:Hr; [vm_compute in Hr; discriminate|].
  exists r. split; [reflexivity|].
  assert (Hl : length (trades r) = 29).
  { vm_compute in Hr. injection Hr as <-. reflexivity. }
  split; [exact Hl|].
  apply (runBacktest_drawdown_nan_once_traded
           Fixtures.engine Fixtures.defaultManager (Fixtures.clockAt 0)
           (Fixtures.configFor 50) r Hr).
  intros E. rewrite E in Hl. discriminate.
Defined.

Lemma sharpeRatio_nan_of_nan_trades (ts : list BacktestTrade) (i f m : float) :
  Forall nanTrade ts -> sharpeRatio (calculateSummary ts i f m) = nan.
Proof.
  intros Hall. destruct ts as [|t ts]; [vm_compute; reflexivity|].
  unfold calculateSummary. cbn [sharpeRatio].
  set (returns := map profitLossPercent (t :: ts)).
  assert (Hret : Forall (eq nan) returns).
  { apply List.Forall_map. eapply List.Forall_impl; [|exact Hall].
    intros t' (_ & _ & H). now rewrite H. }
  assert (Hne : returns <> []) by discriminate.
  rewrite (sum_nan returns Hne Hret), div_nan_l.
  assert (Hvar : JS.sum (map (fun r => Math_pow2 (r - nan)%float) returns) = nan).
  { apply sum_nan.
    - intros E. apply map_eq_nil in E. contradiction.
    - apply List.Forall_map, List.Forall_forall. intros r _.
      now rewrite sub_nan_r. }
  rewrite Hvar, div_nan_l. reflexivity.
Qed.

(** Every run that returns has a [NaN] Sharpe ratio: 0/0 when it made no
    trade, a mean of [NaN] returns when it made some. *)
Lemma runBacktest_sharpeRatio_nan (engine : BacktestingEngine)
      (strategyManager : StrategyManager.t) (clock : nat -> Clock)
      (c : BacktestConfig) (r : BacktestResult) :
  runBacktest engine strategyManager clock c = inr r ->
  sharpeRatio (summary r) = nan.
Proof.
  intros Hr.
  destruct (runBacktest_inv _ _ _ _ _ Hr) as (fd & _ & Ht & _ & Hs).
  rewrite Hs. apply sharpeRatio_nan_of_nan_trades. rewrite Ht.
  apply simulate_poisoned.
Qed.

Lemma calculateFitness_nan (r : BacktestResult) :
  sharpeRatio (summary r) = nan -> calculateFitness r = nan.
Proof.
  intros H. unfold calculateFitness. rewrite H.
  change (Math_min (Math_max (nan / 3)%float 0%float) 1%float) with nan.
  now nan_absorb.
Qed.

Lemma collectResults_fitness_nan (engine : BacktestingEngine)
      (strategyManager : StrategyManager.t) (clock : nat -> nat -> Clock)
      (c : BacktestConfig) (ranges : list (string * list any)) :
  Forall (fun o => fitness o = nan)
         (collectResults engine strategyManager clock c ranges).
Proof.
  unfold collectResults.
  induction (enumerate (generateParameterCombinations ranges))
    as [|[k p] kps IH]; simpl; [constructor|].
  apply Forall_app. split; [|exact IH].
  destruct (runBacktest engine strategyManager (clock k) (withParameters c p))
    as [e|r] eqn:Hr; constructor; [|constructor].
  simpl. eapply calculateFitness_nan, runBacktest_sharpeRatio_nan, Hr.
Qed.

(** C5 holds of the code only in part. The combinations are the Cartesian
    product of the candidate lists and the returned list is a rearrangement
    of the results of the runs that returned. But whatever the request and
    the ranges, every result of [optimizeStrategy] has a [NaN] fitness (the
    Sharpe ratio of every run is [NaN]): the comparator never orders two
    results, and the first result's fitness is greater than or equal to no
    other's. On the ranges a: 1, 2 and b: 10, 20 the four combinations
    (1,10), (1,20), (2,10), (2,20) are each evaluated once, and come back in
    that order. *)
Theorem optimizeStrategy_fitness_nan (engine : BacktestingEngine)
        (strategyManager : StrategyManager.t) (clock : nat -> nat -> Clock)
        (c : BacktestConfig) (ranges : list (string * list any)) :
  generateParameterCombinations ranges = cartesian ranges
  /\ Permutation (optimizeStrategy engine strategyManager clock c ranges)
                 (collectResults engine strategyManager clock c ranges)
  /\ Forall (fun o => PrimFloat.is_nan (fitness o) = true)
            (optimizeStrategy engine strategyManager clock c ranges)
  /\ (forall first rest,
         optimizeStrategy engine strategyManager clock c ranges = first :: rest ->
         Forall (fun o => PrimFloat.leb (fitness o) (fitness first) = false)
                rest)
  /\ map opt_parameters
         (optimizeStrategy Fixtures.engine Fixtures.mlOnly
                           (fun _ => Fixtures.clockAt 0)
                           (Fixtures.configFor 50) Fixtures.twoByTwo)
     = [ [("a", Num 1%float); ("b", Num 10%float)];
         [("a", Num 1%float); ("b", Num 20%float)];
         [("a", Num 2%float); ("b", Num 10%float)];
         [("a", Num 2%float); ("b", Num 20%float)] ].
Proof.
  assert (Hall : Forall (fun o => fitness o = nan)
                        (optimizeStrategy engine strategyManager clock c ranges)).
  { unfold optimizeStrategy.
    eapply Permutation_Forall;
      [symmetry; apply sortByFitness_Permutation|].
    apply collectResults_fitness_nan. }
  split; [apply generateParameterCombinations_cartesian|].
  split; [apply sortByFitness_Permutation|].
  split; [|split].
  - eapply List.Forall_impl; [|exact Hall]. intros o ->. reflexivity.
  - intros first rest E. rewrite E in Hall.
    inversion Hall as [|? ? Hf Hrest]; subst.
    eapply List.Forall_impl; [|exact Hrest].
    intros o ->. rewrite Hf. reflexivity.
  - vm_compute. reflexivity.
Qed.

Lemma optimizeStrategy_fitness_nan_witness :
  exists first rest,
    optimizeStrategy Fixtures.engine Fixtures.defaultManager
                     (fun _ => Fixtures.clockAt 0)
                     (Fixtures.configFor 50) Fixtures.twoByTwo
    = first :: rest
    /\ length rest = 3
    /\ Forall (fun o => PrimFloat.leb (fitness o) (fitness first) = false) rest.
Proof.
  destruct (optimizeStrategy Fixtures.engine Fixtures.defaultManager
                             (fun _ => Fixtures.clockAt 0)
                             (Fixtures.configFor 50) Fixtures.twoByTwo)
    as [|first rest] eqn:E; [vm_compute in E; discriminate|].
  exists first, rest. split; [reflexivity|]. split.
  - apply (f_equal (@length _)) in E. vm_compute in E. now injection E.
  - exact (proj1 (proj2 (proj2 (proj2 (optimizeStrategy_fitness_nan
                           Fixtures.engine Fixtures.defaultManager
                           (fun _ => Fixtures.clockAt 0)
                           (Fixtures.configFor 50) Fixtures.twoByTwo))))
                 first rest E).
Defined.

End Consequences.

(** ** The Sortino ratio of a run *)

Section SortinoOfRuns.
Import Backtesting Spec.






End SortinoOfRuns.

(** * Further properties of the optimizer *)

Section OptimizerEdges.
Import Backtesting Spec.

Lemma product_zero_of_empty_range (ranges : list (string * list any)) :
  Exists (fun r => snd r = []) ranges ->
  fold_right (fun r n => length (snd r) * n) 1 ranges = 0.
Proof.
  induction 1 as [r rest H|r rest _ IH]; simpl.
  - now rewrite H.
  - rewrite IH. lia.
Qed.

(** X1. The combinations are exactly the assignments that give each key, in
    the order of the keys, one of its candidates; there are as many as the
    product of the numbers of candidates, so a key without candidates leaves
    no combination at all, and no key leaves the single empty assignment. *)
Theorem generateParameterCombinations_assignments
        (ranges : list (string * list any)) :
  (forall combination : object,
      In combination (generateParameterCombinations ranges)
      <-> Forall2 (fun (kv : string * any) (r : string * list any) =>
                     fst kv = fst r /\ In (snd kv) (snd r))
                  combination ranges)
  /\ length (generateParameterCombinations ranges)
     = fold_right (fun r n => length (snd r) * n) 1 ranges
  /\ (Exists (fun r => snd r = []) ranges ->
      generateParameterCombinations ranges = [])
  /\ generateParameterCombinations [] = [ [] ].
Proof.
  split; [apply generateParameterCombinations_complete|].
  split; [apply generateParameterCombinations_length|].
  split; [|reflexivity].
  intros H. apply length_zero_iff_nil.
  rewrite generateParameterCombinations_length.
  now apply product_zero_of_empty_range.
Qed.

Lemma generateParameterCombinations_assignments_witness :
  Exists (fun r : string * list any => snd r = [])
         [ ("a", [Num 1%float; Num 2%float]); ("b", []) ]
  /\ generateParameterCombinations
       [ ("a", [Num 1%float; Num 2%float]); ("b", []) ] = [].
Proof.
  split.
  - right. left. reflexivity.
  - apply (generateParameterCombinations_assignments
             [ ("a", [Num 1%float; Num 2%float]); ("b", []) ]).
    right. left. reflexivity.
Defined.

(** X2. When no key lists a candidate twice, no combination is produced
    twice. *)
Theorem generateParameterCombinations_visits_once
        (ranges : list (string * list any)) :
  Forall (fun r => List.NoDup (snd r)) ranges ->
  List.NoDup (generateParameterCombinations ranges).
Proof. apply generateParameterCombinations_NoDup. Qed.

Lemma float_neq_by_eqb (x y : float) :
  PrimFloat.eqb x y = false -> PrimFloat.eqb y y = true -> x <> y.
Proof. intros Hxy Hyy E. rewrite E in Hxy. congruence. Qed.

Lemma twoByTwo_candidates_distinct :
  Forall (fun r : string * list any => List.NoDup (snd r)) Fixtures.twoByTwo.
Proof.
  assert (Hnum : forall x y : float,
             PrimFloat.eqb x y = false -> PrimFloat.eqb y y = true ->
             Num x <> Num y).
  { intros x y Hxy Hyy E.
    apply (f_equal (fun a => match a with Num z => z | _ => x end)) in E.
    revert E. now apply float_neq_by_eqb. }
  assert (H12 : Num 1%float <> Num 2%float) by (apply Hnum; reflexivity).
  assert (H1020 : Num 10%float <> Num 20%float) by (apply Hnum; reflexivity).
  repeat constructor; simpl; intuition.
Qed.

Lemma generateParameterCombinations_visits_once_witness :
  List.NoDup (generateParameterCombinations Fixtures.twoByTwo).
Proof.
  apply (generateParameterCombinations_visits_once Fixtures.twoByTwo).
  exact twoByTwo_candidates_distinct.
Defined.

(** The run reads the symbol, the dates, the capital and the strategy label
    of its request, never its [parameters]. *)
Lemma runBacktest_withParameters (engine : BacktestingEngine)
      (strategyManager : StrategyManager.t) (clock : nat -> Clock)
      (c : BacktestConfig) (p : object) :
  runBacktest engine strategyManager clock (withParameters c p)
  = match runBacktest engine strategyManager clock c with
    | inl e => inl e
    | inr r => inr {| summary := summary r;
                      trades := trades r;
                      equity_curve := equity_curve r;
                      metrics := metrics r;
                      config := withParameters c p |}
    end.
Proof.
  unfold runBacktest. simpl.
  destruct (historicalData engine !! symbol c) as [series|]; [|reflexivity].
  change (inRange (withParameters c p)) with (inRange c).
  destruct (length (filter (inRange c) series) <? 50); reflexivity.
Qed.

(** Two runs of one request made at different times, the one with
    parameters [p] and the other with [q], under a strategy set whose
    answers do not depend on the time. *)
Lemma runBacktest_withParameters_at_two_times (engine : BacktestingEngine)
      (strategyManager : StrategyManager.t) (clock1 clock2 : nat -> Clock)
      (c : BacktestConfig) (p q : object) :
  deterministic strategyManager ->
  match runBacktest engine strategyManager clock1 (withParameters c p),
        runBacktest engine strategyManager clock2 (withParameters c q) with
  | inr r1, inr r2 =>
      summary r1 = summary r2
      /\ map eraseId (trades r1) = map eraseId (trades r2)
      /\ equity_curve r1 = equity_curve r2
      /\ metrics r1 = metrics r2
      /\ config r1 = withParameters c p
      /\ config r2 = withParameters c q
  | inl e1, inl e2 => e1 = e2
  | _, _ => False
  end.
Proof.
  intros Hdet. rewrite !runBacktest_withParameters. unfold runBacktest.
  destruct (historicalData engine !! symbol c) as [series|]; [|reflexivity].
  destruct (length _ <? 50); [reflexivity|].
  destruct (simulate_agree strategyManager Hdet clock1 clock2 c
                           (filter (inRange c) series))
    as (Hc & Hm & Hd & Hcd & Ht & He).
  cbn [summary trades equity_curve metrics config].
  set (s1 := simulate strategyManager clock1 c (filter (inRange c) series))
    in *.
  set (s2 := simulate strategyManager clock2 c (filter (inRange c) series))
    in *.
  assert (Hsum :
    calculateSummary (st_trades s1) (initialCapital c) (st_capital s1)
                     (st_maxDrawdown s1)
    = calculateSummary (st_trades s2) (initialCapital c) (st_capital s2)
                       (st_maxDrawdown s2)).
  { rewrite <- calculateSummary_eraseId, Ht, calculateSummary_eraseId.
    now rewrite Hc, Hd. }
  repeat split; try assumption.
  rewrite Hsum.
  now rewrite <- calculateAdvancedMetrics_eraseId, Ht,
    calculateAdvancedMetrics_eraseId.
Qed.

(** X3. The optimizer's candidate parameters do not reach the simulation.
    At the same clock readings and random draws, the run of a request with
    any parameter object put in is the run of the request itself, the
    [config] it echoes apart.  The combinations of an optimization are run
    one after the other, at different times: under a strategy set whose
    answers do not depend on the time, two of them fail alike or give the
    same summary, equity curve and metrics, and the same trades but for the
    ids, each echoing its own parameters.  The trades themselves are not the
    same: the ids differ, as for the two combinations run when the clock
    reads 1 and 2. *)
Theorem runBacktest_ignores_parameters (engine : BacktestingEngine)
        (strategyManager : StrategyManager.t) (c : BacktestConfig)
        (p q : object) :
  (forall clock : nat -> Clock,
      runBacktest engine strategyManager clock (withParameters c p)
      = match runBacktest engine strategyManager clock c with
        | inl e => inl e
        | inr r => inr {| summary := summary r;
                          trades := trades r;
                          equity_curve := equity_curve r;
                          metrics := metrics r;
                          config := withParameters c p |}
        end)
  /\ (deterministic strategyManager ->
      forall clock1 clock2 : nat -> Clock,
        match runBacktest engine strategyManager clock1 (withParameters c p),
              runBacktest engine strategyManager clock2 (withParameters c q)
        with
        | inr r1, inr r2 =>
            summary r1 = summary r2
            /\ map eraseId (trades r1) = map eraseId (trades r2)
            /\ equity_curve r1 = equity_curve r2
            /\ metrics r1 = metrics r2
            /\ config r1 = withParameters c p
            /\ config r2 = withParameters c q
        | inl e1, inl e2 => e1 = e2
        | _, _ => False
        end)
  /\ match runBacktest Fixtures.engine Fixtures.technicalOnly
                       (Fixtures.clockAt 1)
                       (withParameters (Fixtures.configFor 50) p),
           runBacktest Fixtures.engine Fixtures.technicalOnly
                       (Fixtures.clockAt 2)
                       (withParameters (Fixtures.configFor 50) q) with
     | inr r1, inr r2 =>
         map eraseId (trades r1) = map eraseId (trades r2)
         /\ trades r1 <> trades r2
     | _, _ => False
     end.
Proof.
  split; [intros clock; apply runBacktest_withParameters|].
  split;
    [intros Hdet clock1 clock2;
     now apply runBacktest_withParameters_at_two_times|].
  pose proof (runBacktest_withParameters_at_two_times
                Fixtures.engine Fixtures.technicalOnly
                (Fixtures.clockAt 1) (Fixtures.clockAt 2)
                (Fixtures.configFor 50) p q technicalOnly_deterministic)
    as Hsame.
  rewrite !runBacktest_withParameters in *.
  destruct (runBacktest Fixtures.engine Fixtures.technicalOnly
                        (Fixtures.clockAt 1) (Fixtures.configFor 50))
    as [e1|r1] eqn:E1;
    destruct (runBacktest Fixtures.engine Fixtures.technicalOnly
                          (Fixtures.clockAt 2) (Fixtures.configFor 50))
    as [e2|r2] eqn:E2; try (exfalso; exact Hsame).
  - exfalso. clear -E1. vm_compute in E1. discriminate.
  - cbn [trades] in *. split; [apply Hsame|].
    intros E.
    apply (f_equal (fun a : exn + BacktestResult =>
                      match a with
                      | inr r => option_map id (hd_error (trades r))
                      | inl _ => None
                      end)) in E1, E2.
    cbn [trades] in E1, E2. rewrite E in E1. rewrite <- E2 in E1.
    clear -E1. vm_compute in E1. discriminate.
Qed.

Lemma collectResults_nil_of_failures (engine : BacktestingEngine)
      (strategyManager : StrategyManager.t) (clock : nat -> nat -> Clock)
      (c : BacktestConfig) (ranges : list (string * list any)) :
  (forall k, exists e, runBacktest engine strategyManager (clock k) c = inl e) ->
  collectResults engine strategyManager clock c ranges = [].
Proof.
  intros Hfail. unfold collectResults.
  induction (enumerate (generateParameterCombinations ranges))
    as [|[k p] kps IH]; simpl; [reflexivity|].
  rewrite runBacktest_withParameters.
  destruct (Hfail k) as [e ->]. exact IH.
Qed.

(** On an object whose every property is an array the general functions
    are the typed ones, and raise nothing. *)
Lemma generateParameterCombinations_ofArrays
      (ranges : list (string * list any)) :
  AnyRanges.generateParameterCombinations
    (AnyRanges.Properties (AnyRanges.ofArrays ranges))
  = inr (generateParameterCombinations ranges).
Proof.
  simpl. induction ranges as [|[k vs] rest IH]; [reflexivity|].
  cbn [AnyRanges.ofArrays map fst snd
       AnyRanges.generateParameterCombinations_properties
       generateParameterCombinations].
  fold (AnyRanges.ofArrays rest). rewrite IH.
  destruct vs; reflexivity.
Qed.

Lemma optimizeStrategy_ofArrays (engine : BacktestingEngine)
      (strategyManager : StrategyManager.t) (clock : nat -> nat -> Clock)
      (c : BacktestConfig) (ranges : list (string * list any)) :
  AnyRanges.optimizeStrategy engine strategyManager clock c
    (AnyRanges.Properties (AnyRanges.ofArrays ranges))
  = inr (optimizeStrategy engine strategyManager clock c ranges).
Proof.
  unfold AnyRanges.optimizeStrategy.
  now rewrite generateParameterCombinations_ofArrays.
Qed.

(** The generation raises nothing but a [TypeError]. *)
Lemma generateParameterCombinations_raises_TypeError
      (ranges : AnyRanges.Ranges) (e : exn) :
  AnyRanges.generateParameterCombinations ranges = inl e -> e = TypeError.
Proof.
  destruct ranges as [|entries]; simpl; [congruence|].
  induction entries as [|[k [vs|]] rest IH]; simpl; [discriminate| |congruence].
  destruct vs as [|v vs]; [discriminate|].
  destruct (AnyRanges.generateParameterCombinations_properties rest);
    [|discriminate].
  intros E. injection E as <-. now apply IH.
Qed.

Lemma flat_map_evaluateCombination_nil_of_failures
      (engine : BacktestingEngine) (strategyManager : StrategyManager.t)
      (clock : nat -> nat -> Clock) (c : BacktestConfig)
      (kps : list (nat * object)) :
  (forall k, exists e, runBacktest engine strategyManager (clock k) c = inl e) ->
  flat_map (evaluateCombination engine strategyManager clock c) kps = [].
Proof.
  intros Hfail. induction kps as [|[k p] kps IH]; simpl; [reflexivity|].
  rewrite runBacktest_withParameters.
  destruct (Hfail k) as [e ->]. exact IH.
Qed.

(** X4. The combinations are generated outside the [try] of the loop, so
    the optimizer raises exactly when their generation does, and then a
    [TypeError]: on ranges that are [null] or [undefined], and on ranges
    whose first property is not iterable, such as [{a: 5}].  On an object
    whose every property is an array it returns.  When it returns and the
    symbol has no series, or has fewer than 50 bars in the date range,
    every run fails, each failure is swallowed, and the result is the empty
    list. *)
Theorem optimizeStrategy_without_data (engine : BacktestingEngine)
        (strategyManager : StrategyManager.t) (clock : nat -> nat -> Clock)
        (c : BacktestConfig) (ranges : AnyRanges.Ranges) :
  (forall e,
      AnyRanges.optimizeStrategy engine strategyManager clock c ranges = inl e
      <-> AnyRanges.generateParameterCombinations ranges = inl e)
  /\ (forall e,
         AnyRanges.optimizeStrategy engine strategyManager clock c ranges
         = inl e -> e = TypeError)
  /\ AnyRanges.optimizeStrategy engine strategyManager clock c
       AnyRanges.Nullish = inl TypeError
  /\ (forall a rest,
         AnyRanges.optimizeStrategy engine strategyManager clock c
           (AnyRanges.Properties ((a, AnyRanges.NotIterable) :: rest))
         = inl TypeError)
  /\ (forall arrays,
         AnyRanges.optimizeStrategy engine strategyManager clock c
           (AnyRanges.Properties (AnyRanges.ofArrays arrays))
         = inr (optimizeStrategy engine strategyManager clock c arrays))
  /\ (historicalData engine !! symbol c = None
      \/ (exists series,
             historicalData engine !! symbol c = Some series
             /\ length (filter (inRange c) series) < 50) ->
      forall combinations,
        AnyRanges.generateParameterCombinations ranges = inr combinations ->
        AnyRanges.optimizeStrategy engine strategyManager clock c ranges
        = inr []).
Proof.
  assert (Hiff : forall e,
    AnyRanges.optimizeStrategy engine strategyManager clock c ranges = inl e
    <-> AnyRanges.generateParameterCombinations ranges = inl e).
  { intros e. unfold AnyRanges.optimizeStrategy.
    destruct (AnyRanges.generateParameterCombinations ranges);
      split; congruence. }
  split; [exact Hiff|].
  split; [intros e He; apply Hiff in He;
          now apply generateParameterCombinations_raises_TypeError in He|].
  split; [reflexivity|]. split; [reflexivity|].
  split; [intros arrays; apply optimizeStrategy_ofArrays|].
  intros H combinations Hc. unfold AnyRanges.optimizeStrategy. rewrite Hc.
  rewrite flat_map_evaluateCombination_nil_of_failures; [reflexivity|].
  intros k. unfold runBacktest.
  destruct H as [->|(series & -> & Hlt)]; [eauto|].
  apply Nat.ltb_lt in Hlt. rewrite Hlt. eauto.
Qed.

Lemma optimizeStrategy_without_data_witness :
  AnyRanges.optimizeStrategy Fixtures.engine Fixtures.defaultManager
    (fun _ => Fixtures.clockAt 0) (Fixtures.configFor 10)
    (AnyRanges.Properties (AnyRanges.ofArrays Fixtures.twoByTwo)) = inr []
  /\ AnyRanges.optimizeStrategy Fixtures.engine Fixtures.defaultManager
       (fun _ => Fixtures.clockAt 0) (Fixtures.configFor 10)
       (AnyRanges.Properties [ ("a", AnyRanges.NotIterable) ])
     = inl TypeError.
Proof.
  pose proof (optimizeStrategy_without_data
                Fixtures.engine Fixtures.defaultManager
                (fun _ => Fixtures.clockAt 0) (Fixtures.configFor 10)
                (AnyRanges.Properties (AnyRanges.ofArrays Fixtures.twoByTwo)))
    as (_ & _ & _ & Hbad & _ & Hnil).
  split; [|apply Hbad].
  apply (Hnil ltac:(right; exists (Fixtures.fallingSeries 60); split;
                    [vm_compute; reflexivity|vm_compute; lia])
              (generateParameterCombinations Fixtures.twoByTwo)).
  apply generateParameterCombinations_ofArrays.
Defined.

Lemma enumerate_snd {A} (xs : list A) : map snd (enumerate xs) = xs.
Proof.
  unfold enumerate. generalize 0.
  induction xs as [|x xs IH]; intros n; simpl; [reflexivity|].
  now rewrite IH.
Qed.

(** X5. With at least 50 bars in range every combination's run returns:
    the optimizer answers with exactly one result per combination, so with
    as many results as the product of the numbers of candidates. *)
Theorem optimizeStrategy_one_result_per_combination
        (engine : BacktestingEngine) (strategyManager : StrategyManager.t)
        (clock : nat -> nat -> Clock) (c : BacktestConfig)
        (ranges : list (string * list any)) (series : list HistoricalData) :
  historicalData engine !! symbol c = Some series ->
  50 <= length (filter (inRange c) series) ->
  Permutation (map opt_parameters
                   (optimizeStrategy engine strategyManager clock c ranges))
              (generateParameterCombinations ranges)
  /\ length (optimizeStrategy engine strategyManager clock c ranges)
     = fold_right (fun r n => length (snd r) * n) 1 ranges.
Proof.
  intros Hs Hlen.
  assert (Hcol : map opt_parameters
                     (collectResults engine strategyManager clock c ranges)
                 = generateParameterCombinations ranges).
  { transitivity (map snd (enumerate (generateParameterCombinations ranges)));
      [|apply enumerate_snd].
    unfold collectResults.
    induction (enumerate (generateParameterCombinations ranges))
      as [|[k p] kps IH]; simpl; [reflexivity|].
    rewrite runBacktest_withParameters.
    destruct (runBacktest_unfold engine strategyManager (clock k) c series Hs)
      as [_ Hge].
    destruct (Hge Hlen) as (r & -> & _). simpl. now rewrite IH. }
  assert (Hperm : Permutation
                    (map opt_parameters
                         (optimizeStrategy engine strategyManager clock c ranges))
                    (generateParameterCombinations ranges)).
  { rewrite <- Hcol. apply Permutation_map, sortByFitness_Permutation. }
  split; [exact Hperm|].
  rewrite <- generateParameterCombinations_length.
  apply Permutation_length in Hperm. now rewrite length_map in Hperm.
Qed.

Lemma optimizeStrategy_one_result_per_combination_witness :
  length (optimizeStrategy Fixtures.engine Fixtures.defaultManager
                           (fun _ => Fixtures.clockAt 0)
                           (Fixtures.configFor 50) Fixtures.twoByTwo)
  = 4.
Proof.
  apply (optimizeStrategy_one_result_per_combination
           Fixtures.engine Fixtures.defaultManager
           (fun _ => Fixtures.clockAt 0) (Fixtures.configFor 50)
           Fixtures.twoByTwo (Fixtures.fallingSeries 60)).
  - vm_compute. reflexivity.
  - vm_compute. lia.
Defined.

End OptimizerEdges.

(** * Further properties of a run *)

Section RunInvariants.
Import Backtesting Spec Further.

Variable strategyManager : StrategyManager.t.
Variable clock : nat -> Clock.
Variable c : BacktestConfig.
Variable filteredData : list HistoricalData.

Lemma processBar_roundTrips (st : LoopState) (i : nat) :
  20 <= i ->
  Forall (oneBarRoundTrip c filteredData) (st_trades st)
  /\ length (st_trades st) <= length (st_equityCurve st) ->
  Forall (oneBarRoundTrip c filteredData)
         (st_trades (processBar strategyManager clock c filteredData st i))
  /\ length (st_trades (processBar strategyManager clock c filteredData st i))
     <= length (st_equityCurve
                  (processBar strategyManager clock c filteredData st i)).
Proof.
  intros Hi [Hall Hlen]. unfold processBar.
  destruct (nth_error filteredData i) as [bar|] eqn:Eb; [|now split].
  destruct (StrategyManager.getConsensusSignal _ _ _ _) as [e|[cs|]];
    [now split| |].
  - destruct (Action_eqb (action cs) hold) eqn:Eh.
    + split; [exact Hall|]. simpl. rewrite length_app. simpl. lia.
    + destruct (nth_error filteredData (i + 1)) as [next|] eqn:En;
        [|now split].
      simpl. split.
      * apply Forall_app. split; [exact Hall|]. constructor; [|constructor].
        unfold oneBarRoundTrip. simpl.
        split; [intros E; rewrite E in Eh; discriminate|].
        do 3 (split; [reflexivity|]).
        exists i, bar, next. auto 10.
      * rewrite !length_app. simpl. lia.
  - split; [exact Hall|]. simpl. rewrite length_app. simpl. lia.
Qed.

Lemma simulate_roundTrips :
  Forall (oneBarRoundTrip c filteredData)
         (st_trades (simulate strategyManager clock c filteredData))
  /\ length (st_trades (simulate strategyManager clock c filteredData))
     <= length (st_equityCurve (simulate strategyManager clock c filteredData)).
Proof.
  unfold simulate.
  assert (H0 : Forall (oneBarRoundTrip c filteredData)
                      (st_trades (initialState c))
               /\ length (st_trades (initialState c))
                  <= length (st_equityCurve (initialState c)))
    by (split; [constructor|simpl; lia]).
  assert (Hidx : Forall (fun i => 20 <= i) (iteratedBars filteredData)).
  { apply List.Forall_forall. intros i Hi.
    now apply iteratedBars_in_range in Hi. }
  revert H0 Hidx. generalize (initialState c).
  induction (iteratedBars filteredData) as [|i idxs IH]; intros st Hst Hidx;
    simpl; [exact Hst|].
  inversion Hidx; subst. apply IH; [|assumption].
  now apply processBar_roundTrips.
Qed.

Lemma processBar_flat (st : LoopState) (i : nat) :
  (st_trades st = [] ->
   st_capital st = initialCapital c
   /\ st_currentDrawdown st = 0%float
   /\ st_maxDrawdown st = 0%float
   /\ Forall (flatPoint c) (st_equityCurve st)) ->
  st_trades (processBar strategyManager clock c filteredData st i) = [] ->
  st_capital (processBar strategyManager clock c filteredData st i)
  = initialCapital c
  /\ st_currentDrawdown (processBar strategyManager clock c filteredData st i)
     = 0%float
  /\ st_maxDrawdown (processBar strategyManager clock c filteredData st i)
     = 0%float
  /\ Forall (flatPoint c)
            (st_equityCurve
               (processBar strategyManager clock c filteredData st i)).
Proof.
  intros Hst. unfold processBar.
  destruct (nth_error filteredData i) as [bar|]; [|exact Hst].
  assert (Hrec : st_trades (recordEquity bar st) = [] ->
                 st_capital (recordEquity bar st) = initialCapital c
                 /\ st_currentDrawdown (recordEquity bar st) = 0%float
                 /\ st_maxDrawdown (recordEquity bar st) = 0%float
                 /\ Forall (flatPoint c) (st_equityCurve (recordEquity bar st))).
  { simpl. intros Ht. destruct (Hst Ht) as (Hc & Hd & Hm & Hall).
    repeat (split; [assumption|]).
    apply Forall_app. split; [exact Hall|].
    constructor; [|constructor]. now split. }
  destruct (StrategyManager.getConsensusSignal _ _ _ _) as [e|[cs|]];
    [exact Hst| |exact Hrec].
  destruct (Action_eqb (action cs) hold); [exact Hrec|].
  destruct (nth_error filteredData (i + 1)) as [next|]; [|exact Hst].
  simpl. intros Ht. destruct (st_trades st); discriminate.
Qed.

Lemma simulate_flat :
  st_trades (simulate strategyManager clock c filteredData) = [] ->
  st_maxDrawdown (simulate strategyManager clock c filteredData) = 0%float
  /\ st_capital (simulate strategyManager clock c filteredData)
     = initialCapital c
  /\ Forall (flatPoint c)
            (st_equityCurve (simulate strategyManager clock c filteredData)).
Proof.
  unfold simulate.
  assert (H0 : st_trades (initialState c) = [] ->
               st_capital (initialState c) = initialCapital c
               /\ st_currentDrawdown (initialState c) = 0%float
               /\ st_maxDrawdown (initialState c) = 0%float
               /\ Forall (flatPoint c) (st_equityCurve (initialState c)))
    by (intros _; simpl; auto).
  revert H0. generalize (initialState c).
  induction (iteratedBars filteredData) as [|i idxs IH]; intros st Hst;
    simpl.
  - intros Ht. destruct (Hst Ht) as (Hc & _ & Hm & Hall). auto.
  - apply IH. now apply processBar_flat.
Qed.

End RunInvariants.

Section RunFacts.
Import Backtesting Spec Further.

Lemma runBacktest_simulate (engine : BacktestingEngine)
      (strategyManager : StrategyManager.t) (clock : nat -> Clock)
      (c : BacktestConfig) (series : list HistoricalData) (r : BacktestResult) :
  historicalData engine !! symbol c = Some series ->
  runBacktest engine strategyManager clock c = inr r ->
  trades r
  = st_trades (simulate strategyManager clock c (filter (inRange c) series))
  /\ equity_curve r
     = st_equityCurve
         (simulate strategyManager clock c (filter (inRange c) series))
  /\ summary r
     = calculateSummary
         (trades r) (initialCapital c)
         (st_capital
            (simulate strategyManager clock c (filter (inRange c) series)))
         (st_maxDrawdown
            (simulate strategyManager clock c (filter (inRange c) series))).
Proof.
  intros Hs. unfold runBacktest. rewrite Hs.
  destruct (length _ <? 50); [discriminate|].
  intros E. injection E as <-. simpl. auto.
Qed.

(** X6. Every trade of a run is a one-bar round trip: a buy or a sell, never
    a hold, entered at the close and time of an iterated bar of the filtered
    series (index 20 or more) and left at the close and time of the very
    next bar, marked completed and labelled with the request's symbol and
    strategy; and a run never records more trades than equity points. *)
Theorem runBacktest_trades_are_one_bar_round_trips
        (engine : BacktestingEngine) (strategyManager : StrategyManager.t)
        (clock : nat -> Clock) (c : BacktestConfig)
        (series : list HistoricalData) (r : BacktestResult) :
  historicalData engine !! symbol c = Some series ->
  runBacktest engine strategyManager clock c = inr r ->
  Forall (oneBarRoundTrip c (filter (inRange c) series)) (trades r)
  /\ length (trades r) <= length (equity_curve r).
Proof.
  intros Hs Hr.
  destruct (runBacktest_simulate _ _ _ _ _ _ Hs Hr) as (-> & -> & _).
  apply simulate_roundTrips.
Qed.

Lemma runBacktest_trades_are_one_bar_round_trips_witness :
  exists r,
    runBacktest Fixtures.engine Fixtures.defaultManager (Fixtures.clockAt 0)
                (Fixtures.configFor 50) = inr r
    /\ Forall (oneBarRoundTrip
                 (Fixtures.configFor 50)
                 (filter (inRange (Fixtures.configFor 50))
                         (Fixtures.fallingSeries 60)))
              (trades r)
    /\ length (trades r) <= length (equity_curve r).
Proof.
  destruct (runBacktest Fixtures.engine Fixtures.defaultManager
                        (Fixtures.clockAt 0) (Fixtures.configFor 50))
    as [e|r] eqn:Hr; [vm_compute in Hr; discriminate|].
  exists r. split; [reflexivity|].
  apply (runBacktest_trades_are_one_bar_round_trips
           Fixtures.engine Fixtures.defaultManager (Fixtures.clockAt 0)
           (Fixtures.configFor 50) (Fixtures.fallingSeries 60) r).
  - vm_compute. reflexivity.
  - exact Hr.
Defined.

(** X7. A run that made no trade leaves the ledger untouched: every equity
    point shows the initial capital with a drawdown of 0, and the summary
    counts no trade and a maximum drawdown of 0. *)
Theorem runBacktest_flat_without_trades
        (engine : BacktestingEngine) (strategyManager : StrategyManager.t)
        (clock : nat -> Clock) (c : BacktestConfig) (r : BacktestResult) :
  runBacktest engine strategyManager clock c = inr r ->
  trades r = [] ->
  Forall (flatPoint c) (equity_curve r)
  /\ totalTrades (summary r) = 0
  /\ maxDrawdown (summary r) = 0%float
  /\ maxDrawdownPercent (summary r) = 0%float.
Proof.
  intros Hr Ht.
  destruct (runBacktest_inv _ _ _ _ _ Hr) as (fd & _ & Htr & Hc & Hs).
  rewrite Ht in Htr. symmetry in Htr.
  destruct (simulate_flat strategyManager clock c fd Htr) as (Hm & _ & Hall).
  rewrite Hc, Hs, Ht, Hm. auto.
Qed.

Lemma runBacktest_flat_without_trades_witness :
  exists r,
    runBacktest Fixtures.engine Fixtures.mlOnly (Fixtures.clockAt 0)
                (Fixtures.configFor 50) = inr r
    /\ Forall (flatPoint (Fixtures.configFor 50)) (equity_curve r)
    /\ totalTrades (summary r) = 0
    /\ maxDrawdown (summary r) = 0%float
    /\ maxDrawdownPercent (summary r) = 0%float.
Proof.
  destruct (runBacktest Fixtures.engine Fixtures.mlOnly (Fixtures.clockAt 0)
                        (Fixtures.configFor 50)) as [e|r] eqn:Hr;
    [vm_compute in Hr; discriminate|].
  exists r. split; [reflexivity|].
  apply (runBacktest_flat_without_trades
           Fixtures.engine Fixtures.mlOnly (Fixtures.clockAt 0)
           (Fixtures.configFor 50) r Hr).
  vm_compute in Hr. injection Hr as <-. reflexivity.
Defined.

Lemma filterTrades_nan (p : float -> bool) (ts : list BacktestTrade) :
  p nan = false -> Forall nanTrade ts -> filterTrades p ts = [].
Proof.
  intros Hp. unfold filterTrades.
  induction 1 as [|t ts (_ & Hpl & _) _ IH]; simpl; [reflexivity|].
  now rewrite Hpl, Hp.
Qed.

(** X8. Whatever a run traded, its summary counts every trade and books
    none of them as a win or as a loss: the profit of every trade is [NaN]
    (its size is computed from an entry price the bars do not carry), so the
    summary shows no winning and no losing trade, average and largest win
    and loss of 0, and an infinite profit factor. *)
Theorem runBacktest_summary_books_no_win_no_loss
        (engine : BacktestingEngine) (strategyManager : StrategyManager.t)
        (clock : nat -> Clock) (c : BacktestConfig) (r : BacktestResult) :
  runBacktest engine strategyManager clock c = inr r ->
  totalTrades (summary r) = length (trades r)
  /\ Forall nanTrade (trades r)
  /\ winningTrades (summary r) = 0
  /\ losingTrades (summary r) = 0
  /\ averageWin (summary r) = 0%float
  /\ averageLoss (summary r) = 0%float
  /\ largestWin (summary r) = 0%float
  /\ largestLoss (summary r) = 0%float
  /\ profitFactor (summary r) = infinity.
Proof.
  intros Hr.
  destruct (runBacktest_inv _ _ _ _ _ Hr) as (fd & _ & Ht & _ & Hs).
  assert (Hnan : Forall nanTrade (trades r)).
  { rewrite Ht. apply simulate_poisoned. }
  rewrite Hs. unfold calculateSummary. simpl.
  rewrite !(filterTrades_nan _ _ eq_refl Hnan). simpl.
  repeat (split; [first [reflexivity|assumption]|]). reflexivity.
Qed.

Lemma runBacktest_summary_books_no_win_no_loss_witness :
  exists r,
    runBacktest Fixtures.engine Fixtures.defaultManager (Fixtures.clockAt 0)
                (Fixtures.configFor 50) = inr r
    /\ totalTrades (summary r) = 29
    /\ winningTrades (summary r) = 0
    /\ losingTrades (summary r) = 0
    /\ profitFactor (summary r) = infinity.
Proof.
  destruct (runBacktest Fixtures.engine Fixtures.defaultManager
                        (Fixtures.clockAt 0) (Fixtures.configFor 50))
    as [e|r] eqn:Hr; [vm_compute in Hr; discriminate|].
  exists r. split; [reflexivity|].
  destruct (runBacktest_summary_books_no_win_no_loss
              Fixtures.engine Fixtures.defaultManager (Fixtures.clockAt 0)
              (Fixtures.configFor 50) r Hr)
    as (Ht & _ & Hw & Hl & _ & _ & _ & _ & Hp).
  rewrite Ht, Hw, Hl, Hp.
  split; [|auto].
  vm_compute in Hr. injection Hr as <-. reflexivity.
Defined.

End RunFacts.

(** * Further properties of the strategies *)

Section StrategiesOnEngineBars.
Import Backtesting Spec.

Lemma latestOf_engine_bars (bars : list HistoricalData) (latest : MarketDatum) :
  latestOf (map asMarketDatum bars) = Some latest -> md_price latest = None.
Proof.
  unfold latestOf. intros E. apply nth_error_In, in_map_iff in E.
  destruct E as (b & <- & _). reflexivity.
Qed.

Lemma slice_last_nonempty {A} (n : nat) (xs : list A) :
  0 < n -> xs <> [] -> slice_last n xs <> [].
Proof.
  intros Hn Hxs E. apply (f_equal (@length _)) in E.
  unfold slice_last in E. destruct n; [lia|].
  rewrite length_skipn in E. simpl in E.
  destruct xs; [congruence|]. simpl in E. lia.
Qed.

Lemma slice_last_incl {A} (n : nat) (xs : list A) (x : A) :
  In x (slice_last n xs) -> In x xs.
Proof.
  unfold slice_last. destruct n; [auto|].
  generalize (length xs - S n). intros k. revert xs.
  induction k as [|k IH]; intros xs; simpl; [auto|].
  destruct xs; simpl; [auto|]. intros H. right. now apply IH.
Qed.

Lemma MachineLearning_analyze_without_price
      (infer : list MarketDatum -> option MachineLearningStrategy.AiResult)
      (clock : Clock) (bars : list HistoricalData) :
  bars <> [] ->
  exists latest,
    latestOf (map asMarketDatum bars) = Some latest
    /\ MachineLearningStrategy.analyze infer clock (map asMarketDatum bars)
       = Some (MachineLearningStrategy.getFallbackSignal clock latest).
Proof.
  intros Hne.
  assert (Hne' : map asMarketDatum bars <> []).
  { intros E. apply map_eq_nil in E. contradiction. }
  destruct (latestOf_nonempty _ Hne') as [latest Hl].
  exists latest. split; [exact Hl|].
  unfold MachineLearningStrategy.analyze. rewrite Hl.
  assert (Hex : existsb MachineLearningStrategy.priceMissing
                        (slice_last 20 (map asMarketDatum bars)) = true).
  { destruct (slice_last 20 (map asMarketDatum bars)) as [|d ds] eqn:E.
    - exfalso. revert E. apply slice_last_nonempty; [lia|exact Hne'].
    - assert (Hin : In d (map asMarketDatum bars)).
      { apply (slice_last_incl 20). rewrite E. now left. }
      apply in_map_iff in Hin. destruct Hin as (b & <- & _). reflexivity. }
  now rewrite Hex.
Qed.

(** X9. On the bars of the backtesting engine the machine-learning strategy
    never consults the inference service: the bars have no [price], building
    the prompt fails, and the answer is the fallback signal (hold, strength
    50, confidence 50, no stop-loss or take-profit) whatever the service
    would say. On an empty window it rejects. *)
Theorem MachineLearning_falls_back_on_engine_bars
        (infer : list MarketDatum -> option MachineLearningStrategy.AiResult)
        (clock : Clock) (bars : list HistoricalData) :
  MachineLearningStrategy.analyze infer clock [] = None
  /\ (bars <> [] ->
      exists latest s,
        latestOf (map asMarketDatum bars) = Some latest
        /\ MachineLearningStrategy.analyze infer clock (map asMarketDatum bars)
           = Some s
        /\ s = MachineLearningStrategy.getFallbackSignal clock latest
        /\ action s = hold
        /\ strength s = 50%float
        /\ confidence s = 50%float
        /\ stopLoss s = None
        /\ takeProfit s = None).
Proof.
  split; [reflexivity|]. intros Hne.
  destruct (MachineLearning_analyze_without_price infer clock bars Hne)
    as (latest & Hl & Ha).
  exists latest, (MachineLearningStrategy.getFallbackSignal clock latest).
  split; [exact Hl|]. split; [exact Ha|repeat split].
Qed.

Lemma MachineLearning_falls_back_on_engine_bars_witness :
  Fixtures.fallingSeries 21 <> []
  /\ exists latest s,
       latestOf (map asMarketDatum (Fixtures.fallingSeries 21)) = Some latest
       /\ MachineLearningStrategy.analyze
            (fun _ => Some {| MachineLearningStrategy.ai_action := sell;
                              MachineLearningStrategy.ai_strength := 90%float;
                              MachineLearningStrategy.ai_confidence := 90%float;
                              MachineLearningStrategy.ai_reason := "sell" |})
            (Fixtures.clockAt 0 0)
            (map asMarketDatum (Fixtures.fallingSeries 21))
          = Some s
       /\ s = MachineLearningStrategy.getFallbackSignal
                (Fixtures.clockAt 0 0) latest
       /\ action s = hold
       /\ strength s = 50%float
       /\ confidence s = 50%float
       /\ stopLoss s = None
       /\ takeProfit s = None.
Proof.
  split; [vm_compute; discriminate|].
  apply (MachineLearning_falls_back_on_engine_bars
           (fun _ => Some {| MachineLearningStrategy.ai_action := sell;
                             MachineLearningStrategy.ai_strength := 90%float;
                             MachineLearningStrategy.ai_confidence := 90%float;
                             MachineLearningStrategy.ai_reason := "sell" |})
           (Fixtures.clockAt 0 0) (Fixtures.fallingSeries 21)).
  vm_compute. discriminate.
Defined.

End StrategiesOnEngineBars.

Section DefaultManager.
Import Backtesting Spec.

Variable Number_toFixed : float -> nat -> string.
Variable infer : list MarketDatum -> option MachineLearningStrategy.AiResult.
Variable Math_random : Clock -> list MarketDatum -> float.

Lemma TechnicalAnalysis_analyze_answers (parameters : StrategyParameters)
      (clock : Clock) (marketData : list MarketDatum) (latest : MarketDatum) :
  latestOf marketData = Some latest ->
  exists s,
    TechnicalAnalysisStrategy.analyze Number_toFixed parameters clock marketData
    = Some s.
Proof.
  intros Hl. unfold TechnicalAnalysisStrategy.analyze. rewrite Hl.
  destruct (2 <=? _); [eauto|]. destruct (2 <=? _); eauto.
Qed.

Lemma Arbitrage_analyze_answers (clock : Clock)
      (marketData : list MarketDatum) (latest : MarketDatum) :
  latestOf marketData = Some latest ->
  exists s,
    ArbitrageStrategy.analyze Number_toFixed Math_random clock marketData
    = Some s
    /\ action s <> sell.
Proof.
  intros Hl. unfold ArbitrageStrategy.analyze. rewrite Hl.
  destruct (PrimFloat.ltb _ _); eexists; (split; [reflexivity|]);
    simpl; discriminate.
Qed.

Lemma default_strategies_all_active (name : string) :
  In name ["technical"; "ml"; "arbitrage"] ->
  bool_decide
    (name ∈ StrategyManager.activeStrategies
              (StrategyManager.initializeStrategies
                 Number_toFixed infer Math_random)) = true.
Proof.
  simpl. intros [<-|[<-|[<-|[]]]]; vm_compute; reflexivity.
Qed.

(** What the three strategies of the manager as constructed answer on a
    non-empty window of engine bars. *)
Lemma default_signals_on_engine_bars (clock : Clock) (symbol : string)
      (bars : list HistoricalData) :
  bars <> [] ->
  exists t m a,
    StrategyManager.analyzeSymbol
      (StrategyManager.initializeStrategies Number_toFixed infer Math_random)
      clock symbol (map asMarketDatum bars)
    = [t; m; a]
    /\ action m = hold /\ action a <> sell.
Proof.
  intros Hne.
  destruct (MachineLearning_analyze_without_price infer clock bars Hne)
    as (latest & Hl & Hm).
  set (m := MachineLearningStrategy.getFallbackSignal clock latest) in Hm.
  assert (Hmh : action m = hold) by reflexivity.
  destruct (TechnicalAnalysis_analyze_answers
              StrategyManager.defaultParameters clock _ _ Hl) as [t Ht].
  destruct (Arbitrage_analyze_answers clock _ _ Hl) as (a & Ha & Hns).
  exists t, m, a. split; [|auto].
  unfold StrategyManager.analyzeSymbol.
  change (StrategyManager.strategies
            (StrategyManager.initializeStrategies
               Number_toFixed infer Math_random))
    with [ ("technical",
            {| analyze := TechnicalAnalysisStrategy.analyze
                            Number_toFixed StrategyManager.defaultParameters |});
           ("ml", {| analyze := MachineLearningStrategy.analyze infer |});
           ("arbitrage",
            {| analyze := ArbitrageStrategy.analyze
                            Number_toFixed Math_random |}) ].
  cbn [flat_map analyze].
  rewrite !default_strategies_all_active by (simpl; auto).
  now rewrite Ht, Hm, Ha.
Qed.

(** X10. With the three strategies of the manager as constructed all
    active, the consensus on engine bars is never a sell: the machine
    learning strategy holds, the arbitrage strategy buys or holds, and the
    technical strategy alone is one vote of three. So every trade such a
    run records is a buy. *)
Theorem default_manager_never_sells
        (engine : BacktestingEngine) (clock : nat -> Clock)
        (c : BacktestConfig) (r : BacktestResult) :
  (forall (now : Clock) (symbol : string) (bars : list HistoricalData)
          (s : StrategySignal),
      StrategyManager.getConsensusSignal
        (StrategyManager.initializeStrategies Number_toFixed infer Math_random)
        now symbol (map asMarketDatum bars) = inr (Some s) ->
      action s <> sell)
  /\ (runBacktest engine
                  (StrategyManager.initializeStrategies
                     Number_toFixed infer Math_random)
                  clock c = inr r ->
      Forall (fun t => type_ t = buy) (trades r)).
Proof.
  assert (Hcons : forall (now : Clock) (symbol : string)
                         (bars : list HistoricalData) (s : StrategySignal),
             StrategyManager.getConsensusSignal
               (StrategyManager.initializeStrategies
                  Number_toFixed infer Math_random)
               now symbol (map asMarketDatum bars) = inr (Some s) ->
             action s <> sell).
  { intros now symbol bars s Hs.
    destruct bars as [|b bars]; [vm_compute in Hs; discriminate|].
    destruct (default_signals_on_engine_bars now symbol (b :: bars))
      as (t & m & a & Hsig & Hm & Ha); [discriminate|].
    pose proof (getConsensusSignal_cases
                  (StrategyManager.initializeStrategies
                     Number_toFixed infer Math_random)
                  now symbol (map asMarketDatum (b :: bars))) as Hc.
    cbv zeta in Hc. rewrite Hsig in Hc.
    destruct Hc as [[Hmaj [Hthrow|(s' & Hs' & Hact & _)]]|[_ Hn]];
      [discriminate|congruence| |congruence].
    assert (s' = s) by congruence. subst s'.
    rewrite Hact. intros Hsell. rewrite Hsell in Hmaj.
    unfold votesFor, votersOf in Hmaj. simpl in Hmaj.
    rewrite Hm in Hmaj. simpl in Hmaj.
    destruct (action a); try congruence;
      destruct (action t); simpl in Hmaj; lia. }
  split; [exact Hcons|].
  intros Hr.
  destruct (runBacktest_inv _ _ _ _ _ Hr) as (fd & _ & -> & _).
  unfold simulate.
  assert (H0 : Forall (fun t => type_ t = buy) (st_trades (initialState c)))
    by constructor.
  revert H0. generalize (initialState c).
  induction (iteratedBars fd) as [|i idxs IH]; intros st Hst; simpl;
    [exact Hst|].
  apply IH. unfold processBar.
  destruct (nth_error fd i) as [bar|]; [|exact Hst].
  destruct (StrategyManager.getConsensusSignal _ _ _ _) as [e|[cs|]] eqn:E;
    [exact Hst| |exact Hst].
  destruct (Action_eqb (action cs) hold) eqn:Eh; [exact Hst|].
  destruct (nth_error fd (i + 1)) as [next|]; [|exact Hst].
  simpl. apply Forall_app. split; [exact Hst|].
  constructor; [|constructor]. simpl.
  apply Hcons in E. destruct (action cs); simpl in Eh; congruence.
Qed.

End DefaultManager.

Section DefaultManagerExample.
Import Backtesting Spec.

Lemma default_manager_never_sells_witness :
  exists r,
    runBacktest Fixtures.engine Fixtures.defaultManager (Fixtures.clockAt 0)
                (Fixtures.configFor 50) = inr r
    /\ length (trades r) = 29
    /\ Forall (fun t => type_ t = buy) (trades r).
Proof.
  destruct (runBacktest Fixtures.engine Fixtures.defaultManager
                        (Fixtures.clockAt 0) (Fixtures.configFor 50))
    as [e|r] eqn:Hr; [vm_compute in Hr; discriminate|].
  exists r. split; [reflexivity|]. split.
  - vm_compute in Hr. injection Hr as <-. reflexivity.
  - exact (proj2 (default_manager_never_sells
                    (fun _ _ => "0.0") (fun _ => None) (fun _ _ => 0.5%float)
                    Fixtures.engine (Fixtures.clockAt 0)
                    (Fixtures.configFor 50) r) Hr).
Defined.

End DefaultManagerExample.

Set Warnings "-clear-no-such-hyp".

Section ManagerEdges.
Import Spec.

(** X11. On an empty window [getConsensusSignal] raises a [TypeError]
    (it reads [price] of an undefined bar) exactly when some action holds a
    strict majority of the signals; without one it answers [null]. The three
    strategies of the manager as constructed all reject an empty window, so
    there it answers [null]. The signals are those of the declared type
    [StrategySignal], whose action is buy, sell or hold. *)
Theorem getConsensusSignal_on_empty_window (m : StrategyManager.t)
        (clock : Clock) (symbol : string) :
  (StrategyManager.getConsensusSignal m clock symbol [] = inl TypeError
   <-> length (StrategyManager.analyzeSymbol m clock symbol [])
       < 2 * votesFor (winnerOf (StrategyManager.analyzeSymbol m clock symbol []))
                      (StrategyManager.analyzeSymbol m clock symbol []))
  /\ (StrategyManager.getConsensusSignal m clock symbol [] = inr None
      <-> 2 * votesFor (winnerOf (StrategyManager.analyzeSymbol m clock symbol []))
                       (StrategyManager.analyzeSymbol m clock symbol [])
          <= length (StrategyManager.analyzeSymbol m clock symbol []))
  /\ (forall toFixed infer random,
         StrategyManager.analyzeSymbol
           (StrategyManager.initializeStrategies toFixed infer random)
           clock symbol [] = []
         /\ StrategyManager.getConsensusSignal
              (StrategyManager.initializeStrategies toFixed infer random)
              clock symbol [] = inr None).
Proof.
  assert (Hcase :
    StrategyManager.getConsensusSignal m clock symbol []
    = if gt_half (votesFor (winnerOf (StrategyManager.analyzeSymbol m clock symbol []))
                           (StrategyManager.analyzeSymbol m clock symbol []))
                 (length (StrategyManager.analyzeSymbol m clock symbol []))
      then inl TypeError else inr None).
  { unfold StrategyManager.getConsensusSignal.
    destruct (StrategyManager.analyzeSymbol m clock symbol []) as [|s0 rest] eqn:E.
    - reflexivity.
    - rewrite <- E. fold (winnerOf (StrategyManager.analyzeSymbol m clock symbol [])).
      rewrite tally_votes_empty.
      destruct (gt_half _ _); reflexivity. }
  rewrite Hcase.
  destruct (gt_half _ _) eqn:Hg.
  - apply gt_half_spec in Hg.
    split; [tauto|]. split; [split; [discriminate|lia]|].
    intros. split; vm_compute; reflexivity.
  - apply not_true_iff_false in Hg. rewrite gt_half_spec in Hg.
    split; [split; [discriminate|lia]|]. split; [split; [lia|reflexivity]|].
    intros. split; vm_compute; reflexivity.
Qed.

Lemma getConsensusSignal_on_empty_window_witness :
  StrategyManager.getConsensusSignal
    {| StrategyManager.strategies := [ ("a", Fixtures.constantSignal buy 90%float) ];
       StrategyManager.activeStrategies := {[ "a" ]} |}
    (Fixtures.clockAt 0 0) "X" [] = inl TypeError.
Proof.
  apply (getConsensusSignal_on_empty_window
           {| StrategyManager.strategies :=
                [ ("a", Fixtures.constantSignal buy 90%float) ];
              StrategyManager.activeStrategies := {[ "a" ]} |}
           (Fixtures.clockAt 0 0) "X").
  vm_compute. lia.
Defined.

Lemma analyzeSymbol_ext (strategies : list (string * Strategy))
      (active1 active2 : gset string) (clock : Clock) (symbol : string)
      (marketData : list MarketDatum) :
  (forall name, In name (map fst strategies) ->
                (name ∈ active1 <-> name ∈ active2)) ->
  StrategyManager.analyzeSymbol
    {| StrategyManager.strategies := strategies;
       StrategyManager.activeStrategies := active1 |} clock symbol marketData
  = StrategyManager.analyzeSymbol
      {| StrategyManager.strategies := strategies;
         StrategyManager.activeStrategies := active2 |} clock symbol marketData.
Proof.
  unfold StrategyManager.analyzeSymbol. simpl.
  induction strategies as [|[name s] rest IH]; intros Hact; simpl;
    [reflexivity|].
  rewrite IH by (intros n Hn; apply Hact; now right).
  rewrite (bool_decide_ext _ _ (Hact name (or_introl eq_refl))).
  reflexivity.
Qed.

(** X12. Only registered strategies that are active contribute a signal.
    Activating a name that is not registered changes nothing; deactivating
    a name silences the strategies registered under it and none else, and
    activating it again restores them; with no active strategy there is no
    signal and the consensus is [null]; and there are never more signals
    than registered strategies. *)
Theorem analyzeSymbol_and_activation (m : StrategyManager.t)
        (strategyName : string) (clock : Clock) (symbol : string)
        (marketData : list MarketDatum) :
  (~ In strategyName (map fst (StrategyManager.strategies m)) ->
   StrategyManager.analyzeSymbol
     (StrategyManager.activateStrategy m strategyName) clock symbol marketData
   = StrategyManager.analyzeSymbol m clock symbol marketData)
  /\ StrategyManager.analyzeSymbol
       (StrategyManager.deactivateStrategy m strategyName)
       clock symbol marketData
     = StrategyManager.analyzeSymbol
         {| StrategyManager.strategies :=
              filter (fun entry => negb (String.eqb (fst entry) strategyName))
                     (StrategyManager.strategies m);
            StrategyManager.activeStrategies :=
              StrategyManager.activeStrategies m |}
         clock symbol marketData
  /\ StrategyManager.analyzeSymbol
       (StrategyManager.activateStrategy
          (StrategyManager.deactivateStrategy m strategyName) strategyName)
       clock symbol marketData
     = StrategyManager.analyzeSymbol
         (StrategyManager.activateStrategy m strategyName)
         clock symbol marketData
  /\ (StrategyManager.activeStrategies m = ∅ ->
      StrategyManager.analyzeSymbol m clock symbol marketData = []
      /\ StrategyManager.getConsensusSignal m clock symbol marketData
         = inr None)
  /\ length (StrategyManager.analyzeSymbol m clock symbol marketData)
     <= length (StrategyManager.strategies m).
Proof.
  destruct m as [strategies active]. simpl.
  split; [|split; [|split; [|split]]].
  - intros Hnot. unfold StrategyManager.activateStrategy. simpl.
    apply analyzeSymbol_ext. intros name Hin.
    assert (name <> strategyName) by congruence. set_solver.
  - unfold StrategyManager.deactivateStrategy, StrategyManager.analyzeSymbol.
    simpl. induction strategies as [|[name s] rest IH]; simpl; [reflexivity|].
    rewrite IH. destruct (String.eqb_spec name strategyName) as [->|Hne]; simpl.
    + rewrite bool_decide_eq_false_2 by set_solver. reflexivity.
    + rewrite (bool_decide_ext (name ∈ active ∖ {[strategyName]})
                               (name ∈ active)) by set_solver.
      reflexivity.
  - unfold StrategyManager.activateStrategy, StrategyManager.deactivateStrategy.
    simpl. apply analyzeSymbol_ext. intros name _.
    destruct (decide (name = strategyName)); set_solver.
  - intros ->.
    assert (Hnil : StrategyManager.analyzeSymbol
                     {| StrategyManager.strategies := strategies;
                        StrategyManager.activeStrategies := ∅ |}
                     clock symbol marketData = []).
    { unfold StrategyManager.analyzeSymbol. simpl.
      induction strategies as [|[name s] rest IH]; simpl; [reflexivity|].
      rewrite IH. rewrite bool_decide_eq_false_2 by set_solver. reflexivity. }
    split; [exact Hnil|].
    unfold StrategyManager.getConsensusSignal. now rewrite Hnil.
  - unfold StrategyManager.analyzeSymbol. simpl.
    induction strategies as [|[name s] rest IH]; simpl; [lia|].
    rewrite length_app.
    destruct (bool_decide _); [destruct (analyze s clock marketData)|];
      simpl; lia.
Qed.

Lemma analyzeSymbol_and_activation_witness :
  ~ In "momentum" (map fst (StrategyManager.strategies Fixtures.defaultManager))
  /\ StrategyManager.analyzeSymbol
       (StrategyManager.activateStrategy Fixtures.defaultManager "momentum")
       (Fixtures.clockAt 0 0) "X" (Fixtures.window 21)
     = StrategyManager.analyzeSymbol Fixtures.defaultManager
         (Fixtures.clockAt 0 0) "X" (Fixtures.window 21).
Proof.
  assert (H : ~ In "momentum"
                (map fst (StrategyManager.strategies Fixtures.defaultManager))).
  { simpl. intros [E|[E|[E|[]]]]; discriminate. }
  split; [exact H|].
  exact (proj1 (analyzeSymbol_and_activation
                  Fixtures.defaultManager "momentum"
                  (Fixtures.clockAt 0 0) "X" (Fixtures.window 21)) H).
Defined.

End ManagerEdges.

Section TechnicalSignal.
Import TechnicalAnalysisStrategy.

Lemma ltb_irrefl (x : float) : PrimFloat.ltb x x = false.
Proof.
  rewrite FloatAxioms.ltb_spec. unfold SFltb, SFcompare.
  destruct (Prim2SF x) as [s|s| |s m e]; try reflexivity.
  - destruct s; reflexivity.
  - rewrite Z.compare_refl.
    change (PosDef.Pos.compare_cont Eq m m) with (Pos.compare_cont Eq m m).
    rewrite Pos.compare_cont_refl. destruct s; reflexivity.
Qed.

Lemma filter_from_length (k n s : nat) :
  length (filter (fun i => negb (i <? k)) (seq s n)) <= n
  /\ length (filter (fun i => negb (i <? k)) (seq s n)) <= s + n - k.
Proof.
  revert s. induction n as [|n IH]; intros s; simpl; [lia|].
  destruct (IH (S s)) as [H1 H2].
  destruct (Nat.ltb_spec s k); simpl; lia.
Qed.

(** X13. Up to 35 bars the MACD of the technical strategy casts no vote:
    its signal line is the MACD itself (there are at most nine past MACD
    values, and the 9-period EMA needs more than nine), so the MACD is
    neither above nor below it. *)
Theorem calculateMACD_silent_until_36_bars (data : list MarketDatum) :
  length data <= 35 ->
  signal (calculateMACD data) = macd (calculateMACD data)
  /\ PrimFloat.ltb (signal (calculateMACD data)) (macd (calculateMACD data))
       && PrimFloat.ltb 0%float (histogram (calculateMACD data)) = false
  /\ PrimFloat.ltb (macd (calculateMACD data)) (signal (calculateMACD data))
       && PrimFloat.ltb (histogram (calculateMACD data)) 0%float = false.
Proof.
  intros Hlen.
  assert (Hsig : signal (calculateMACD data) = macd (calculateMACD data)).
  { unfold calculateMACD. cbn [signal macd].
    rewrite length_map.
    destruct (filter_from_length 26 (length data) 0) as [_ Hf].
    destruct (Nat.ltb_spec 9 (length (filter (fun i => negb (i <? 26))
                                             (seq 0 (length data)))));
      [lia|reflexivity]. }
  split; [exact Hsig|]. rewrite Hsig, !ltb_irrefl. auto.
Qed.

Lemma calculateMACD_silent_until_36_bars_witness :
  length (Fixtures.window 35) <= 35
  /\ signal (calculateMACD (Fixtures.window 35))
     = macd (calculateMACD (Fixtures.window 35)).
Proof.
  split; [vm_compute; lia|].
  apply (calculateMACD_silent_until_36_bars (Fixtures.window 35)).
  vm_compute. lia.
Defined.

(** X14. The technical strategy rejects an empty window and answers any
    other. Its answer has one of three shapes: a hold with strength 0 and
    confidence 0, without stop-loss or take-profit; or a buy or sell backed
    by two indicators, with strength 66 and confidence 2/3 of 100; or one
    backed by three, with strength 99 and confidence 100. A buy or sell
    carries the stop-loss and take-profit computed from the 14-period ATR. *)
Theorem TechnicalAnalysis_signal_shapes
        (toFixed : float -> nat -> string) (parameters : StrategyParameters)
        (clock : Clock) (marketData : list MarketDatum) :
  (marketData = [] <-> analyze toFixed parameters clock marketData = None)
  /\ (forall s,
         analyze toFixed parameters clock marketData = Some s ->
         (action s = hold
          /\ strength s = 0%float /\ confidence s = 0%float
          /\ stopLoss s = None /\ takeProfit s = None)
         \/ (action s <> hold
             /\ ((strength s = 66%float /\ confidence s = (2 / 3 * 100)%float)
                 \/ (strength s = 99%float /\ confidence s = 100%float))
             /\ stopLoss s
                = Some (TradingStrategy.calculateStopLoss
                          (entryPrice s) (action s)
                          (TradingStrategy.calculateATR marketData 14))
             /\ takeProfit s
                = Some (TradingStrategy.calculateTakeProfit
                          (entryPrice s) (action s)
                          (TradingStrategy.calculateATR marketData 14)))).
Proof.
  split.
  - split.
    + intros ->. unfold analyze.
      repeat match goal with
             | |- context [if ?b then _ else _] => destruct b
             end; reflexivity.
    + destruct marketData as [|d ds]; [reflexivity|].
      unfold analyze.
      destruct (latestOf_nonempty (d :: ds)) as [latest ->]; [discriminate|].
      repeat match goal with
             | |- context [if ?b then _ else _] => destruct b
             end; discriminate.
  - intros s. unfold analyze.
    repeat match goal with
           | |- context [PrimFloat.ltb ?a ?b] =>
               generalize (PrimFloat.ltb a b); intro
           end.
    destruct (latestOf marketData) as [latest|];
      [|repeat match goal with
               | |- context [if ?b then _ else _] => destruct b
               end; discriminate].
    repeat match goal with b : bool |- _ => destruct b end;
      intros E; injection E as <-; cbn [action strength confidence stopLoss
                                         takeProfit entryPrice Action_eqb];
      first [ left; repeat split; reflexivity
            | right; split; [discriminate|];
              split; [first [left; split; reflexivity
                            |right; split; reflexivity]|];
              split; reflexivity ].
Qed.

Lemma TechnicalAnalysis_signal_shapes_witness :
  match analyze (fun _ _ => "0.0") StrategyManager.defaultParameters
                (Fixtures.clockAt 0 0) (Fixtures.window 30) with
  | Some s =>
      action s = buy
      /\ strength s = 66%float
      /\ stopLoss s
         = Some (TradingStrategy.calculateStopLoss
                   (entryPrice s) (action s)
                   (TradingStrategy.calculateATR (Fixtures.window 30) 14))
  | None => False
  end.
Proof.
  destruct (analyze (fun _ _ => "0.0") StrategyManager.defaultParameters
                    (Fixtures.clockAt 0 0) (Fixtures.window 30))
    as [s|] eqn:E.
  - pose proof E as E'. vm_compute in E'. injection E' as E'.
    destruct (proj2 (TechnicalAnalysis_signal_shapes
                       (fun _ _ => "0.0") StrategyManager.defaultParameters
                       (Fixtures.clockAt 0 0) (Fixtures.window 30)) s E)
      as [[Hh _]|[_ [Hs [Hl _]]]].
    + rewrite <- E' in Hh. discriminate Hh.
    + split; [rewrite <- E'; reflexivity|].
      split; [|exact Hl].
      rewrite <- E'. reflexivity.
  - vm_compute in E. discriminate E.
Defined.

End TechnicalSignal.

(** ** The strategies' own backtests *)

Section StrategyBacktests.
Import StrategyBacktest.

Lemma filter_split_length {A} (f : A -> bool) (l : list A) :
  length (filter f l) + length (filter (fun x => negb (f x)) l) = length l.
Proof.
  induction l as [|x l IH]; simpl; [reflexivity|].
  destruct (f x); simpl; lia.
Qed.

Lemma or_zero_not_nan (x : float) :
  PrimFloat.is_nan (toNumber (JS.or (Some x) (Some 0%float))) = false.
Proof.
  unfold JS.or, truthy.
  destruct (PrimFloat.is_zero x); simpl; [reflexivity|].
  destruct (PrimFloat.is_nan x) eqn:E; simpl; [reflexivity|exact E].
Qed.

Lemma latestOf_firstn {A} (xs : list A) (i : nat) :
  xs <> [] -> exists x, latestOf (firstn (i + 1) xs) = Some x.
Proof.
  intros Hne. apply latestOf_nonempty.
  destruct xs as [|x xs]; [congruence|].
  rewrite Nat.add_1_r. discriminate.
Qed.

Section Loop.
Variable analyze : Clock -> list MarketDatum -> option StrategySignal.
Variable traded : StrategySignal -> bool.
Variable parameters : StrategyParameters.
Variable clock : nat -> Clock.
Variable historicalData : list MarketDatum.

Hypothesis analyze_answers :
  forall c data latest, latestOf data = Some latest ->
                        exists s, analyze c data = Some s.

Lemma iteration_returns (acc : Account) (i : nat) :
  i + 1 < length historicalData ->
  exists acc',
    iteration analyze traded parameters clock historicalData acc i = inr acc'
    /\ length (trades acc') <= S (length (trades acc)).
Proof.
  intros Hi. unfold iteration.
  destruct (latestOf_firstn historicalData i) as [latest Hl].
  { destruct historicalData; simpl in Hi; [lia|discriminate]. }
  destruct (analyze_answers (clock i) _ _ Hl) as [signal ->].
  destruct (traded signal); [|eexists; split; [reflexivity|lia]].
  destruct (PrimFloat.ltb _ _); [eexists; split; [reflexivity|lia]|].
  destruct (nth_error historicalData (i + 1)) as [nextData|] eqn:En.
  - eexists; split; [reflexivity|].
    cbn [trades]. rewrite length_app. simpl. lia.
  - apply nth_error_None in En. lia.
Qed.

Lemma fold_iteration_returns (is_ : list nat) (acc : Account) :
  Forall (fun i => i + 1 < length historicalData) is_ ->
  exists acc',
    fold_left
      (fun st i =>
         match st with
         | inl e => inl e
         | inr a => iteration analyze traded parameters clock historicalData a i
         end) is_ (inr acc) = inr acc'
    /\ length (trades acc') <= length (trades acc) + length is_.
Proof.
  revert acc. induction is_ as [|i is_ IH]; intros acc Hall.
  - exists acc. split; [reflexivity|simpl; lia].
  - apply Forall_cons_iff in Hall. destruct Hall as [Hi Hall].
    destruct (iteration_returns acc i Hi) as (acc1 & E1 & L1).
    destruct (IH acc1 Hall) as (acc' & E' & L').
    exists acc'. split.
    + cbn [fold_left]. rewrite E1. exact E'.
    + simpl. lia.
Qed.

Lemma iterations_in_range :
  Forall (fun i => i + 1 < length historicalData)
         (iterations historicalData).
Proof.
  apply List.Forall_forall. intros i Hi. unfold iterations in Hi.
  apply in_seq in Hi. lia.
Qed.

Lemma backtest_returns :
  exists r,
    backtest analyze traded parameters clock historicalData = inr r
    /\ winningTrades r + losingTrades r = totalTrades r
    /\ totalTrades r <= length historicalData - 51
    /\ PrimFloat.is_nan (averageWin r) = false
    /\ PrimFloat.is_nan (averageLoss r) = false.
Proof.
  destruct (fold_iteration_returns (iterations historicalData)
              startingAccount iterations_in_range) as (acc & E & L).
  unfold backtest, loop. rewrite E. eexists. split; [reflexivity|].
  cbn [report winningTrades losingTrades totalTrades averageWin averageLoss].
  split; [apply filter_split_length|].
  split.
  - unfold iterations in L. rewrite length_seq in L. simpl in L. lia.
  - split; apply or_zero_not_nan.
Qed.

End Loop.

Lemma backtest_short (analyze : Clock -> list MarketDatum -> option StrategySignal)
      (traded : StrategySignal -> bool) (parameters : StrategyParameters)
      (clock : nat -> Clock) (historicalData : list MarketDatum) :
  length historicalData <= 51 ->
  backtest analyze traded parameters clock historicalData
  = inr Further.noTradeReport.
Proof.
  intros H. unfold backtest, loop, iterations.
  replace (length historicalData - 1 - 50) with 0 by lia.
  reflexivity.
Qed.

Lemma MachineLearning_analyze_answers
      (infer : list MarketDatum -> option MachineLearningStrategy.AiResult)
      (c : Clock) (data : list MarketDatum) (latest : MarketDatum) :
  latestOf data = Some latest ->
  exists s, MachineLearningStrategy.analyze infer c data = Some s.
Proof.
  intros Hl. unfold MachineLearningStrategy.analyze. rewrite Hl.
  destruct (existsb _ _); [eauto|]. destruct (infer data); eauto.
Qed.

(** X15. The technical strategy's own backtest returns a report on every
    series, the empty one included. The report counts every trade as
    winning or losing (a trade without profit, or with a [NaN] profit, is a
    losing one), it holds at most one trade per bar from index 50 to the
    last but one, and its average win and average loss are never [NaN]. *)
Theorem TechnicalAnalysis_backtest_report
        (Number_toFixed : float -> nat -> string)
        (parameters : StrategyParameters) (clock : nat -> Clock)
        (historicalData : list MarketDatum) :
  exists r,
    TechnicalAnalysisStrategy_backtest Number_toFixed parameters clock
                                       historicalData = inr r
    /\ winningTrades r + losingTrades r = totalTrades r
    /\ totalTrades r <= length historicalData - 51
    /\ PrimFloat.is_nan (averageWin r) = false
    /\ PrimFloat.is_nan (averageLoss r) = false.
Proof.
  apply backtest_returns. intros c data latest Hl.
  exact (TechnicalAnalysis_analyze_answers Number_toFixed parameters
                                           c data latest Hl).
Qed.

Lemma loop_without_traded_signal
      (analyze : Clock -> list MarketDatum -> option StrategySignal)
      (traded : StrategySignal -> bool) (parameters : StrategyParameters)
      (clock : nat -> Clock) (historicalData : list MarketDatum) :
  (forall c data latest, latestOf data = Some latest ->
                         exists s, analyze c data = Some s
                                   /\ traded s = false) ->
  loop analyze traded parameters clock historicalData = inr startingAccount.
Proof.
  intros Hq. unfold loop.
  pose proof (iterations_in_range historicalData) as Hall.
  induction (iterations historicalData) as [|i is_ IH]; [reflexivity|].
  apply Forall_cons_iff in Hall. destruct Hall as [Hi Hall].
  cbn [fold_left]. unfold iteration at 2.
  destruct (latestOf_firstn historicalData i) as [latest Hl].
  { destruct historicalData; simpl in Hi; [lia|discriminate]. }
  destruct (Hq (clock i) _ _ Hl) as (s & -> & ->).
  exact (IH Hall).
Qed.

(** X16. When the inference service gives no answer, the machine-learning
    strategy's own backtest makes no trade on any series and reports no
    trade, a return of 0, a Sharpe ratio of 0 and a profit factor of
    Infinity. *)
Theorem MachineLearning_backtest_without_inference
        (infer : list MarketDatum -> option MachineLearningStrategy.AiResult)
        (parameters : StrategyParameters) (clock : nat -> Clock)
        (historicalData : list MarketDatum) :
  (forall data, infer data = None) ->
  MachineLearningStrategy_backtest infer parameters clock historicalData
  = inr Further.noTradeReport.
Proof.
  intros Hdown. unfold MachineLearningStrategy_backtest, backtest.
  rewrite loop_without_traded_signal; [reflexivity|].
  intros c data latest Hl. unfold MachineLearningStrategy.analyze.
  rewrite Hl, Hdown. destruct (existsb _ _); eexists; split; reflexivity.
Qed.

Lemma MachineLearning_backtest_without_inference_witness :
  MachineLearningStrategy_backtest
    (fun _ => None) StrategyManager.defaultParameters (Fixtures.clockAt 0)
    (Fixtures.window 60)
  = inr Further.noTradeReport.
Proof.
  apply (MachineLearning_backtest_without_inference
           (fun _ => None) StrategyManager.defaultParameters
           (Fixtures.clockAt 0) (Fixtures.window 60)).
  intros data. reflexivity.
Defined.

(** X17. On a series of at most 51 bars the technical and the
    machine-learning strategy's own backtests look at no bar: both report
    no trade, a return of 0, a Sharpe ratio of 0 and a profit factor of
    Infinity, whatever the bars hold. *)
Theorem strategy_backtests_need_52_bars
        (Number_toFixed : float -> nat -> string)
        (infer : list MarketDatum -> option MachineLearningStrategy.AiResult)
        (parameters : StrategyParameters) (clock : nat -> Clock)
        (historicalData : list MarketDatum) :
  length historicalData <= 51 ->
  TechnicalAnalysisStrategy_backtest Number_toFixed parameters clock
                                     historicalData
  = inr Further.noTradeReport
  /\ MachineLearningStrategy_backtest infer parameters clock historicalData
     = inr Further.noTradeReport.
Proof.
  intros H. split; apply backtest_short; exact H.
Qed.

Lemma strategy_backtests_need_52_bars_witness :
  TechnicalAnalysisStrategy_backtest
    (fun _ _ => "0.0") StrategyManager.defaultParameters (Fixtures.clockAt 0)
    (Fixtures.window 51)
  = inr Further.noTradeReport
  /\ MachineLearningStrategy_backtest
       (fun _ => None) StrategyManager.defaultParameters (Fixtures.clockAt 0)
       (Fixtures.window 51)
     = inr Further.noTradeReport.
Proof.
  apply (strategy_backtests_need_52_bars
           (fun _ _ => "0.0") (fun _ => None)
           StrategyManager.defaultParameters (Fixtures.clockAt 0)
           (Fixtures.window 51)).
  vm_compute. lia.
Defined.

End StrategyBacktests.

(** ** More on the order of binary64 numbers *)

Section FloatOrderMore.
Local Open Scope Z_scope.






Lemma leb_of_is_zero (a : float) :
  PrimFloat.is_zero a = true -> (a <=? 0)%float = true.
Proof.
  unfold PrimFloat.is_zero.
  rewrite FloatAxioms.eqb_spec, FloatAxioms.leb_spec.
  unfold SFeqb, SFleb. destruct (SFcompare _ _) as [[]|]; congruence.
Qed.

Lemma ltb_nan_r (a : float) : (a <? nan)%float = false.
Proof.
  rewrite FloatAxioms.ltb_spec. change (Prim2SF nan) with S754_nan.
  unfold SFltb. destruct (Prim2SF a); reflexivity.
Qed.

Lemma is_nan_of_leb (a b : float) :
  (a <=? b)%float = true -> PrimFloat.is_nan a = false.
Proof.
  unfold PrimFloat.is_nan.
  rewrite FloatAxioms.eqb_spec, FloatAxioms.leb_spec.
  unfold SFeqb, SFleb.
  destruct (Prim2SF a) as [s|s| |s m e]; simpl;
    try reflexivity; try discriminate.
  - destruct s; reflexivity.
  - intros _. change (IntDef.Z.compare e e) with (Z.compare e e).
    rewrite Z.compare_refl.
    change (PosDef.Pos.compare_cont Eq m m) with (Pos.compare m m).
    rewrite Pos.compare_refl. destruct s; reflexivity.
Qed.

End FloatOrderMore.

(** ** The execution service *)

Section ExecutionService.
Import Execution.
Context {Callback : Type}.
Implicit Types (s : TradingExecutionService Callback).

Lemma get_set_same {A} (m : JSMap.t A) (k : string) (v : A) :
  JSMap.get (JSMap.set m k v) k = Some v.
Proof.
  induction m as [|[k' v'] m IH]; simpl.
  - now rewrite String.eqb_refl.
  - destruct (String.eqb k' k) eqn:E; simpl; rewrite E; auto.
Qed.

Lemma get_set_other {A} (m : JSMap.t A) (k k' : string) (v : A) :
  k <> k' -> JSMap.get (JSMap.set m k v) k' = JSMap.get m k'.
Proof.
  intros Hne. induction m as [|[k0 v0] m IH]; simpl.
  - destruct (String.eqb_spec k k'); [contradiction|reflexivity].
  - destruct (String.eqb_spec k0 k); simpl.
    + subst k0. destruct (String.eqb_spec k k'); [contradiction|reflexivity].
    + destruct (String.eqb k0 k'); auto.
Qed.

Lemma in_set {A} (m : JSMap.t A) (k : string) (v : A) (e : string * A) :
  In e (JSMap.set m k v) -> e = (k, v) \/ In e m.
Proof.
  induction m as [|[k0 v0] m IH]; simpl.
  - intros [<-|[]]. now left.
  - destruct (String.eqb_spec k0 k); simpl.
    + subst k0. intros [<-|H]; auto.
    + intros [<-|H]; auto. destruct (IH H); auto.
Qed.


Lemma updatePosition_keeps s (order : Order.t) (r : ExecutionResult.t) :
  orders (updatePosition s order r) = orders s
  /\ marketData (updatePosition s order r) = marketData s
  /\ executionCallbacks (updatePosition s order r) = executionCallbacks s.
Proof.
  unfold updatePosition.
  destruct (Order.type order), (JSMap.get (positions s) (Order.symbol order));
    repeat split.
Qed.

(** What a request that passes [validateOrder] satisfies. *)
Lemma validateOrder_valid s (request : ExecutionRequest.t)
      (portfolio : Portfolio.t) :
  Validation.valid (validateOrder s request portfolio) = true ->
  (exists md, JSMap.get (marketData s) (ExecutionRequest.symbol request)
              = Some md)
  /\ PrimFloat.leb (ExecutionRequest.quantity request) 0%float = false
  /\ (ExecutionRequest.orderType request = limit ->
      truthy (ExecutionRequest.price request) = true)
  /\ (ExecutionRequest.type request = sell ->
      exists p,
        JSMap.get (positions s) (ExecutionRequest.symbol request) = Some p
        /\ PrimFloat.ltb (Position.quantity p)
                         (ExecutionRequest.quantity request) = false).
Proof.
  unfold validateOrder, invalid.
  destruct (negb (JSMap.has _ _)) eqn:Hm; [discriminate|].
  destruct (PrimFloat.leb _ _) eqn:Hq; [discriminate|].
  destruct (match ExecutionRequest.orderType request with
            | limit => _ | _ => false end) eqn:Hl; [discriminate|].
  destruct (match ExecutionRequest.orderType request with
            | stop | stop_limit => _ | _ => false end) eqn:Hs; [discriminate|].
  destruct (match ExecutionRequest.type request with
            | buy => _ | _ => false end) eqn:Hb; [discriminate|].
  destruct (match ExecutionRequest.type request with
            | sell => _ | _ => false end) eqn:Hp; [discriminate|].
  intros _. split; [|split; [reflexivity|split]].
  - apply negb_false_iff in Hm. unfold JSMap.has in Hm.
    destruct (JSMap.get (marketData s) _) as [md|]; [eauto|discriminate].
  - intros E. rewrite E in Hl. now apply negb_false_iff in Hl.
  - intros E. rewrite E in Hp.
    destruct (JSMap.get (positions s) _) as [p|]; [eauto|discriminate].
Qed.

Lemma submit_valid s (d : Draw) (request : ExecutionRequest.t)
      (portfolio : Portfolio.t) :
  Validation.valid (validateOrder s request portfolio) = true ->
  exists r,
    submit s d request portfolio
    = inr (withOrders s (JSMap.set (orders s) (generateOrderId d)
                                   (newOrder d request)),
           inr {| submittedRequest := request;
                  submittedOrder := newOrder d request;
                  submittedResult := r |})
    /\ Further.switchedTo d request r.
Proof.
  intros Hv. destruct (validateOrder_valid _ _ _ Hv) as ([md Hmd] & _).
  unfold submit, Further.switchedTo. rewrite Hv. cbn [negb].
  unfold executeMarketOrder, executeLimitOrder, executeStopOrder,
    executeStopLimitOrder.
  cbn [marketData withOrders Order.symbol newOrder]. rewrite Hmd.
  destruct (ExecutionRequest.orderType request);
    repeat match goal with
           | |- context [if ?b then _ else _] => destruct b
           end;
    eexists; (split; [reflexivity|first [constructor|reflexivity]]).
Qed.

Lemma submit_invalid s (d : Draw) (request : ExecutionRequest.t)
      (portfolio : Portfolio.t) :
  Validation.valid (validateOrder s request portfolio) = false ->
  submit s d request portfolio
  = inr (s, inl {| ExecutionResult.success := false;
                   ExecutionResult.orderId := None;
                   ExecutionResult.executedPrice := None;
                   ExecutionResult.executedQuantity := None;
                   ExecutionResult.status := rejected;
                   ExecutionResult.message :=
                     Validation.reason (validateOrder s request portfolio);
                   ExecutionResult.timestamp := now d;
                   ExecutionResult.fees := None |}).
Proof. intros Hv. unfold submit. now rewrite Hv. Qed.

Lemma settle_keeps s (p : Submitted) :
  marketData (service (settle s p)) = marketData s
  /\ executionCallbacks (service (settle s p)) = executionCallbacks s
  /\ orders (service (settle s p))
     = JSMap.set (orders s) (Order.id (submittedOrder p))
                 (settledOrder (submittedOrder p) (submittedResult p)).
Proof.
  unfold settle. cbn [service].
  destruct (_ && _).
  - destruct (updatePosition_keeps
                (withOrders s
                   (JSMap.set (orders s)
                      (Order.id (settledOrder (submittedOrder p)
                                              (submittedResult p)))
                      (settledOrder (submittedOrder p) (submittedResult p))))
                (settledOrder (submittedOrder p) (submittedResult p))
                (submittedResult p)) as (-> & -> & ->).
    repeat split.
  - repeat split.
Qed.

Lemma set_set {A} (m : JSMap.t A) (k : string) (v v' : A) :
  JSMap.set (JSMap.set m k v) k v' = JSMap.set m k v'.
Proof.
  induction m as [|[k0 v0] m IH]; simpl.
  - now rewrite String.eqb_refl.
  - destruct (String.eqb k0 k) eqn:E; simpl; rewrite E; [reflexivity|].
    now rewrite IH.
Qed.

(** X18. What [executeOrder] answers, for a portfolio that is an object.
    A request that fails the validation is answered with status rejected,
    the reason of the validation and no order id: the service is left as
    it was and no callback is called.  A request that passes it with one
    of the four order types is answered with status executed or pending
    and the generated order id, under which the service then holds the
    order with the status of the answer.  A request that passes it with
    any other order type is answered with status rejected, the message
    'Invalid order type' and no order id, and changes no position; yet the
    service then holds its order, as rejected, under the generated id.
    The market data is never touched.  The promise rejects only with what
    the callback of the client throws when it is called with the answer:
    never for a request that fails the validation. *)
Theorem executeOrder_answers s (d : Draw) (request : ExecutionRequest.t)
        (portfolio : Portfolio.t) :
  exists out,
    executeOrder s d request portfolio = inr out
    /\ marketData (service out) = marketData s
    /\ (Validation.valid (validateOrder s request portfolio) = false ->
        service out = s
        /\ notified out = None
        /\ ExecutionResult.success (result out) = false
        /\ ExecutionResult.status (result out) = rejected
        /\ ExecutionResult.orderId (result out) = None
        /\ ExecutionResult.message (result out)
           = Validation.reason (validateOrder s request portfolio))
    /\ (Validation.valid (validateOrder s request portfolio) = true ->
        ExecutionRequest.orderType request <> anotherOrderType ->
        (ExecutionResult.status (result out) = executed
         \/ ExecutionResult.status (result out) = pending)
        /\ ExecutionResult.orderId (result out) = Some (generateOrderId d)
        /\ exists order,
             getOrder (service out) (generateOrderId d) = Some order
             /\ Order.status order = ExecutionResult.status (result out))
    /\ (Validation.valid (validateOrder s request portfolio) = true ->
        ExecutionRequest.orderType request = anotherOrderType ->
        ExecutionResult.success (result out) = false
        /\ ExecutionResult.status (result out) = rejected
        /\ ExecutionResult.orderId (result out) = None
        /\ ExecutionResult.message (result out) = Some "Invalid order type"
        /\ ExecutionResult.timestamp (result out) = now d
        /\ positions (service out) = positions s
        /\ exists order,
             getOrder (service out) (generateOrderId d) = Some order
             /\ Order.status order = rejected
             /\ Order.filledQuantity order = 0%float)
    /\ (forall throws : Callback -> ExecutionResult.t -> option exn,
           (forall callback, throws callback (result out) = None) ->
           promised throws out = inr (result out))
    /\ (forall (throws : Callback -> ExecutionResult.t -> option exn) e,
           promised throws out = inl e ->
           Validation.valid (validateOrder s request portfolio) = true
           /\ exists callback,
                notified out = Some (callback, result out)
                /\ throws callback (result out) = Some e).
Proof.
  destruct (Validation.valid (validateOrder s request portfolio)) eqn:Hv.
  - destruct (submit_valid s d request portfolio Hv) as (r & Es & Hr).
    unfold executeOrder. rewrite Es. eexists. split; [reflexivity|].
    match goal with
    | |- context [settle ?s1 ?p] =>
        destruct (settle_keeps s1 p) as (Hm & _ & Ho);
        assert (Hn : notified (settle s1 p) = None
                     \/ exists callback,
                          notified (settle s1 p) = Some (callback, r))
          by (unfold settle; cbn [notified submittedResult];
              destruct (JSMap.get _ _); eauto);
        assert (Hres : result (settle s1 p) = r) by reflexivity
    end.
    split; [rewrite Hm; reflexivity|].
    split; [discriminate|].
    split; [|split; [|split]].
    + intros _ Hty. rewrite Hres. unfold Further.switchedTo in Hr.
      split; [|split].
      * destruct (ExecutionRequest.orderType request);
          try contradiction; destruct Hr; auto.
      * destruct (ExecutionRequest.orderType request);
          try contradiction; destruct Hr; reflexivity.
      * unfold getOrder. rewrite Ho.
        cbn [submittedOrder Order.id newOrder].
        rewrite get_set_same. eexists. split; reflexivity.
    + intros _ Hty. rewrite Hres. unfold Further.switchedTo in Hr.
      rewrite Hty in Hr. subst r.
      repeat (split; [reflexivity|]).
      unfold getOrder. rewrite Ho. cbn [submittedOrder Order.id newOrder].
      rewrite get_set_same. eexists. split; [reflexivity|].
      split; reflexivity.
    + intros throws Hthrows. unfold promised. rewrite Hres.
      destruct Hn as [-> | [callback ->]]; [reflexivity|].
      now rewrite Hthrows.
    + intros throws e. unfold promised. rewrite Hres.
      destruct Hn as [-> | [callback ->]]; [discriminate|].
      destruct (throws callback r) as [e'|] eqn:Et; [|discriminate].
      intros [= ->]. split; [reflexivity|]. eauto.
  - unfold executeOrder. rewrite (submit_invalid s d request portfolio Hv).
    eexists. split; [reflexivity|]. split; [reflexivity|].
    split; [intros _; repeat split|].
    split; [discriminate|]. split; [discriminate|].
    split; [reflexivity|]. intros throws e. discriminate.
Qed.

Lemma truthy_quantity (q : float) :
  PrimFloat.leb q 0%float = false ->
  truthy (Some q) = negb (PrimFloat.is_nan q).
Proof.
  intros Hq. unfold truthy.
  destruct (PrimFloat.is_zero q) eqn:Ez; [|reflexivity].
  apply leb_of_is_zero in Ez. congruence.
Qed.

Lemma or_truthy (a b : value) : truthy a = true -> JS.or a b = a.
Proof. intros H. unfold JS.or. now rewrite H. Qed.

Lemma executeOrder_valid s (d : Draw) (request : ExecutionRequest.t)
      (portfolio : Portfolio.t) :
  Validation.valid (validateOrder s request portfolio) = true ->
  exists r,
    executeOrder s d request portfolio
    = inr (settle (withOrders s (JSMap.set (orders s) (generateOrderId d)
                                           (newOrder d request)))
                  {| submittedRequest := request;
                     submittedOrder := newOrder d request;
                     submittedResult := r |})
    /\ submit s d request portfolio
       = inr (withOrders s (JSMap.set (orders s) (generateOrderId d)
                                      (newOrder d request)),
              inr {| submittedRequest := request;
                     submittedOrder := newOrder d request;
                     submittedResult := r |})
    /\ Further.switchedTo d request r.
Proof.
  intros Hv. destruct (submit_valid s d request portfolio Hv) as (r & Es & Hr).
  exists r. unfold executeOrder. rewrite Es. repeat split. exact Hr.
Qed.

(** An execution that succeeded was filled. *)
Lemma switchedTo_success (d : Draw) (request : ExecutionRequest.t)
      (r : ExecutionResult.t) :
  Further.switchedTo d request r ->
  ExecutionResult.success r = true ->
  exists executedPrice,
    r = executedResult (newOrder d request) (nowOfExecution d) executedPrice.
Proof.
  unfold Further.switchedTo. intros Hr Hs.
  destruct (ExecutionRequest.orderType request);
    try (destruct Hr as [executedPrice|message]; [eauto|discriminate Hs]).
  subst r. discriminate Hs.
Qed.

(** An execution that did not succeed changes no position. *)
Lemma settle_without_success s (p : Submitted) :
  ExecutionResult.success (submittedResult p) = false ->
  positions (service (settle s p)) = positions s.
Proof. intros H. unfold settle. rewrite H. reflexivity. Qed.

(** X19. A limit order that passes the validation is filled at once, in
    full and at exactly its limit price (not at the better price of the
    market) when the ask is at or under the limit for a buy, or the bid at
    or over it for a sell (as for every type but a buy); its fee is 0.1
    percent of price times quantity. Otherwise it is answered as pending and no position
    changes. *)
Theorem limit_order_fills_at_its_limit s (d : Draw)
        (request : ExecutionRequest.t) (portfolio : Portfolio.t)
        (md : MarketData.t) :
  ExecutionRequest.orderType request = limit ->
  Validation.valid (validateOrder s request portfolio) = true ->
  JSMap.get (marketData s) (ExecutionRequest.symbol request) = Some md ->
  exists out limitPrice,
    executeOrder s d request portfolio = inr out
    /\ ExecutionRequest.price request = Some limitPrice
    /\ if match ExecutionRequest.type request with
           | buy => PrimFloat.leb (MarketData.ask md) limitPrice
           | _ => PrimFloat.leb limitPrice (MarketData.bid md)
           end
       then ExecutionResult.success (result out) = true
            /\ ExecutionResult.status (result out) = executed
            /\ ExecutionResult.executedPrice (result out) = Some limitPrice
            /\ ExecutionResult.executedQuantity (result out)
               = Some (ExecutionRequest.quantity request)
            /\ ExecutionResult.fees (result out)
               = Some (limitPrice * ExecutionRequest.quantity request
                       * 0.001)%float
       else ExecutionResult.success (result out) = false
            /\ ExecutionResult.status (result out) = pending
            /\ positions (service out) = positions s.
Proof.
  intros Hl Hv Hmd.
  destruct (validateOrder_valid _ _ _ Hv) as (_ & _ & Hp & _).
  specialize (Hp Hl).
  destruct (ExecutionRequest.price request) as [limitPrice|] eqn:Ep;
    [|discriminate].
  unfold executeOrder, submit. rewrite Hv, Hl. cbn [negb].
  unfold executeLimitOrder.
  cbn [marketData withOrders Order.symbol newOrder]. rewrite Hmd.
  unfold limitMet, limitPriceOr. cbn [Order.price Order.type newOrder].
  rewrite Ep, !or_truthy by exact Hp. cbn [toNumber].
  destruct (match ExecutionRequest.type request with
            | buy => _ | _ => _ end) eqn:Emet.
  - eexists; exists limitPrice. split; [reflexivity|]. split; [reflexivity|].
    rewrite ?Emet. repeat split.
  - eexists; exists limitPrice. split; [reflexivity|]. split; [reflexivity|].
    rewrite ?Emet. repeat split.
Qed.



(** X21. A request whose quantity is [NaN] passes the validation: a market
    order for a quoted symbol (for a sell, one that has a position) is
    answered as executed with the quantity [NaN], whatever the cash of the
    portfolio, and no position is opened or changed. *)
Theorem NaN_quantity_passes_validation s (d : Draw)
        (request : ExecutionRequest.t) (portfolio : Portfolio.t)
        (md : MarketData.t) :
  ExecutionRequest.quantity request = nan ->
  ExecutionRequest.orderType request = market ->
  JSMap.get (marketData s) (ExecutionRequest.symbol request) = Some md ->
  (ExecutionRequest.type request = sell ->
   exists p, getPosition s (ExecutionRequest.symbol request) = Some p) ->
  exists out,
    executeOrder s d request portfolio = inr out
    /\ ExecutionResult.success (result out) = true
    /\ ExecutionResult.status (result out) = executed
    /\ ExecutionResult.executedQuantity (result out) = Some nan
    /\ positions (service out) = positions s.
Proof.
  intros Hq Hm Hmd Hpos.
  assert (Hv : Validation.valid (validateOrder s request portfolio) = true).
  { unfold validateOrder, JSMap.has. rewrite Hmd, Hq, Hm. cbn [negb].
    change (PrimFloat.leb nan 0) with false. cbv iota.
    destruct (ExecutionRequest.type request) eqn:Et.
    - rewrite mul_nan_l, ltb_nan_r. reflexivity.
    - destruct (Hpos eq_refl) as [p Hp]. unfold getPosition in Hp.
      rewrite Hp, ltb_nan_r. reflexivity.
    - reflexivity. }
  unfold executeOrder, submit. rewrite Hv, Hm. cbn [negb].
  unfold executeMarketOrder.
  cbn [marketData withOrders Order.symbol newOrder]. rewrite Hmd.
  eexists. split; [reflexivity|].
  unfold settle.
  cbn [service result submittedResult submittedOrder executedResult
       ExecutionResult.success ExecutionResult.executedQuantity
       ExecutionResult.status andb newOrder Order.quantity].
  rewrite Hq. repeat split.
Qed.

(** X22. [cancelOrder] answers true exactly for an order that exists and
    is pending; the order is then cancelled and stamped with the time of
    the call, and nothing of it is filled. In every other case the service
    is left as it was. Positions are never touched, and cancelling the
    same order again answers false and changes nothing. *)
Theorem cancelOrder_cancels_pending_orders_only s (timestamp : string)
        (orderId : string) :
  (snd (cancelOrder s timestamp orderId) = true
   <-> exists order,
         getOrder s orderId = Some order /\ Order.status order = pending)
  /\ (snd (cancelOrder s timestamp orderId) = true ->
      exists order order',
        getOrder s orderId = Some order
        /\ getOrder (fst (cancelOrder s timestamp orderId)) orderId
           = Some order'
        /\ Order.status order' = cancelled
        /\ Order.updatedAt order' = timestamp
        /\ Order.filledQuantity order' = Order.filledQuantity order
        /\ Order.executedAt order' = Order.executedAt order)
  /\ (snd (cancelOrder s timestamp orderId) = false ->
      fst (cancelOrder s timestamp orderId) = s)
  /\ positions (fst (cancelOrder s timestamp orderId)) = positions s
  /\ forall later,
       cancelOrder (fst (cancelOrder s timestamp orderId)) later orderId
       = (fst (cancelOrder s timestamp orderId), false).
Proof.
  unfold cancelOrder, getOrder.
  destruct (JSMap.get (orders s) orderId) as [order|] eqn:Eo.
  - destruct (Order.status order) eqn:Est; cbn [OrderStatus_eqb fst snd].
    + split; [split; [eauto|reflexivity]|].
      split.
      { intros _. exists order. eexists. split; [reflexivity|].
        cbn [orders withOrders]. rewrite get_set_same.
        split; [reflexivity|]. repeat split. }
      split; [discriminate|]. split; [reflexivity|].
      intros later. cbn [orders withOrders]. rewrite get_set_same.
      reflexivity.
    + split; [split; [discriminate|intros (o & E & Ho); congruence]|].
      split; [discriminate|]. split; [reflexivity|]. split; [reflexivity|].
      intros later. rewrite Eo, Est. reflexivity.
    + split; [split; [discriminate|intros (o & E & Ho); congruence]|].
      split; [discriminate|]. split; [reflexivity|]. split; [reflexivity|].
      intros later. rewrite Eo, Est. reflexivity.
    + split; [split; [discriminate|intros (o & E & Ho); congruence]|].
      split; [discriminate|]. split; [reflexivity|]. split; [reflexivity|].
      intros later. rewrite Eo, Est. reflexivity.
  - cbn [fst snd].
    split; [split; [discriminate|intros (o & E & Ho); congruence]|].
    split; [discriminate|]. split; [reflexivity|]. split; [reflexivity|].
    intros later. rewrite Eo. reflexivity.
Qed.

(** X23. An accepted request calls the callback that was last registered
    for its client, once and with the very result that [executeOrder]
    returns; a request that names no client calls the callback registered
    under the empty string. *)
Theorem executeOrder_notifies_the_client s (d : Draw)
        (request : ExecutionRequest.t) (portfolio : Portfolio.t)
        (callback : Callback) :
  Validation.valid (validateOrder s request portfolio) = true ->
  exists out,
    executeOrder
      (setExecutionCallback
         s
         match ExecutionRequest.clientId request with
         | Some clientId => clientId
         | None => EmptyString
         end
         callback)
      d request portfolio = inr out
    /\ notified out = Some (callback, result out).
Proof.
  intros Hv.
  match goal with
  | |- context [setExecutionCallback s ?k callback] =>
      set (s' := setExecutionCallback s k callback)
  end.
  assert (Hv' : Validation.valid (validateOrder s' request portfolio) = true)
    by exact Hv.
  destruct (executeOrder_valid s' d request portfolio Hv')
    as (r & E & _ & _).
  eexists. split; [exact E|].
  match goal with
  | |- context [settle ?s1 ?p] =>
      destruct (settle_keeps s1 p) as (_ & Hc & _)
  end.
  unfold settle at 1. cbn [notified]. unfold settle in Hc. cbn [service] in Hc.
  rewrite Hc. cbn [executionCallbacks withOrders submittedRequest s'
                   setExecutionCallback withCallbacks].
  rewrite get_set_same. reflexivity.
Qed.

(** *** What holds after any sequence of calls *)




Lemma updatePositionPrices_keeps s (symbol : string) (currentPrice : float) :
  orders (updatePositionPrices s symbol currentPrice) = orders s
  /\ marketData (updatePositionPrices s symbol currentPrice) = marketData s
  /\ executionCallbacks (updatePositionPrices s symbol currentPrice)
     = executionCallbacks s.
Proof.
  unfold updatePositionPrices.
  destruct (JSMap.get (positions s) symbol) as [p|]; [|repeat split].
  destruct (PositionStatus_eqb _ _); repeat split.
Qed.

(** A property of the orders, the positions and the callbacks that one
    repricing keeps is kept by a pass of the timer. *)
Lemma realTimeUpdate_keeps (P : TradingExecutionService Callback -> Prop)
      (draws : string -> Tick) s :
  (forall st m, P st -> P (withMarketData st m)) ->
  (forall st symbol currentPrice,
      P st -> P (updatePositionPrices st symbol currentPrice)) ->
  P s -> P (realTimeUpdate draws s).
Proof.
  intros Hm Hu. unfold realTimeUpdate.
  generalize (marketData s) as entries. intros entries. revert s.
  induction entries as [|[symbol data] entries IH]; intros s Hs;
    [exact Hs|].
  cbn [fold_left]. apply IH. apply Hu, Hm, Hs.
Qed.








Lemma perform_step (calls : list Call) s (c : Call) s' :
  performAll s (c :: calls) = inr s' ->
  exists s1, perform s c = inr s1 /\ performAll s1 calls = inr s'.
Proof.
  unfold performAll. cbn [fold_left].
  destruct (perform s c) as [e|s1]; [|eauto].
  intros H. exfalso. induction calls as [|c' calls IH]; [discriminate|].
  exact (IH H).
Qed.

(** A property that every call keeps holds after any sequence of calls. *)
Lemma performAll_keeps (P : TradingExecutionService Callback -> Prop)
      (Q : Call -> Prop) (calls : list Call) :
  (forall st c st', P st -> Q c -> perform st c = inr st' -> P st') ->
  Forall Q calls ->
  forall s s', P s -> performAll s calls = inr s' -> P s'.
Proof.
  intros Hstep Hall. induction Hall as [|c calls Hc Hall IH];
    intros s s' Hs Hrun.
  - injection Hrun as <-. exact Hs.
  - destruct (perform_step calls s c s' Hrun) as (s1 & E1 & Erest).
    exact (IH s1 s' (Hstep s c s1 Hs Hc E1) Erest).
Qed.

Lemma executeOrder_cases s (d : Draw) (request : ExecutionRequest.t)
      (portfolio : Portfolio.t) (out : Outcome) :
  executeOrder s d request portfolio = inr out ->
  service out = s
  \/ exists r,
       out = settle (withOrders s (JSMap.set (orders s) (generateOrderId d)
                                             (newOrder d request)))
                    {| submittedRequest := request;
                       submittedOrder := newOrder d request;
                       submittedResult := r |}
       /\ Validation.valid (validateOrder s request portfolio) = true
       /\ Further.switchedTo d request r.
Proof.
  intros Hex.
  destruct (Validation.valid (validateOrder s request portfolio)) eqn:Hv.
  - destruct (executeOrder_valid s d request portfolio Hv) as (r & E & _ & Hr).
    rewrite E in Hex. injection Hex as <-. right. eauto.
  - unfold executeOrder in Hex.
    rewrite (submit_invalid s d request portfolio Hv) in Hex.
    injection Hex as <-. now left.
Qed.

(** X25. Two sells of one symbol that are both submitted before either is
    settled (two calls of [executeOrder] that are not awaited one after the
    other) are validated against the same position: when each of them
    alone is covered by the position, both are filled, and the position is
    reduced by the one and then by the other, which leaves a negative
    quantity when together they exceed it. *)
Theorem overlapping_sells_are_both_filled s (d1 d2 : Draw)
        (request1 request2 : ExecutionRequest.t)
        (portfolio1 portfolio2 : Portfolio.t) (p : Position.t) :
  ExecutionRequest.type request1 = sell ->
  ExecutionRequest.type request2 = sell ->
  ExecutionRequest.orderType request1 = market ->
  ExecutionRequest.orderType request2 = market ->
  ExecutionRequest.symbol request2 = ExecutionRequest.symbol request1 ->
  getPosition s (ExecutionRequest.symbol request1) = Some p ->
  Validation.valid (validateOrder s request1 portfolio1) = true ->
  Validation.valid (validateOrder s request2 portfolio2) = true ->
  PrimFloat.is_nan (ExecutionRequest.quantity request1) = false ->
  PrimFloat.is_nan (ExecutionRequest.quantity request2) = false ->
  exists s1 p1 s2 p2 p',
    submit s d1 request1 portfolio1 = inr (s1, inr p1)
    /\ submit s1 d2 request2 portfolio2 = inr (s2, inr p2)
    /\ ExecutionResult.success (result (settle s2 p1)) = true
    /\ ExecutionResult.success
         (result (settle (service (settle s2 p1)) p2)) = true
    /\ getPosition (service (settle (service (settle s2 p1)) p2))
                   (ExecutionRequest.symbol request1) = Some p'
    /\ Position.quantity p'
       = (Position.quantity p - ExecutionRequest.quantity request1
          - ExecutionRequest.quantity request2)%float.
Proof.
  intros Ht1 Ht2 Hm1 Hm2 Hsym Hget Hv1 Hv2 Hn1 Hn2.
  destruct (validateOrder_valid _ _ _ Hv1) as ([md Hmd] & Hq1 & _).
  destruct (validateOrder_valid _ _ _ Hv2) as (_ & Hq2 & _).
  unfold getPosition in Hget.
  eexists. eexists. eexists. eexists. eexists.
  split.
  { unfold submit. rewrite Hv1, Hm1. cbn [negb]. unfold executeMarketOrder.
    cbn [marketData withOrders Order.symbol newOrder]. rewrite Hmd.
    reflexivity. }
  split.
  { unfold submit.
    change (validateOrder (withOrders s ?o) request2 portfolio2)
      with (validateOrder s request2 portfolio2).
    rewrite Hv2, Hm2. cbn [negb]. unfold executeMarketOrder.
    cbn [marketData withOrders Order.symbol newOrder]. rewrite Hsym, Hmd.
    reflexivity. }
  split; [reflexivity|]. split; [reflexivity|].
  unfold settle.
  cbn [service submittedResult submittedOrder executedResult
       ExecutionResult.success ExecutionResult.executedQuantity
       andb newOrder Order.quantity].
  rewrite (truthy_quantity _ Hq1), (truthy_quantity _ Hq2), Hn1, Hn2.
  cbn [negb]. unfold updatePosition.
  cbn [Order.type Order.symbol settledOrder newOrder positions withOrders
       withPositions ExecutionResult.executedQuantity toNumber].
  rewrite Ht1, Ht2, Hsym, Hget.
  cbn [positions withPositions withOrders]. rewrite get_set_same.
  split.
  - unfold getPosition. cbn [positions withPositions]. apply get_set_same.
  - reflexivity.
Qed.

Lemma realTimeUpdate_orders (draws : string -> Tick) s :
  orders (realTimeUpdate draws s) = orders s.
Proof.
  apply (realTimeUpdate_keeps (fun st => orders st = orders s));
    [intros st m H; exact H| |reflexivity].
  intros st symbol currentPrice H.
  destruct (updatePositionPrices_keeps st symbol currentPrice) as (-> & _).
  exact H.
Qed.

(** X26. An order that is pending (a limit that was not met, a stop that
    was not triggered) is never filled afterwards: whatever calls and
    passes of the timer follow, as long as no new order is given its id,
    it is still pending or has been cancelled, and nothing of it is
    filled. *)
Theorem pending_orders_are_never_filled s (calls : list Call) s'
        (orderId : string) (order : Order.t) :
  getOrder s orderId = Some order ->
  Order.status order = pending ->
  Forall (fun c => ~ Further.createsOrder orderId c) calls ->
  performAll s calls = inr s' ->
  exists order',
    getOrder s' orderId = Some order'
    /\ (Order.status order' = pending \/ Order.status order' = cancelled)
    /\ Order.filledQuantity order' = Order.filledQuantity order
    /\ Order.averagePrice order' = Order.averagePrice order
    /\ Order.executedAt order' = Order.executedAt order.
Proof.
  intros Hget Hst Hall Hrun.
  apply (performAll_keeps
           (fun st =>
              exists order',
                getOrder st orderId = Some order'
                /\ (Order.status order' = pending
                    \/ Order.status order' = cancelled)
                /\ Order.filledQuantity order' = Order.filledQuantity order
                /\ Order.averagePrice order' = Order.averagePrice order
                /\ Order.executedAt order' = Order.executedAt order)
           (fun c => ~ Further.createsOrder orderId c) calls)
    with (s := s); [|exact Hall| |exact Hrun].
  - clear. intros st c st' (o & Ho & Hs & Hf & Ha & He) Hc Hp.
    unfold getOrder in *.
    destruct c as [d request portfolio|timestamp orderId'
                   |clientId callback|clientId|draws];
      cbn [perform] in Hp.
    + destruct (executeOrder st d request portfolio) as [e|out] eqn:Ex;
        [discriminate|]. injection Hp as <-.
      destruct (executeOrder_cases st d request portfolio out Ex)
        as [->|(r & -> & _ & _)]; [eauto 10|].
      match goal with
      | |- context [settle ?s1 ?q] =>
          destruct (settle_keeps s1 q) as (_ & _ & ->)
      end.
      cbn [submittedOrder Order.id newOrder orders withOrders].
      cbn [Further.createsOrder] in Hc.
      rewrite !get_set_other by exact Hc. eauto 10.
    + injection Hp as <-. unfold cancelOrder.
      destruct (JSMap.get (orders st) orderId') as [o'|] eqn:Eo';
        [|eauto 10].
      destruct (OrderStatus_eqb (Order.status o') pending); [|eauto 10].
      cbn [fst orders withOrders].
      destruct (String.eqb_spec orderId' orderId) as [->|Hne].
      * rewrite get_set_same. rewrite Ho in Eo'. injection Eo' as <-.
        eexists. split; [reflexivity|]. cbn. auto.
      * rewrite get_set_other by exact Hne. eauto 10.
    + injection Hp as <-. eauto 10.
    + injection Hp as <-. eauto 10.
    + injection Hp as <-. rewrite realTimeUpdate_orders. eauto 10.
  - exists order. rewrite Hst. auto.
Qed.

(** X27. A position that is closed is never open again: whatever calls and
    passes of the timer follow, also orders that buy the symbol again, its
    position is still marked closed, its current price and unrealized
    profit are never brought up to date, and the open positions do not
    list it. *)
Theorem closed_positions_are_never_reopened s (calls : list Call) s'
        (symbol : string) (p : Position.t) :
  getPosition s symbol = Some p ->
  Position.status p = closed ->
  performAll s calls = inr s' ->
  exists p',
    getPosition s' symbol = Some p'
    /\ Position.status p' = closed
    /\ Position.currentPrice p' = Position.currentPrice p
    /\ Position.unrealizedPnL p' = Position.unrealizedPnL p
    /\ ~ In p' (getOpenPositions s').
Proof.
  intros Hget Hst Hrun.
  assert (Hkept :
            exists p',
              getPosition s' symbol = Some p'
              /\ Position.status p' = closed
              /\ Position.currentPrice p' = Position.currentPrice p
              /\ Position.unrealizedPnL p' = Position.unrealizedPnL p).
  { apply (performAll_keeps
             (fun st =>
                exists p',
                  getPosition st symbol = Some p'
                  /\ Position.status p' = closed
                  /\ Position.currentPrice p' = Position.currentPrice p
                  /\ Position.unrealizedPnL p' = Position.unrealizedPnL p)
             (fun _ => True) calls)
      with (s := s); [| |eauto|exact Hrun].
    2: { clear. induction calls; constructor; auto. }
    clear. intros st c st' (q & Hq & Hs & Hc & Hu) _ Hp.
    unfold getPosition in *.
    destruct c as [d request portfolio|timestamp orderId
                   |clientId callback|clientId|draws];
      cbn [perform] in Hp.
    - destruct (executeOrder st d request portfolio) as [e|out] eqn:Ex;
        [discriminate|]. injection Hp as <-.
      destruct (executeOrder_cases st d request portfolio out Ex)
        as [->|(r & -> & _ & Hr)]; [eauto 10|].
      destruct (ExecutionResult.success r) eqn:Hsucc;
        [|rewrite settle_without_success by exact Hsucc; eauto 10].
      destruct (switchedTo_success d request r Hr Hsucc)
        as [executedPrice ->].
      unfold settle.
      cbn [service submittedResult submittedOrder executedResult
           ExecutionResult.success ExecutionResult.executedQuantity
           andb newOrder Order.quantity].
      destruct (truthy _); [|eauto 10].
      unfold updatePosition.
      cbn [Order.type Order.symbol settledOrder newOrder positions
           withOrders].
      destruct (String.eqb_spec (ExecutionRequest.symbol request) symbol)
        as [->|Hne].
      + rewrite Hq.
        destruct (ExecutionRequest.type request);
          cbn [positions withPositions]; rewrite get_set_same;
          eexists; (split; [reflexivity|]);
          cbn [Position.status Position.currentPrice
               Position.unrealizedPnL];
          rewrite ?Hs; repeat split; auto.
        all: destruct (PrimFloat.leb _ _); reflexivity.
      + destruct (ExecutionRequest.type request),
          (JSMap.get (positions st) (ExecutionRequest.symbol request));
          cbn [positions withPositions];
          rewrite ?get_set_other by exact Hne; eauto 10.
    - injection Hp as <-. unfold cancelOrder.
      destruct (JSMap.get (orders st) orderId) as [o|]; [|eauto 10].
      destruct (OrderStatus_eqb _ _); eauto 10.
    - injection Hp as <-. eauto 10.
    - injection Hp as <-. eauto 10.
    - injection Hp as <-.
      apply (realTimeUpdate_keeps
               (fun st =>
                  exists p',
                    JSMap.get (positions st) symbol = Some p'
                    /\ Position.status p' = closed
                    /\ Position.currentPrice p' = Position.currentPrice p
                    /\ Position.unrealizedPnL p' = Position.unrealizedPnL p));
        [intros st0 m H; exact H| |eauto 10].
      intros st0 symbol0 currentPrice (q0 & Hq0 & Hs0 & Hc0 & Hu0).
      unfold updatePositionPrices.
      destruct (String.eqb_spec symbol0 symbol) as [->|Hne].
      + rewrite Hq0, Hs0. cbn [PositionStatus_eqb]. eauto 10.
      + destruct (JSMap.get (positions st0) symbol0) as [q1|]; [|eauto 10].
        destruct (PositionStatus_eqb _ _); [|eauto 10].
        cbn [positions withPositions].
        rewrite get_set_other by exact Hne. eauto 10. }
  destruct Hkept as (p' & Hp' & Hs' & Hc' & Hu').
  exists p'. repeat split; auto.
  unfold getOpenPositions. intros Hin. apply filter_In in Hin.
  destruct Hin as [_ Hopen]. rewrite Hs' in Hopen. discriminate.
Qed.

End ExecutionService.

Section ExecutionExamples.
Import Execution.

Lemma limit_order_fills_at_its_limit_witness :
  exists out,
    executeOrder ExecutionFixtures.fresh (ExecutionFixtures.draw 1)
                 (ExecutionFixtures.request buy 10%float limit
                                            (Some 200%float))
                 ExecutionFixtures.wealthy = inr out
    /\ ExecutionResult.status (result out) = executed
    /\ ExecutionResult.executedPrice (result out) = Some 200%float.
Proof.
  destruct (limit_order_fills_at_its_limit
              ExecutionFixtures.fresh (ExecutionFixtures.draw 1)
              (ExecutionFixtures.request buy 10%float limit (Some 200%float))
              ExecutionFixtures.wealthy
              {| MarketData.symbol := "AAPL";
                 MarketData.bid := (182.52 * 0.999)%float;
                 MarketData.ask := (182.52 * 1.001)%float;
                 MarketData.last := 182.52%float;
                 MarketData.volume := 500000%float;
                 MarketData.timestamp := "2024-01-01T00:00:00.000Z" |}
              eq_refl eq_refl eq_refl)
    as (out & limitPrice & E & Ep & H).
  injection Ep as <-. exists out. split; [exact E|].
  change (PrimFloat.leb (182.52 * 1.001) 200 = true) in H
    || (vm_compute in H). tauto.
Defined.


Lemma NaN_quantity_passes_validation_witness :
  exists out,
    executeOrder ExecutionFixtures.fresh (ExecutionFixtures.draw 1)
                 (ExecutionFixtures.request buy nan market None)
                 {| Portfolio.availableCash := Some 0%float |} = inr out
    /\ ExecutionResult.success (result out) = true
    /\ ExecutionResult.status (result out) = executed
    /\ ExecutionResult.executedQuantity (result out) = Some nan
    /\ positions (service out) = positions ExecutionFixtures.fresh.
Proof.
  apply (NaN_quantity_passes_validation
           ExecutionFixtures.fresh (ExecutionFixtures.draw 1)
           (ExecutionFixtures.request buy nan market None)
           {| Portfolio.availableCash := Some 0%float |}
           {| MarketData.symbol := "AAPL";
              MarketData.bid := (182.52 * 0.999)%float;
              MarketData.ask := (182.52 * 1.001)%float;
              MarketData.last := 182.52%float;
              MarketData.volume := 500000%float;
              MarketData.timestamp := "2024-01-01T00:00:00.000Z" |}).
  - reflexivity.
  - reflexivity.
  - reflexivity.
  - intros H. discriminate H.
Defined.

Lemma executeOrder_notifies_the_client_witness :
  exists out,
    executeOrder (setExecutionCallback ExecutionFixtures.fresh "" 7)
                 (ExecutionFixtures.draw 1)
                 (ExecutionFixtures.request buy 1%float market None)
                 ExecutionFixtures.wealthy = inr out
    /\ notified out = Some (7, result out).
Proof.
  apply (executeOrder_notifies_the_client
           ExecutionFixtures.fresh (ExecutionFixtures.draw 1)
           (ExecutionFixtures.request buy 1%float market None)
           ExecutionFixtures.wealthy 7).
  reflexivity.
Defined.

Lemma overlapping_sells_are_both_filled_witness :
  exists s1 p1 s2 p2 p',
    submit (ExecutionFixtures.holding 10%float open)
           (ExecutionFixtures.draw 1)
           (ExecutionFixtures.request sell 6%float market None)
           ExecutionFixtures.wealthy = inr (s1, inr p1)
    /\ submit s1 (ExecutionFixtures.draw 2)
              (ExecutionFixtures.request sell 6%float market None)
              ExecutionFixtures.wealthy = inr (s2, inr p2)
    /\ ExecutionResult.success (result (settle s2 p1)) = true
    /\ ExecutionResult.success
         (result (settle (service (settle s2 p1)) p2)) = true
    /\ getPosition (service (settle (service (settle s2 p1)) p2)) "AAPL"
       = Some p'
    /\ Position.quantity p' = (10 - 6 - 6)%float.
Proof.
  apply (overlapping_sells_are_both_filled
           (ExecutionFixtures.holding 10%float open)
           (ExecutionFixtures.draw 1) (ExecutionFixtures.draw 2)
           (ExecutionFixtures.request sell 6%float market None)
           (ExecutionFixtures.request sell 6%float market None)
           ExecutionFixtures.wealthy ExecutionFixtures.wealthy
           (ExecutionFixtures.positionOf 10%float open));
    reflexivity.
Defined.

Lemma pending_orders_are_never_filled_witness :
  match performAll ExecutionFixtures.resting ExecutionFixtures.afterwards with
  | inr s' =>
      exists order',
        getOrder s' "order_1_k3j9x0q2a" = Some order'
        /\ Order.status order' = pending
        /\ Order.filledQuantity order' = 0%float
  | inl _ => False
  end.
Proof.
  destruct (performAll ExecutionFixtures.resting ExecutionFixtures.afterwards)
    as [e|s'] eqn:E.
  - vm_compute in E. discriminate E.
  - pose proof E as E'. vm_compute in E'. injection E' as E'.
    destruct (pending_orders_are_never_filled
                ExecutionFixtures.resting ExecutionFixtures.afterwards
                s' "order_1_k3j9x0q2a"
                {| Order.id := "order_1_k3j9x0q2a";
                   Order.symbol := "AAPL";
                   Order.type := buy;
                   Order.orderType := limit;
                   Order.quantity := 10%float;
                   Order.filledQuantity := 0%float;
                   Order.price := Some 100%float;
                   Order.stopPrice := None;
                   Order.status := pending;
                   Order.createdAt := "2024-01-01T00:00:01.000Z";
                   Order.updatedAt := "2024-01-01T00:00:01.001Z";
                   Order.executedAt := None;
                   Order.averagePrice := None;
                   Order.fees := 0%float;
                   Order.strategy := None;
                   Order.notes := None |}
                eq_refl eq_refl
                ltac:(repeat constructor; cbn [Further.createsOrder];
                      try tauto;
                      let H := fresh in
                      intros H; vm_compute in H; discriminate H)
                E)
      as (order' & Ho & Hst & Hf & _).
    exists order'. split; [exact Ho|]. split; [|exact Hf].
    rewrite <- E' in Ho. vm_compute in Ho. injection Ho as <-.
    reflexivity.
Defined.

Lemma closed_positions_are_never_reopened_witness :
  match performAll
          (ExecutionFixtures.holding 0%float closed)
          [ CallExecuteOrder
              (ExecutionFixtures.draw 1)
              (ExecutionFixtures.request buy 5%float market None)
              ExecutionFixtures.wealthy;
            TimerFires ExecutionFixtures.quietTick ] with
  | inr s' =>
      exists p',
        getPosition s' "AAPL" = Some p'
        /\ Position.status p' = closed
        /\ Position.quantity p' = 5%float
        /\ Position.currentPrice p' = 180%float
        /\ ~ In p' (getOpenPositions s')
  | inl _ => False
  end.
Proof.
  destruct (performAll
              (ExecutionFixtures.holding 0%float closed)
              [ CallExecuteOrder
                  (ExecutionFixtures.draw 1)
                  (ExecutionFixtures.request buy 5%float market None)
                  ExecutionFixtures.wealthy;
                TimerFires ExecutionFixtures.quietTick ])
    as [e|s'] eqn:E.
  - vm_compute in E. discriminate E.
  - pose proof E as E'. vm_compute in E'. injection E' as E'.
    destruct (closed_positions_are_never_reopened
                (ExecutionFixtures.holding 0%float closed) _ s' "AAPL"
                (ExecutionFixtures.positionOf 0%float closed)
                eq_refl eq_refl E)
      as (p' & Hp & Hst & Hc & _ & Hopen).
    exists p'. split; [exact Hp|]. split; [exact Hst|].
    split; [|split; [exact Hc|exact Hopen]].
    rewrite <- E' in Hp. vm_compute in Hp. injection Hp as <-.
    reflexivity.
Defined.

Lemma executeOrder_answers_witness :
  exists out,
    executeOrder ExecutionFixtures.fresh (ExecutionFixtures.draw 1)
                 (ExecutionFixtures.request buy 1%float anotherOrderType None)
                 ExecutionFixtures.wealthy = inr out
    /\ ExecutionResult.status (result out) = rejected
    /\ ExecutionResult.orderId (result out) = None
    /\ ExecutionResult.message (result out) = Some "Invalid order type"
    /\ positions (service out) = []
    /\ exists order,
         getOrder (service out) "order_1_k3j9x0q2a" = Some order
         /\ Order.status order = rejected.
Proof.
  destruct (executeOrder_answers
              ExecutionFixtures.fresh (ExecutionFixtures.draw 1)
              (ExecutionFixtures.request buy 1%float anotherOrderType None)
              ExecutionFixtures.wealthy)
    as (out & E & _ & _ & _ & Hother & _).
  destruct (Hother ltac:(vm_compute; reflexivity) eq_refl)
    as (_ & Hst & Hid & Hmsg & _ & Hpos & order & Hget & Hrej & _).
  exists out. split; [exact E|]. split; [exact Hst|]. split; [exact Hid|].
  split; [exact Hmsg|]. split; [exact Hpos|].
  exists order. split; [exact Hget|exact Hrej].
Defined.


End ExecutionExamples.

(** ** The recommendations of a report *)

Section Recommendations.
Import Backtesting BacktestReport.

Lemma profitFactor_infinite_of_nan_trades (ts : list BacktestTrade)
      (initialCapital finalCapital maxDrawdown : float) :
  Forall Spec.nanTrade ts ->
  profitFactor (calculateSummary ts initialCapital finalCapital maxDrawdown)
  = infinity.
Proof.
  intros Hnan. unfold calculateSummary. cbn [profitFactor].
  rewrite !(filterTrades_nan _ _ eq_refl Hnan). reflexivity.
Qed.

(** The number of the elements of an array, as a [number], is finite and
    above zero when the array is not empty. *)
Lemma digits2_pos_le (p : positive) (k : Z) :
  (0 <= k)%Z -> (Z.pos p < 2 ^ k)%Z -> (Z.pos (digits2_pos p) <= k)%Z.
Proof.
  revert k. induction p as [p IH|p IH|]; intros k Hk Hp; simpl.
  - assert (k <> 0)%Z by (intros ->; simpl in Hp; lia).
    replace k with (Z.succ (k - 1))%Z in Hp by lia.
    rewrite Z.pow_succ_r in Hp by lia.
    specialize (IH (k - 1)%Z). lia.
  - assert (k <> 0)%Z by (intros ->; simpl in Hp; lia).
    replace k with (Z.succ (k - 1))%Z in Hp by lia.
    rewrite Z.pow_succ_r in Hp by lia.
    specialize (IH (k - 1)%Z). lia.
  - assert (k <> 0)%Z by (intros ->; simpl in Hp; lia). lia.
Qed.

Lemma digits2_pos_iter_xO (p d : positive) :
  digits2_pos (Pos.iter xO p d) = (digits2_pos p + d)%positive.
Proof.
  induction d as [|d IH] using Pos.peano_ind.
  - simpl. lia.
  - rewrite Pos.iter_succ. simpl. rewrite IH. lia.
Qed.

Lemma binary_round_finite (p : positive) :
  (Z.pos p < 2 ^ 53)%Z ->
  exists m e, binary_round prec emax false p 0 = S754_finite false m e.
Proof.
  intros Hp.
  pose proof (digits2_pos_le p 53 ltac:(lia) Hp) as Hk.
  unfold binary_round.
  assert (Hal : exists mz,
             shl_align p 0 (fexp prec emax (Z.pos (digits2_pos p) + 0))
             = (mz, (Z.pos (digits2_pos p) - 53)%Z)
             /\ digits2_pos mz = 53%positive).
  { unfold shl_align, fexp, emin, prec, emax.
    rewrite Z.add_0_r, Z.sub_0_r.
    rewrite Z.max_l by lia.
    destruct (Z.pos (digits2_pos p) - 53)%Z as [|q|q] eqn:E; [| lia |].
    - exists p. split; [reflexivity|]. lia.
    - exists (Pos.iter xO p q). split; [reflexivity|].
      rewrite digits2_pos_iter_xO. lia. }
  destruct Hal as (mz & -> & Hd).
  unfold binary_round_aux, shr_fexp. cbn [Zdigits2 shr_record_of_loc].
  rewrite Hd.
  assert (Hf : (fexp prec emax (53 + (Z.pos (digits2_pos p) - 53))
                - (Z.pos (digits2_pos p) - 53) = 0)%Z).
  { unfold fexp, emin, prec, emax. lia. }
  rewrite Hf. cbn [shr shr_m loc_of_shr_record round_nearest_even Zdigits2].
  rewrite Hd, Hf. cbn [shr shr_m].
  assert (Hle : (Z.pos (digits2_pos p) - 53 <=? emax - prec)%Z = true).
  { apply Z.leb_le. unfold emax, prec. lia. }
  rewrite Hle. eauto.
Qed.

Lemma lenF_finite (n : nat) :
  0 < n -> (Z.of_nat n < 2 ^ 53)%Z ->
  exists m e, Prim2SF (lenF n) = S754_finite false m e.
Proof.
  intros Hpos Hlt. unfold lenF.
  rewrite FloatAxioms.of_uint63_spec, Uint63.of_Z_spec.
  rewrite Z.mod_small.
  2:{ split; [lia|]. change wB with (2 ^ 63)%Z.
      apply Z.lt_trans with (2 ^ 53)%Z; [exact Hlt|]. reflexivity. }
  destruct (Z.of_nat n) as [|p|p] eqn:E; [lia| |lia].
  unfold binary_normalize. now apply binary_round_finite.
Qed.

Lemma zero_div_lenF (n : nat) :
  0 < n -> (Z.of_nat n < 2 ^ 53)%Z -> (lenF 0 / lenF n)%float = 0%float.
Proof.
  intros Hpos Hlt. destruct (lenF_finite n Hpos Hlt) as (m & e & E).
  apply FloatAxioms.Prim2SF_inj.
  rewrite FloatAxioms.div_spec, E. reflexivity.
Qed.

(** Trades that are all [NaN] count for no win: the win rate is 0. *)
Lemma winRate_zero_of_nan_trades (ts : list BacktestTrade)
      (initialCapital finalCapital maxDrawdown : float) :
  Forall Spec.nanTrade ts ->
  (Z.of_nat (length ts) < 2 ^ 53)%Z ->
  winRate (calculateSummary ts initialCapital finalCapital maxDrawdown)
  = 0%float.
Proof.
  intros Hnan Hlen. unfold calculateSummary. cbn [winRate].
  rewrite !(filterTrades_nan _ _ eq_refl Hnan). cbn [length].
  destruct (Nat.ltb_spec 0 (length ts)) as [Hpos|_]; [|reflexivity].
  rewrite zero_div_lenF by assumption. reflexivity.
Qed.

(** Which lines the thresholds give. *)
Lemma recommendations_lines (r : BacktestResult) :
  (In refineEntries (recommendations r)
   <-> PrimFloat.ltb (winRate (summary r)) 60%float = true)
  /\ (In reduceDrawdowns (recommendations r)
      <-> PrimFloat.ltb 20%float (maxDrawdown (summary r)) = true)
  /\ (In lowRiskAdjustedReturns (recommendations r)
      <-> PrimFloat.ltb (sharpeRatio (summary r)) 1%float = true)
  /\ (In lowProfitFactor (recommendations r)
      <-> PrimFloat.ltb (profitFactor (summary r)) 1.5%float = true)
  /\ (In overTrading (recommendations r)
      <-> PrimFloat.ltb (averageHoldTime (summary r)) 1%float = true)
  /\ (In goodPerformance (recommendations r)
      <-> recommendations r = [goodPerformance])
  /\ (recommendations r = [goodPerformance]
      <-> PrimFloat.ltb (winRate (summary r)) 60%float = false
          /\ PrimFloat.ltb 20%float (maxDrawdown (summary r)) = false
          /\ PrimFloat.ltb (sharpeRatio (summary r)) 1%float = false
          /\ PrimFloat.ltb (profitFactor (summary r)) 1.5%float = false
          /\ PrimFloat.ltb (averageHoldTime (summary r)) 1%float = false)
  /\ recommendations r <> [].
Proof.
  unfold recommendations.
  destruct (PrimFloat.ltb (winRate (summary r)) 60),
    (PrimFloat.ltb 20 (maxDrawdown (summary r))),
    (PrimFloat.ltb (sharpeRatio (summary r)) 1),
    (PrimFloat.ltb (profitFactor (summary r)) 1.5),
    (PrimFloat.ltb (averageHoldTime (summary r)) 1);
    cbn [app In];
    unfold goodPerformance, refineEntries, reduceDrawdowns,
      lowRiskAdjustedReturns, lowProfitFactor, overTrading;
    repeat split;
    try discriminate; try reflexivity; try (intros _; auto 10; fail);
    intros H;
    repeat match goal with
           | H : _ \/ _ |- _ => destruct H as [H|H]
           | H : _ /\ _ |- _ => destruct H as [? H]
           | H : False |- _ => destruct H
           | H : _ = _ |- _ => discriminate H
           end.
Qed.

(** X28. The recommendations of a report, whatever result it is given
    (the endpoint hands it the result of the request body), are never
    empty; each of the five lines is there exactly when its figure is on
    the wrong side of its threshold; the line on good performance is there
    exactly when none of the five is, and then stands alone, as for a
    result with a win rate of 70, a drawdown of 5, a Sharpe ratio of 1.5, a
    profit factor of 2 and a hold time of 24.  For the result of a run of
    the engine, the line on low risk-adjusted returns and the line on a low
    profit factor are never given: the Sharpe ratio of a run is [NaN] and
    its profit factor Infinity, and neither is below its threshold; and the
    line on the win rate is always given, so never the line on good
    performance: no trade of a run counts as a win, and its win rate is 0
    (for fewer than 2^53 trades, as every array holds). *)
Theorem recommendations_of_a_run :
  (forall r : BacktestResult,
      recommendations r <> []
      /\ (In goodPerformance (recommendations r)
          <-> recommendations r = [goodPerformance])
      /\ (recommendations r = [goodPerformance]
          <-> PrimFloat.ltb (winRate (summary r)) 60%float = false
              /\ PrimFloat.ltb 20%float (maxDrawdown (summary r)) = false
              /\ PrimFloat.ltb (sharpeRatio (summary r)) 1%float = false
              /\ PrimFloat.ltb (profitFactor (summary r)) 1.5%float = false
              /\ PrimFloat.ltb (averageHoldTime (summary r)) 1%float = false)
      /\ (In refineEntries (recommendations r)
          <-> PrimFloat.ltb (winRate (summary r)) 60%float = true)
      /\ (In reduceDrawdowns (recommendations r)
          <-> PrimFloat.ltb 20%float (maxDrawdown (summary r)) = true)
      /\ (In lowRiskAdjustedReturns (recommendations r)
          <-> PrimFloat.ltb (sharpeRatio (summary r)) 1%float = true)
      /\ (In lowProfitFactor (recommendations r)
          <-> PrimFloat.ltb (profitFactor (summary r)) 1.5%float = true)
      /\ (In overTrading (recommendations r)
          <-> PrimFloat.ltb (averageHoldTime (summary r)) 1%float = true))
  /\ recommendations Fixtures.soundResult = [goodPerformance]
  /\ (forall (engine : BacktestingEngine)
             (strategyManager : StrategyManager.t) (clock : nat -> Clock)
             (c : BacktestConfig) (r : BacktestResult),
         runBacktest engine strategyManager clock c = inr r ->
         ~ In lowRiskAdjustedReturns (recommendations r)
         /\ ~ In lowProfitFactor (recommendations r)
         /\ ((Z.of_nat (length (trades r)) < 2 ^ 53)%Z ->
             In refineEntries (recommendations r)
             /\ ~ In goodPerformance (recommendations r))).
Proof.
  split; [|split; [reflexivity|]].
  - intros r.
    destruct (recommendations_lines r)
      as (H1 & H2 & H3 & H4 & H5 & H6 & H7 & H8).
    repeat split; try tauto; try apply H6; try apply H7.
  - intros engine strategyManager clock c r Hr.
    pose proof (runBacktest_sharpeRatio_nan _ _ _ _ _ Hr) as Hsharpe.
    destruct (runBacktest_inv _ _ _ _ _ Hr) as (fd & _ & Ht & _ & Hs).
    assert (Hnan : Forall Spec.nanTrade (trades r))
      by (rewrite Ht; apply simulate_poisoned).
    assert (Hpf : profitFactor (summary r) = infinity)
      by (rewrite Hs; now apply profitFactor_infinite_of_nan_trades).
    destruct (recommendations_lines r)
      as (H1 & _ & H3 & H4 & _ & H6 & H7 & _).
    split; [rewrite H3, Hsharpe; discriminate|].
    split; [rewrite H4, Hpf; discriminate|].
    intros Hlen.
    assert (Hw : winRate (summary r) = 0%float)
      by (rewrite Hs; now apply winRate_zero_of_nan_trades).
    split; [rewrite H1, Hw; reflexivity|].
    rewrite H6, H7, Hw. intros [H _]. discriminate H.
Qed.

Lemma recommendations_of_a_run_witness :
  exists r,
    runBacktest Fixtures.engine Fixtures.defaultManager (Fixtures.clockAt 0)
                (Fixtures.configFor 50) = inr r
    /\ length (trades r) = 29
    /\ In refineEntries (recommendations r)
    /\ ~ In goodPerformance (recommendations r)
    /\ ~ In lowRiskAdjustedReturns (recommendations r)
    /\ ~ In lowProfitFactor (recommendations r).
Proof.
  destruct (runBacktest Fixtures.engine Fixtures.defaultManager
                        (Fixtures.clockAt 0) (Fixtures.configFor 50))
    as [e|r] eqn:Hr; [vm_compute in Hr; discriminate|].
  exists r. split; [reflexivity|].
  assert (Hlen : length (trades r) = 29).
  { pose proof Hr as Hr'. vm_compute in Hr'. injection Hr' as <-.
    reflexivity. }
  destruct (proj2 (proj2 recommendations_of_a_run)
              Fixtures.engine Fixtures.defaultManager (Fixtures.clockAt 0)
              (Fixtures.configFor 50) r Hr)
    as (Hs & Hp & Hw).
  destruct (Hw ltac:(rewrite Hlen; reflexivity)) as [Hrefine Hgood].
  auto 10.
Defined.

End Recommendations.

(** ** The backtest endpoint *)

Section BacktestEndpoint.
Import Backtesting BacktestRoute.
Context {Result : Type}.
Variable engine : BacktestingEngine.
Variable strategyManager : StrategyManager.t.
Variable clock : nat -> Clock.
Variable clocks : nat -> nat -> Clock.
Variable Date_parse : string -> float.
Variable now : string.
Variable TypeError_message : string.
Variable generateBacktestReport : Result -> exn + string.

Local Abbreviation handle :=
  (POST engine strategyManager clock clocks Date_parse now TypeError_message
        generateBacktestReport).

Lemma leb_nan_l (a : float) : PrimFloat.leb nan a = false.
Proof. rewrite FloatAxioms.leb_spec. reflexivity. Qed.

Lemma leb_nan_r (a : float) : PrimFloat.leb a nan = false.
Proof.
  rewrite FloatAxioms.leb_spec. change (Prim2SF nan) with S754_nan.
  unfold SFleb. destruct (Prim2SF a); reflexivity.
Qed.

Lemma filter_inRange_without_date (c : BacktestConfig)
      (series : list HistoricalData) :
  Backtesting.startDate c = nan \/ Backtesting.endDate c = nan ->
  filter (inRange c) series = [].
Proof.
  intros H. induction series as [|d series IH]; [reflexivity|].
  cbn [List.filter]. rewrite IH. unfold inRange.
  destruct H as [-> | ->]; rewrite ?leb_nan_l, ?leb_nan_r, ?andb_false_r;
    reflexivity.
Qed.

(** X29. A request to run a backtest that lacks the symbol, the strategy,
    the start date or the end date (or gives it empty) is answered 400.
    Any other is answered 500 Internal server error when the engine has no
    series for the symbol or fewer than 50 bars lie in the range of dates,
    with the message of the engine, and 200 with the result of the run
    otherwise. *)
Theorem POST_run_answers (body : Body Result) :
  action body = Some "run" ->
  (missing (BacktestRoute.symbol body) || missing (BacktestRoute.strategy body)
   || missing (BacktestRoute.startDate body)
   || missing (BacktestRoute.endDate body) = true ->
   handle body
   = {| status := 400;
        json := Failure "Missing required fields for backtest" None |})
  /\ (missing (BacktestRoute.symbol body)
      || missing (BacktestRoute.strategy body)
      || missing (BacktestRoute.startDate body)
      || missing (BacktestRoute.endDate body) = false ->
      match historicalData engine
            !! Backtesting.symbol (configOf Date_parse body) with
      | None =>
          handle body
          = {| status := 500;
               json :=
                 Failure "Internal server error"
                         (Some ("No historical data available for "
                                +:+ Backtesting.symbol
                                      (configOf Date_parse body))) |}
      | Some series =>
          if length (filter (inRange (configOf Date_parse body)) series) <? 50
          then
            handle body
            = {| status := 500;
                 json :=
                   Failure "Internal server error"
                           (Some "Insufficient historical data for backtesting")
              |}
          else
            exists result,
              runBacktest engine strategyManager clock
                          (configOf Date_parse body) = inr result
              /\ handle body
                 = {| status := 200; json := RunDone result now |}
      end).
Proof.
  intros Ha. unfold POST. rewrite Ha. cbn [String.eqb Ascii.eqb
                                           Bool.eqb andb].
  split; intros Hm; rewrite Hm; [reflexivity|].
  unfold runBacktest.
  destruct (historicalData engine !! _) as [series|]; [|reflexivity].
  destruct (length (filter _ series) <? 50); [reflexivity|].
  eexists. split; reflexivity.
Qed.

(** X30. A request to optimize that names a symbol, a strategy and
    ranges of the parameters is answered 500 Internal server error, with
    the message of the [TypeError], when the generation of the combinations
    raises, as for the ranges [{a: 5}]; otherwise it is answered 200 with
    the sorted results of the runs that returned, also where the same
    request to run is answered 500: when the engine has no series for the
    symbol, when fewer than 50 bars lie in the range of dates, and when a
    date is absent from the request, the answer is 200 with an empty list
    of results.  Ranges whose every property is an array are always
    answered 200. *)
Theorem POST_optimize_answers (body : Body Result)
        (ranges : list (string * AnyRanges.Candidates)) :
  action body = Some "optimize" ->
  parameterRanges body = Some ranges ->
  missing (BacktestRoute.symbol body) = false ->
  missing (BacktestRoute.strategy body) = false ->
  match AnyRanges.generateParameterCombinations (AnyRanges.Properties ranges)
  with
  | inl _ =>
      handle body
      = {| status := 500;
           json := Failure "Internal server error" (Some TypeError_message) |}
  | inr combinations =>
      exists results,
        handle body = {| status := 200; json := OptimizeDone results now |}
        /\ results
           = sortByFitness
               (flat_map (evaluateCombination engine strategyManager clocks
                                              (configOf Date_parse body))
                         (enumerate combinations))
        /\ (historicalData engine
            !! Backtesting.symbol (configOf Date_parse body) = None
            \/ (exists series,
                  historicalData engine
                  !! Backtesting.symbol (configOf Date_parse body)
                  = Some series
                  /\ length (filter (inRange (configOf Date_parse body))
                                    series) < 50)
            \/ BacktestRoute.startDate body = None
            \/ BacktestRoute.endDate body = None ->
            results = [])
  end
  /\ (forall a rest,
         ranges = (a, AnyRanges.NotIterable) :: rest ->
         handle body
         = {| status := 500;
              json := Failure "Internal server error"
                              (Some TypeError_message) |})
  /\ (forall arrays,
         ranges = AnyRanges.ofArrays arrays ->
         handle body
         = {| status := 200;
              json := OptimizeDone
                        (optimizeStrategy engine strategyManager clocks
                                          (configOf Date_parse body) arrays)
                        now |}).
Proof.
  intros Ha Hr Hs Hst.
  assert (Hbody :
    handle body
    = match AnyRanges.optimizeStrategy
              engine strategyManager clocks (configOf Date_parse body)
              (AnyRanges.Properties ranges) with
      | inr results => {| status := 200; json := OptimizeDone results now |}
      | inl e => internalServerError TypeError_message e
      end).
  { unfold POST. rewrite Ha, Hr, Hs, Hst.
    cbn [String.eqb Ascii.eqb Bool.eqb andb orb]. reflexivity. }
  rewrite Hbody. clear Hbody.
  split; [|split].
  - unfold AnyRanges.optimizeStrategy.
    destruct (AnyRanges.generateParameterCombinations
                (AnyRanges.Properties ranges)) as [e|combinations] eqn:Eg.
    + apply generateParameterCombinations_raises_TypeError in Eg as ->.
      reflexivity.
    + eexists. split; [reflexivity|]. split; [reflexivity|].
      intros H.
      rewrite flat_map_evaluateCombination_nil_of_failures; [reflexivity|].
      intros k. unfold runBacktest.
      destruct (historicalData engine !! _) as [series|] eqn:Es; [|eauto].
      assert (Hlt : length (filter (inRange (configOf Date_parse body))
                                   series) < 50).
      { destruct H as [H|[(series' & E' & Hlt)|H]].
        - discriminate H.
        - injection E' as <-. exact Hlt.
        - rewrite filter_inRange_without_date; [simpl; lia|].
          unfold configOf, timeOf.
          cbn [Backtesting.startDate Backtesting.endDate].
          destruct H as [-> | ->]; auto. }
      apply Nat.ltb_lt in Hlt. rewrite Hlt. eauto.
  - intros a rest ->. reflexivity.
  - intros arrays ->. now rewrite optimizeStrategy_ofArrays.
Qed.

End BacktestEndpoint.

Section BacktestEndpointExamples.
Import Backtesting BacktestRoute.

Lemma POST_run_answers_witness :
  RouteFixtures.answer (RouteFixtures.tenDays "run")
  = {| status := 500;
       json := Failure "Internal server error"
                       (Some "Insufficient historical data for backtesting") |}.
Proof.
  pose proof (proj2 (POST_run_answers
                       Fixtures.engine Fixtures.defaultManager
                       (Fixtures.clockAt 0) (fun _ => Fixtures.clockAt 0)
                       RouteFixtures.Date_parse "2024-01-01T00:00:00.000Z"
                       "Cannot read properties of undefined"
                       (fun _ => inr EmptyString)
                       (RouteFixtures.tenDays "run") eq_refl) eq_refl) as H.
  vm_compute in H. vm_compute. exact H.
Defined.

Lemma POST_optimize_answers_witness :
  RouteFixtures.answer (RouteFixtures.tenDays "optimize")
  = {| status := 200;
       json := OptimizeDone [] "2024-01-01T00:00:00.000Z" |}
  /\ POST Fixtures.engine Fixtures.defaultManager (Fixtures.clockAt 0)
          (fun _ => Fixtures.clockAt 0) RouteFixtures.Date_parse
          "2024-01-01T00:00:00.000Z" "ranges[firstKey] is not iterable"
          (fun _ : unit => inr EmptyString)
          (RouteFixtures.notIterable "optimize")
     = {| status := 500;
          json := Failure "Internal server error"
                          (Some "ranges[firstKey] is not iterable") |}.
Proof.
  split.
  - pose proof (proj2 (proj2 (POST_optimize_answers
                  Fixtures.engine Fixtures.defaultManager
                  (Fixtures.clockAt 0) (fun _ => Fixtures.clockAt 0)
                  RouteFixtures.Date_parse "2024-01-01T00:00:00.000Z"
                  "Cannot read properties of undefined"
                  (fun _ => inr EmptyString)
                  (RouteFixtures.tenDays "optimize")
                  (AnyRanges.ofArrays Fixtures.twoByTwo)
                  eq_refl eq_refl eq_refl eq_refl))
                Fixtures.twoByTwo eq_refl) as H.
    unfold RouteFixtures.answer. rewrite H. unfold optimizeStrategy.
    rewrite collectResults_nil_of_failures; [reflexivity|].
    intros k. eexists. vm_compute. reflexivity.
  - exact (proj1 (proj2 (POST_optimize_answers
                    Fixtures.engine Fixtures.defaultManager
                    (Fixtures.clockAt 0) (fun _ => Fixtures.clockAt 0)
                    RouteFixtures.Date_parse "2024-01-01T00:00:00.000Z"
                    "ranges[firstKey] is not iterable"
                    (fun _ => inr EmptyString)
                    (RouteFixtures.notIterable "optimize")
                    [ ("a", AnyRanges.NotIterable) ]
                    eq_refl eq_refl eq_refl eq_refl)) "a" [] eq_refl).
Defined.

End BacktestEndpointExamples.
